(** * Invoice export and template rendering

    A shallow embedding of [server/accounting_export.py] (class
    [AccountingExporter]) and [server/template_processor.py] (class
    [InvoiceTemplateProcessor]), with the properties their specification
    states about them.

    Python values are an inductive type [pyval]; a dict is an association
    list in insertion order; an exception is a value of [exn] carried by the
    [result] monad.  The standard-library and third-party functions the two
    modules call ([float], [json], [datetime], [str.upper], the Unicode part
    of the regular expression class [\w]) are the fields of two interfaces,
    [FloatOps] and [Library]: every theorem holds for all their
    implementations.  A small concrete implementation, [Sample], is used
    for the closed examples only. *)

From Stdlib Require Import List String Ascii ZArith Bool Arith Lia.
From Stdlib Require Import DecimalString DecimalPos DecimalZ.
From Stdlib Require QArith.
From Equations Require Import Equations.
Import ListNotations.

Set Warnings "-register-all".
Open Scope string_scope.

(** ** Exceptions and the result monad *)

Inductive exn : Type :=
| KeyError (key : string)               (* d[key], key absent *)
| UnsupportedFormat (format_type : string)
    (* ValueError(f"Unsupported format: {format_type}") *)
| InvalidIsoformat (date_string : string)
    (* ValueError raised by datetime.fromisoformat *)
| JSONDecodeError (doc : string)        (* raised by json.loads *)
| FloatValueError (s : string)          (* ValueError raised by float(s) *)
| FormatCodeError                       (* ValueError: format code f on a str *)
| TypeError
| AttributeError
| OverflowError.

Inductive result (A : Type) : Type :=
| Ok (a : A)
| Raise (e : exn).
Arguments Ok {A} a.
Arguments Raise {A} e.

Definition bind {A B : Type} (r : result A) (k : A -> result B) : result B :=
  match r with
  | Ok a => k a
  | Raise e => Raise e
  end.

Notation "x <- r ;; k" := (bind r (fun x => k))
  (at level 61, r at next level, right associativity).

Definition is_ok {A : Type} (r : result A) : bool :=
  match r with Ok _ => true | Raise _ => false end.

(** [for x in l: ys.append(f(x))], stopping at the first exception. *)
Fixpoint mapM {A B : Type} (f : A -> result B) (l : list A) : result (list B) :=
  match l with
  | [] => Ok []
  | x :: l' => y <- f x ;; ys <- mapM f l' ;; Ok (y :: ys)
  end.

(** ** Characters and strings *)

Definition TAB : string := String (ascii_of_nat 9) EmptyString.
Definition CR : ascii := ascii_of_nat 13.
Definition LF : ascii := ascii_of_nat 10.
Definition DQUOTE : ascii := ascii_of_nat 34.
Definition CRLF : string := String CR (String LF EmptyString).
Definition NEWLINE : string := String LF EmptyString.

(** [pat in s] *)
Fixpoint contains (pat s : string) : bool :=
  if String.prefix pat s then true
  else match s with
       | EmptyString => false
       | String _ s' => contains pat s'
       end.

(** [s.replace('Z', '+00:00')] *)
Fixpoint replace_Z (s : string) : string :=
  match s with
  | EmptyString => EmptyString
  | String c s' =>
      if Ascii.eqb c "Z" then "+00:00" ++ replace_Z s'
      else String c (replace_Z s')
  end.

(** [str(n)] for an int *)
Definition int_str (z : Z) : string := NilZero.string_of_int (Z.to_int z).

Definition enumerate {A : Type} (l : list A) : list (nat * A) :=
  combine (seq 0 (List.length l)) l.

(** A value together with the equation that defines it, for [with] clauses
    whose branches need that equation. *)
Definition inspect {A : Type} (a : A) : {b : A | a = b} := exist _ a eq_refl.

(** ** Floating point, as an interface *)

Class FloatOps : Type := {
  pyfloat : Type;
  float_of_int : Z -> option pyfloat;      (* float(n); None: OverflowError *)
  float_of_str : string -> option pyfloat; (* float(s); None: ValueError *)
  float_mul : pyfloat -> pyfloat -> pyfloat;
  float_div100 : pyfloat -> pyfloat;       (* x / 100 *)
  float_is_zero : pyfloat -> bool;         (* x == 0 *)
  float_pos : pyfloat -> bool;             (* x > 0 *)
  float_repr : pyfloat -> string;          (* str(x) *)
  float_fmt : nat -> pyfloat -> string     (* format(x, '.Nf') *)
}.

(** ** Python values

    The values of the JSON data model, over the carrier of the floats. *)

Inductive value (F : Type) : Type :=
| VNone
| VBool (b : bool)
| VInt (z : Z)
| VFloat (f : F)
| VStr (s : string)
| VList (l : list (value F))
| VDict (d : list (string * value F)).
Arguments VNone {F}.
Arguments VBool {F} b.
Arguments VInt {F} z.
Arguments VFloat {F} f.
Arguments VStr {F} s.
Arguments VList {F} l.
Arguments VDict {F} d.

Section Program.

Context {FO : FloatOps}.

Definition pyval : Type := value pyfloat.

Definition pydict : Type := list (string * pyval).

(** ** The library functions the two modules call *)

Class Library : Type := {
  datetime : Type;
  fromisoformat : string -> option datetime; (* None: ValueError *)
  strftime : datetime -> string -> string;
  json_loads : string -> option pyval;       (* None: JSONDecodeError *)
  json_dumps : pyval -> string;
  container_str : pyval -> string;           (* str(v) for a list or a dict *)
  str_upper : string -> string;
  str_title : string -> string;
  unicode_word : ascii -> bool               (* \w beyond ASCII *)
}.

Context {L : Library}.

(** *** Dicts *)

Fixpoint dict_get (d : pydict) (k : string) : option pyval :=
  match d with
  | [] => None
  | (k', v) :: d' => if String.eqb k' k then Some v else dict_get d' k
  end.

(** [d.get(k, default)] *)
Definition get_default (d : pydict) (k : string) (default : pyval) : pyval :=
  match dict_get d k with
  | Some v => v
  | None => default
  end.

(** [d[k]] *)
Definition getitem (d : pydict) (k : string) : result pyval :=
  match dict_get d k with
  | Some v => Ok v
  | None => Raise (KeyError k)
  end.

(** [d[k] = v] *)
Fixpoint dict_set (d : pydict) (k : string) (v : pyval) : pydict :=
  match d with
  | [] => [(k, v)]
  | (k', v') :: d' =>
      if String.eqb k' k then (k', v) :: d' else (k', v') :: dict_set d' k v
  end.

(** *** Conversions *)

(** [bool(v)] *)
Definition truthy (v : pyval) : bool :=
  match v with
  | VNone => false
  | VBool b => b
  | VInt z => negb (Z.eqb z 0)
  | VFloat f => negb (float_is_zero f)
  | VStr s => negb (String.eqb s EmptyString)
  | VList l => match l with [] => false | _ => true end
  | VDict d => match d with [] => false | _ => true end
  end.

(** [str(v)], also what an f-string field [{v}] produces *)
Definition py_str (v : pyval) : string :=
  match v with
  | VNone => "None"
  | VBool true => "True"
  | VBool false => "False"
  | VInt z => int_str z
  | VFloat f => float_repr f
  | VStr s => s
  | VList _ | VDict _ => container_str v
  end.

Definition of_option {A : Type} (e : exn) (o : option A) : result A :=
  match o with
  | Some a => Ok a
  | None => Raise e
  end.

(** [float(v)] *)
Definition py_float (v : pyval) : result pyfloat :=
  match v with
  | VInt z => of_option OverflowError (float_of_int z)
  | VBool b => of_option OverflowError (float_of_int (if b then 1 else 0))
  | VFloat f => Ok f
  | VStr s => of_option (FloatValueError s) (float_of_str s)
  | VNone | VList _ | VDict _ => Raise TypeError
  end.

(** [format(v, '.2f')], the f-string field [{v:.2f}] *)
Definition format_2f (v : pyval) : result string :=
  match v with
  | VInt _ | VBool _ | VFloat _ => f <- py_float v ;; Ok (float_fmt 2 f)
  | VStr _ => Raise FormatCodeError
  | VNone | VList _ | VDict _ => Raise TypeError
  end.

(** [for x in v]: the elements the loop visits *)
Definition py_iter (v : pyval) : result (list pyval) :=
  match v with
  | VList l => Ok l
  | VDict d => Ok (map (fun kv => VStr (fst kv)) d)
  | VStr s => Ok (map (fun c => VStr (String c EmptyString)) (list_ascii_of_string s))
  | VNone | VBool _ | VInt _ | VFloat _ => Raise TypeError
  end.

(** [v[k]] for a string key *)
Definition subscript (v : pyval) (k : string) : result pyval :=
  match v with
  | VDict d => getitem d k
  | _ => Raise TypeError
  end.

(** [v.get(k, default)] *)
Definition method_get (v : pyval) (k : string) (default : pyval) : result pyval :=
  match v with
  | VDict d => Ok (get_default d k default)
  | _ => Raise AttributeError
  end.

(** [v.upper()], [v.title()], [v.replace(...)]: methods of str only *)
Definition as_str (v : pyval) : result string :=
  match v with
  | VStr s => Ok s
  | _ => Raise AttributeError
  end.

(** ** template_processor.py *)

(** *** Token substitution *)

(** The class [\w] of a str pattern: letters, digits and the underscore; the
    characters beyond ASCII are left to the library. *)
Definition is_word (c : ascii) : bool :=
  let n := nat_of_ascii c in
  if (n <? 128)%nat then
    ((48 <=? n) && (n <=? 57) || (65 <=? n) && (n <=? 90)
     || (97 <=? n) && (n <=? 122) || (n =? 95))%nat
  else unicode_word c.

(** The longest run of word characters at the head of [s], and what follows. *)
Fixpoint span_word (s : string) : string * string :=
  match s with
  | EmptyString => (EmptyString, EmptyString)
  | String c s' =>
      if is_word c then
        let (w, r) := span_word s' in (String c w, r)
      else (EmptyString, s)
  end.

(** A match of [\{\{(\w+)\}\}] anchored at the head of [s]: the captured
    group and the text after the match.  The greedy [\w+] takes the whole
    run, and no shorter run can be followed by a closing brace. *)
Definition match_token (s : string) : option (string * string) :=
  match s with
  | String a (String b s1) =>
      if Ascii.eqb a "{" && Ascii.eqb b "{" then
        match span_word s1 with
        | (String c w, String x (String y rest)) =>
            if Ascii.eqb x "}" && Ascii.eqb y "}"
            then Some (String c w, rest) else None
        | _ => None
        end
      else None
  | _ => None
  end.

(** The inner function [replace_var]. *)
Definition replace_var (data : pydict) (var_name : string) : string :=
  py_str (get_default data var_name (VStr ("{{" ++ var_name ++ "}}"))).

Lemma span_word_length (s : string) :
  String.length (fst (span_word s)) + String.length (snd (span_word s))
  = String.length s.
Proof.
  induction s as [|c s IH]; simpl; [reflexivity|].
  destruct (is_word c); [|reflexivity].
  destruct (span_word s) as [w r]; simpl in *. lia.
Qed.

Lemma match_token_shorter (s name rest : string) :
  match_token s = Some (name, rest) -> String.length rest < String.length s.
Proof.
  unfold match_token.
  destruct s as [|a [|b s]]; try discriminate.
  destruct (Ascii.eqb a "{" && Ascii.eqb b "{"); [|discriminate].
  pose proof (span_word_length s) as Hlen.
  destruct (span_word s) as [[|c w] [|x [|y r]]]; try discriminate.
  destruct (Ascii.eqb x "}" && Ascii.eqb y "}"); [|discriminate].
  intros H; inversion H; subst. simpl in *. lia.
Qed.

(** [re.sub(r'\{\{(\w+)\}\}', replace_var, text)]: scan from the left; at a
    match, emit the replacement and go on after it; otherwise copy one
    character. *)
Equations? re_sub (data : pydict) (s : string) : string
  by wf (String.length s) lt :=
  re_sub data EmptyString := EmptyString;
  re_sub data (String c s') with inspect (match_token (String c s')) => {
    | exist _ (Some (name, rest)) _ := replace_var data name ++ re_sub data rest;
    | exist _ None _ := String c (re_sub data s') }.
Proof.
  exact (match_token_shorter (String c s') name rest e).
Qed.

Definition replace_template_variables (text : string) (data : pydict) : string :=
  if String.eqb text EmptyString then EmptyString
  else re_sub data text.

(** *** Tables and documents, as python-docx presents them *)

Record Table : Type := {
  ncols : nat;               (* grid columns: the cells [add_row] creates *)
  rows : list (list string)  (* [table.rows], each row by the text of its cells *)
}.

Record DocSection : Type := {
  header_paragraphs : list string;
  footer_paragraphs : list string
}.

Record Document : Type := {
  paragraphs : list string;
  tables : list Table;
  sections : list DocSection
}.

(** The mapping built for one item inside the cell loop. *)
Definition item_data (item : pyval) : result pydict :=
  name <- method_get item "name" (VStr EmptyString) ;;
  description <- method_get item "description" (VStr EmptyString) ;;
  quantity <- method_get item "quantity" (VInt 1) ;;
  rate <- method_get item "rate" (VInt 0) ;;
  rate_f <- py_float rate ;;
  amount <- method_get item "amount" (VInt 0) ;;
  amount_f <- py_float amount ;;
  Ok [ ("item_name", name);
       ("item_description", description);
       ("item_quantity", VStr (py_str quantity));
       ("item_rate", VStr ("$" ++ float_fmt 2 rate_f));
       ("item_amount", VStr ("$" ++ float_fmt 2 amount_f)) ].

(** [table._element.remove(table.rows[row_index]._element)] *)
Definition remove_row {A : Type} (row_index : nat) (rs : list A) : list A :=
  firstn row_index rs ++ skipn (S row_index) rs.

(** [new_row.cells[i].text = new_text] *)
Definition set_cell (i : nat) (new_text : string) (cells : list string) : list string :=
  firstn i cells ++ new_text :: skipn (S i) cells.

(** The loop over [enumerate(template_row.cells)] for one item. *)
Fixpoint fill_cells (item : pyval) (cells : list (nat * string))
    (new_row : list string) : result (list string) :=
  match cells with
  | [] => Ok new_row
  | (i, template_text) :: cells' =>
      if (i <? List.length new_row)%nat then
        data <- item_data item ;;
        fill_cells item cells'
          (set_cell i (replace_template_variables template_text data) new_row)
      else fill_cells item cells' new_row
  end.

(** The loop [for item in invoice_items]: [add_row], then fill its cells. *)
Fixpoint add_item_rows (template_row : list string) (items : list pyval)
    (table : Table) : result Table :=
  match items with
  | [] => Ok table
  | item :: items' =>
      let new_row := repeat EmptyString (ncols table) in
      filled <- fill_cells item (enumerate template_row) new_row ;;
      add_item_rows template_row items'
        {| ncols := ncols table; rows := rows table ++ [filled] |}
  end.

(** [process_table_rows]; the index is a row position, never negative where
    [process_document] calls it. *)
Definition process_table_rows (table : Table) (invoice_items : pyval)
    (template_row_index : nat) : result Table :=
  if negb (truthy invoice_items)
     || (List.length (rows table) <=? template_row_index)%nat
  then Ok table
  else
    let template_row := nth template_row_index (rows table) [] in
    let rows_to_remove :=
      seq (S template_row_index)
          (List.length (rows table) - S template_row_index) in
    let kept :=
      fold_left (fun rs row_index => remove_row row_index rs)
                (rev rows_to_remove) (rows table) in
    items <- py_iter invoice_items ;;
    add_item_rows template_row items {| ncols := ncols table; rows := kept |}.

(** [f"${float(invoice_data.get(key, 0)):.2f}"] *)
Definition money_field (invoice_data : pydict) (key : string) : result pyval :=
  f <- py_float (get_default invoice_data key (VInt 0)) ;;
  Ok (VStr ("$" ++ float_fmt 2 f)).

Definition replacement_data (invoice_data : pydict) : result pydict :=
  let get k default := get_default invoice_data k (VStr default) in
  subtotal <- money_field invoice_data "subtotal" ;;
  discount_amount <- money_field invoice_data "discountAmount" ;;
  vat_rate <- py_float (get_default invoice_data "vatRate" (VInt 0)) ;;
  vat_amount <- money_field invoice_data "vatAmount" ;;
  deposit_amount <- money_field invoice_data "depositAmount" ;;
  total <- money_field invoice_data "total" ;;
  Ok [ ("company_name", get "companyName" "Your Company");
       ("company_address", get "companyAddress" EmptyString);
       ("company_phone", get "companyPhone" EmptyString);
       ("company_email", get "companyEmail" EmptyString);
       ("company_website", get "companyWebsite" EmptyString);
       ("invoice_number", get "invoiceNumber" "INV-001");
       ("invoice_date", get "invoiceDate" EmptyString);
       ("due_date", get "dueDate" EmptyString);
       ("status", get "status" "draft");
       ("client_name", get "clientName" EmptyString);
       ("client_email", get "clientEmail" EmptyString);
       ("client_address", get "clientAddress" EmptyString);
       ("client_phone", get "clientPhone" EmptyString);
       ("subtotal", subtotal);
       ("discount_amount", discount_amount);
       ("vat_rate", VStr (float_fmt 1 vat_rate));
       ("vat_amount", vat_amount);
       ("deposit_amount", deposit_amount);
       ("total", total);
       ("currency", VStr "$");
       ("notes", get "notes" EmptyString);
       ("payment_terms", get "paymentTerms" "Net 30 days");
       ("thank_you_message", VStr "Thank you for your business!") ].

(** [if x.text: x.text = self.replace_template_variables(x.text, data)] *)
Definition replace_text (data : pydict) (text : string) : string :=
  if negb (String.eqb text EmptyString)
  then replace_template_variables text data
  else text.

(** The scan for the first row whose joined cell text contains an item token. *)
Fixpoint find_template_row_from (row_index : nat) (rs : list (list string))
    : option nat :=
  match rs with
  | [] => None
  | row :: rs' =>
      if contains "{{item_" (String.concat " " row) then Some row_index
      else find_template_row_from (S row_index) rs'
  end.

Definition find_template_row (table : Table) : option nat :=
  find_template_row_from 0 (rows table).

(** The body of the loop [for table in doc.tables]. *)
Definition process_table (data : pydict) (invoice_items : pyval)
    (table : Table) : result Table :=
  match find_template_row table with
  | Some template_row_index =>
      process_table_rows table invoice_items template_row_index
  | None =>
      Ok {| ncols := ncols table;
            rows := map (map (replace_text data)) (rows table) |}
  end.

(** [process_document], returning the document it saves. *)
Definition process_document (doc : Document) (invoice_data : pydict)
    : result Document :=
  data <- replacement_data invoice_data ;;
  let invoice_items := get_default invoice_data "items" (VList []) in
  new_tables <- mapM (process_table data invoice_items) (tables doc) ;;
  Ok {| paragraphs := map (replace_text data) (paragraphs doc);
        tables := new_tables;
        sections :=
          map (fun sec =>
                 {| header_paragraphs :=
                      map (replace_text data) (header_paragraphs sec);
                    footer_paragraphs :=
                      map (replace_text data) (footer_paragraphs sec) |})
              (sections doc) |}.

(** ** accounting_export.py *)

Definition supported_formats : list string :=
  [ "quickbooks_iif"; "xero_csv"; "sage_csv"; "freshbooks_csv"; "wave_csv";
    "generic_csv" ].

(** The two readings of [datetime.now()] that one call of
    [export_to_quickbooks_iif] makes, in the order it makes them. *)
Record Clock : Type := {
  now_first : datetime;
  now_second : datetime
}.

(** [datetime.fromisoformat(invoice[field].replace('Z', '+00:00')).strftime(fmt)] *)
Definition format_date (invoice : pydict) (field fmt : string) : result string :=
  v <- getitem invoice field ;;
  s <- as_str v ;;
  dt <- of_option (InvalidIsoformat (replace_Z s)) (fromisoformat (replace_Z s)) ;;
  Ok (strftime dt fmt).

(** [json.loads(invoice['items']) if isinstance(invoice['items'], str)
     else invoice['items']] *)
Definition load_items (invoice : pydict) : result pyval :=
  v <- getitem invoice "items" ;;
  match v with
  | VStr s => of_option (JSONDecodeError s) (json_loads s)
  | _ => Ok v
  end.

(** [float(invoice.get('vat', 0)) / 100 * float(invoice['subtotal'])
     if invoice.get('vat') else 0] *)
Definition tax_amount (invoice : pydict) : result pyval :=
  if truthy (get_default invoice "vat" VNone) then
    vat <- py_float (get_default invoice "vat" (VInt 0)) ;;
    subtotal <- getitem invoice "subtotal" ;;
    subtotal_f <- py_float subtotal ;;
    Ok (VFloat (float_mul (float_div100 vat) subtotal_f))
  else Ok (VInt 0).

(** *** The csv module: [csv.DictWriter] over a [StringIO], default dialect *)

Definition needs_quote (s : string) : bool :=
  existsb (fun c => Ascii.eqb c "," || Ascii.eqb c DQUOTE
                    || Ascii.eqb c CR || Ascii.eqb c LF)
          (list_ascii_of_string s).

Fixpoint double_quotes (s : string) : string :=
  match s with
  | EmptyString => EmptyString
  | String c s' =>
      if Ascii.eqb c DQUOTE then String c (String c (double_quotes s'))
      else String c (double_quotes s')
  end.

Definition csv_quote (s : string) : string :=
  if needs_quote s
  then String DQUOTE (double_quotes s ++ String DQUOTE EmptyString)
  else s.

(** The text the writer gives a value: nothing for None, [str] otherwise. *)
Definition csv_cell (v : pyval) : string :=
  match v with
  | VNone => EmptyString
  | _ => py_str v
  end.

Definition csv_line (fields : list string) : string :=
  String.concat "," (map csv_quote fields) ++ CRLF.

(** [writer.writerow(row)]: the values in the order of [fieldnames]. *)
Definition row_fields (fieldnames : list string) (row : pydict) : list string :=
  map (fun key => csv_cell (get_default row key (VStr EmptyString))) fieldnames.

Definition writerow (fieldnames : list string) (row : pydict) : string :=
  csv_line (row_fields fieldnames row).

(** [writeheader()] followed by one [writerow] per row; [output.getvalue()]. *)
Definition csv_text (fieldnames : list string) (rows_written : list pydict) : string :=
  csv_line fieldnames
  ++ String.concat EmptyString (map (writerow fieldnames) rows_written).

(** [invoice['status'].upper()] and [.title()] *)
Definition status_upper (invoice : pydict) : result pyval :=
  v <- getitem invoice "status" ;; s <- as_str v ;; Ok (VStr (str_upper s)).

Definition status_title (invoice : pydict) : result pyval :=
  v <- getitem invoice "status" ;; s <- as_str v ;; Ok (VStr (str_title s)).

(** *** QuickBooks IIF *)

Definition iif_hdr_names : string :=
  String.concat TAB ["!HDR"; "PROD"; "VER"; "REL"; "IIFVER"; "DATE"; "TIME"; "ACCNT"].

Definition iif_hdr (clock : Clock) : string :=
  String.concat TAB
    [ "HDR"; "QuickBooks Pro"; "2023"; "Release"; "1";
      strftime (now_first clock) "%m/%d/%Y";
      strftime (now_second clock) "%H:%M:%S"; "N" ].

Definition iif_trns_names : string :=
  String.concat TAB
    [ "!TRNS"; "TRNSTYPE"; "DATE"; "ACCNT"; "NAME"; "CLASS"; "AMOUNT";
      "DOCNUM"; "MEMO"; "CLEAR"; "TOPRINT"; "NAMEADDR1"; "NAMEADDR2";
      "NAMEADDR3"; "NAMEADDR4"; "NAMEADDR5"; "DUEDATE"; "TERMS"; "PAID";
      "SHIPDATE" ].

(** The fields of the TRNS line of one invoice, between its tabs. *)
Definition iif_trns (invoice : pydict) (date_str due_date_str : string)
    : result (list string) :=
  clientName <- getitem invoice "clientName" ;;
  total <- getitem invoice "total" ;;
  invoiceNumber <- getitem invoice "invoiceNumber" ;;
  addressLine1 <- getitem invoice "addressLine1" ;;
  city <- getitem invoice "city" ;;
  country <- getitem invoice "country" ;;
  Ok [ "TRNS"; "INVOICE"; date_str; "Accounts Receivable"; py_str clientName;
       EmptyString; py_str total; py_str invoiceNumber; EmptyString; "N"; "Y";
       py_str addressLine1; py_str city; py_str country; EmptyString;
       EmptyString; due_date_str; "Net 30"; "N"; EmptyString ].

(** The fields of the SPL line of one item. *)
Definition iif_spl (invoice : pydict) (date_str : string) (item : pyval)
    : result (list string) :=
  clientName <- getitem invoice "clientName" ;;
  amount <- subscript item "amount" ;;
  invoiceNumber <- getitem invoice "invoiceNumber" ;;
  name <- subscript item "name" ;;
  description <- method_get item "description" (VStr EmptyString) ;;
  Ok [ "SPL"; date_str; "Sales"; py_str clientName; EmptyString;
       "-" ++ py_str amount; py_str invoiceNumber;
       py_str name ++ ": " ++ py_str description; "N"; "Y" ].

(** One pass of the loop [for invoice in invoices]: the TRNS record, then
    one SPL record per item. *)
Definition iif_invoice (invoice : pydict) : result (list (list string)) :=
  date_str <- format_date invoice "invoiceDate" "%m/%d/%Y" ;;
  due_date_str <- format_date invoice "dueDate" "%m/%d/%Y" ;;
  trns <- iif_trns invoice date_str due_date_str ;;
  items <- load_items invoice ;;
  item_list <- py_iter items ;;
  spls <- mapM (iif_spl invoice date_str) item_list ;;
  Ok (trns :: spls).

Definition iif_lines (clock : Clock) (records : list (list (list string)))
    : list string :=
  iif_hdr_names :: iif_hdr clock :: iif_trns_names
  :: map (String.concat TAB) (List.concat records) ++ ["ENDTRNS"].

Definition export_to_quickbooks_iif (clock : Clock) (invoices : list pydict)
    : result string :=
  records <- mapM iif_invoice invoices ;;
  Ok (String.concat NEWLINE (iif_lines clock records)).

(** *** Xero CSV *)

Definition xero_fieldnames : list string :=
  [ "ContactName"; "EmailAddress"; "POAddressLine1"; "POCity"; "POCountry";
    "InvoiceNumber"; "InvoiceDate"; "DueDate"; "Total"; "Status";
    "Description"; "Quantity"; "UnitAmount"; "AccountCode"; "TaxType" ].

Definition xero_row (invoice : pydict) (item : pyval) : result pydict :=
  clientName <- getitem invoice "clientName" ;;
  clientEmail <- getitem invoice "clientEmail" ;;
  addressLine1 <- getitem invoice "addressLine1" ;;
  city <- getitem invoice "city" ;;
  country <- getitem invoice "country" ;;
  invoiceNumber <- getitem invoice "invoiceNumber" ;;
  invoiceDate <- format_date invoice "invoiceDate" "%d/%m/%Y" ;;
  dueDate <- format_date invoice "dueDate" "%d/%m/%Y" ;;
  total <- getitem invoice "total" ;;
  status <- status_upper invoice ;;
  name <- subscript item "name" ;;
  description <- method_get item "description" (VStr EmptyString) ;;
  quantity <- subscript item "quantity" ;;
  rate <- subscript item "rate" ;;
  Ok [ ("ContactName", clientName); ("EmailAddress", clientEmail);
       ("POAddressLine1", addressLine1); ("POCity", city);
       ("POCountry", country); ("InvoiceNumber", invoiceNumber);
       ("InvoiceDate", VStr invoiceDate); ("DueDate", VStr dueDate);
       ("Total", total); ("Status", status);
       ("Description", VStr (py_str name ++ ": " ++ py_str description));
       ("Quantity", quantity); ("UnitAmount", rate);
       ("AccountCode", VStr "200"); ("TaxType", VStr "GST") ].

Definition xero_invoice (invoice : pydict) : result (list pydict) :=
  items <- load_items invoice ;;
  item_list <- py_iter items ;;
  mapM (xero_row invoice) item_list.

Definition export_to_xero_csv (invoices : list pydict) : result string :=
  written <- mapM xero_invoice invoices ;;
  Ok (csv_text xero_fieldnames (List.concat written)).

(** *** Sage CSV *)

Definition sage_fieldnames : list string :=
  [ "Customer"; "Invoice_No"; "Date"; "Due_Date"; "Reference"; "Description";
    "Net_Amount"; "Tax_Amount"; "Total_Amount"; "Status"; "Currency" ].

Definition sage_row (invoice : pydict) : result pydict :=
  vat_amount <- tax_amount invoice ;;
  clientName <- getitem invoice "clientName" ;;
  invoiceNumber <- getitem invoice "invoiceNumber" ;;
  date <- format_date invoice "invoiceDate" "%d/%m/%Y" ;;
  due_date <- format_date invoice "dueDate" "%d/%m/%Y" ;;
  reference <- getitem invoice "invoiceNumber" ;;
  customer <- getitem invoice "clientName" ;;
  subtotal <- getitem invoice "subtotal" ;;
  tax <- format_2f vat_amount ;;
  total <- getitem invoice "total" ;;
  status <- status_title invoice ;;
  Ok [ ("Customer", clientName); ("Invoice_No", invoiceNumber);
       ("Date", VStr date); ("Due_Date", VStr due_date);
       ("Reference", reference);
       ("Description", VStr ("Invoice for " ++ py_str customer));
       ("Net_Amount", subtotal); ("Tax_Amount", VStr tax);
       ("Total_Amount", total); ("Status", status);
       ("Currency", VStr "USD") ].

Definition export_to_sage_csv (invoices : list pydict) : result string :=
  written <- mapM sage_row invoices ;;
  Ok (csv_text sage_fieldnames written).

(** *** Wave CSV *)

Definition wave_fieldnames : list string :=
  [ "Customer name"; "Customer email"; "Invoice number"; "Invoice date";
    "Due date"; "Product/Service"; "Description"; "Quantity"; "Rate";
    "Amount"; "Tax name"; "Tax rate"; "Invoice total"; "Invoice status" ].

(** ['VAT' if invoice.get('vat') and float(invoice['vat']) > 0 else ''] *)
Definition wave_tax_name (invoice : pydict) : result pyval :=
  if truthy (get_default invoice "vat" VNone) then
    vat <- getitem invoice "vat" ;;
    vat_f <- py_float vat ;;
    Ok (VStr (if float_pos vat_f then "VAT" else EmptyString))
  else Ok (VStr EmptyString).

(** [f"{invoice.get('vat', 0)}%" if invoice.get('vat') else ''] *)
Definition wave_tax_rate (invoice : pydict) : pyval :=
  if truthy (get_default invoice "vat" VNone)
  then VStr (py_str (get_default invoice "vat" (VInt 0)) ++ "%")
  else VStr EmptyString.

(** [invoice['total'] if i == 0 else ''] *)
Definition wave_invoice_total (invoice : pydict) (i : nat) : result pyval :=
  if (i =? 0)%nat then getitem invoice "total" else Ok (VStr EmptyString).

Definition wave_row (invoice : pydict) (i_item : nat * pyval) : result pydict :=
  let (i, item) := i_item in
  clientName <- getitem invoice "clientName" ;;
  clientEmail <- getitem invoice "clientEmail" ;;
  invoiceNumber <- getitem invoice "invoiceNumber" ;;
  invoiceDate <- format_date invoice "invoiceDate" "%Y-%m-%d" ;;
  dueDate <- format_date invoice "dueDate" "%Y-%m-%d" ;;
  name <- subscript item "name" ;;
  description <- method_get item "description" (VStr EmptyString) ;;
  quantity <- subscript item "quantity" ;;
  rate <- subscript item "rate" ;;
  rate_s <- format_2f rate ;;
  amount <- subscript item "amount" ;;
  amount_s <- format_2f amount ;;
  tax_name <- wave_tax_name invoice ;;
  invoice_total <- wave_invoice_total invoice i ;;
  status <- status_title invoice ;;
  Ok [ ("Customer name", clientName); ("Customer email", clientEmail);
       ("Invoice number", invoiceNumber); ("Invoice date", VStr invoiceDate);
       ("Due date", VStr dueDate); ("Product/Service", name);
       ("Description", description); ("Quantity", quantity);
       ("Rate", VStr rate_s); ("Amount", VStr amount_s);
       ("Tax name", tax_name); ("Tax rate", wave_tax_rate invoice);
       ("Invoice total", invoice_total); ("Invoice status", status) ].

Definition wave_invoice (invoice : pydict) : result (list pydict) :=
  items <- load_items invoice ;;
  item_list <- py_iter items ;;
  mapM (wave_row invoice) (enumerate item_list).

Definition export_to_wave_csv (invoices : list pydict) : result string :=
  written <- mapM wave_invoice invoices ;;
  Ok (csv_text wave_fieldnames (List.concat written)).

(** *** Generic CSV *)

Definition generic_fieldnames : list string :=
  [ "Invoice Number"; "Client Name"; "Client Email"; "Invoice Date";
    "Due Date"; "Subtotal"; "Discount"; "Tax Rate"; "Tax Amount"; "Total";
    "Status"; "Notes"; "Items JSON" ].

(** [invoice['items'] if isinstance(invoice['items'], str)
     else json.dumps(invoice['items'])] *)
Definition items_json (invoice : pydict) : result pyval :=
  v <- getitem invoice "items" ;;
  match v with
  | VStr s => Ok (VStr s)
  | _ => Ok (VStr (json_dumps v))
  end.

Definition generic_row (invoice : pydict) : result pydict :=
  invoiceNumber <- getitem invoice "invoiceNumber" ;;
  clientName <- getitem invoice "clientName" ;;
  clientEmail <- getitem invoice "clientEmail" ;;
  invoiceDate <- format_date invoice "invoiceDate" "%Y-%m-%d" ;;
  dueDate <- format_date invoice "dueDate" "%Y-%m-%d" ;;
  subtotal <- getitem invoice "subtotal" ;;
  vat_amount <- tax_amount invoice ;;
  tax <- format_2f vat_amount ;;
  total <- getitem invoice "total" ;;
  status <- status_title invoice ;;
  items <- items_json invoice ;;
  Ok [ ("Invoice Number", invoiceNumber); ("Client Name", clientName);
       ("Client Email", clientEmail); ("Invoice Date", VStr invoiceDate);
       ("Due Date", VStr dueDate); ("Subtotal", subtotal);
       ("Discount", get_default invoice "discount" (VStr "0"));
       ("Tax Rate", VStr (py_str (get_default invoice "vat" (VStr "0")) ++ "%"));
       ("Tax Amount", VStr tax); ("Total", total); ("Status", status);
       ("Notes", get_default invoice "notes" (VStr EmptyString));
       ("Items JSON", items) ].

Definition export_to_generic_csv (invoices : list pydict) : result string :=
  written <- mapM generic_row invoices ;;
  Ok (csv_text generic_fieldnames written).

(** *** Dispatch *)

Definition export_invoices (clock : Clock) (invoices : list pydict)
    (format_type : string) : result string :=
  if negb (existsb (String.eqb format_type) supported_formats) then
    Raise (UnsupportedFormat format_type)
  else if String.eqb format_type "quickbooks_iif" then
    export_to_quickbooks_iif clock invoices
  else if String.eqb format_type "xero_csv" then
    export_to_xero_csv invoices
  else if String.eqb format_type "sage_csv" then
    export_to_sage_csv invoices
  else if String.eqb format_type "wave_csv" then
    export_to_wave_csv invoices
  else if String.eqb format_type "generic_csv" then
    export_to_generic_csv invoices
  else
    export_to_generic_csv invoices.

End Program.

(** ** A concrete library, for the closed examples

    Numbers are exact rationals printed in decimal, JSON is the fragment
    without escapes and exponents, dates are the forms
    [YYYY-MM-DD] and [YYYY-MM-DDTHH:MM:SS] with an optional fraction and
    offset, and case mapping is the ASCII one.  On integers, and on texts
    inside these fragments, the functions below return what CPython
    returns; the examples use integer amounts and stay inside the
    fragments.  No theorem of the general development depends on this
    module. *)

Module Sample.

Import QArith.QArith_base QArith.Qreduction.
Local Close Scope Q_scope.

Definition pad (width : nat) (s : string) : string :=
  string_of_list_ascii
    (repeat "0"%char (width - String.length s)) ++ s.

Definition nat_str (n : nat) : string := int_str (Z.of_nat n).

(** Rounding to the nearest integer, ties to even. *)
Definition round_half_even (q : Q) : Z :=
  let d := Z.pos (Qden q) in
  let fl := (Qnum q / d)%Z in
  let r2 := (2 * (Qnum q mod d))%Z in
  if (r2 <? d)%Z then fl
  else if (d <? r2)%Z then (fl + 1)%Z
  else if Z.even fl then fl else (fl + 1)%Z.

Definition fmt (digits : nat) (q : Q) : string :=
  let scale := (10 ^ Z.of_nat digits)%Z in
  let m := Z.abs (round_half_even (q * (scale # 1))%Q) in
  let body :=
    int_str (m / scale)
    ++ (if (digits =? 0)%nat then EmptyString
        else "." ++ pad digits (int_str (m mod scale))) in
  if (Qnum q <? 0)%Z then "-" ++ body else body.

(** The digits of a fraction [n/d] below one, at most [fuel] of them. *)
Fixpoint frac_digits (fuel : nat) (n d : Z) : string :=
  match fuel with
  | O => EmptyString
  | S fuel' =>
      if (n =? 0)%Z then EmptyString
      else int_str (10 * n / d) ++ frac_digits fuel' ((10 * n) mod d) d
  end.

Definition repr (q : Q) : string :=
  let d := Z.pos (Qden q) in
  let a := Z.abs (Qnum q) in
  let frac := frac_digits 17 (a mod d) d in
  (if (Qnum q <? 0)%Z then "-" else EmptyString)
  ++ int_str (a / d) ++ "."
  ++ (if String.eqb frac EmptyString then "0" else frac).

Definition all_digits (s : string) : bool :=
  negb (String.eqb s EmptyString)
  && forallb (fun c => (48 <=? nat_of_ascii c)%nat && (nat_of_ascii c <=? 57)%nat)
             (list_ascii_of_string s).

Definition digits_value (s : string) : option Z :=
  if all_digits s then
    match NilEmpty.uint_of_string s with
    | Some u => Some (Z.of_uint u)
    | None => None
    end
  else None.

Fixpoint split_at (sep : ascii) (s : string) : string * option string :=
  match s with
  | EmptyString => (EmptyString, None)
  | String c s' =>
      if Ascii.eqb c sep then (EmptyString, Some s')
      else let (a, b) := split_at sep s' in (String c a, b)
  end.

(** Unsigned decimal literals [ddd] and [ddd.ddd]. *)
Definition unsigned_of_str (s : string) : option Q :=
  match split_at "." s with
  | (whole, None) =>
      match digits_value whole with
      | Some n => Some (n # 1)%Q
      | None => None
      end
  | (whole, Some frac) =>
      match digits_value whole, digits_value frac with
      | Some n, Some f =>
          let scale := (10 ^ Z.of_nat (String.length frac))%Z in
          Some (Qred (Qmake (n * scale + f) (Z.to_pos scale)))
      | _, _ => None
      end
  end.

Definition of_str (s : string) : option Q :=
  match s with
  | String "-" s' =>
      match unsigned_of_str s' with
      | Some q => Some (Qopp q)
      | None => None
      end
  | _ => unsigned_of_str s
  end.

#[export] Instance floats : FloatOps := {|
  pyfloat := Q;
  float_of_int := fun z => Some (z # 1)%Q;
  float_of_str := of_str;
  float_mul := fun x y => Qred (x * y)%Q;
  float_div100 := fun x => Qred (x / (100 # 1))%Q;
  float_is_zero := fun x => (Qnum x =? 0)%Z;
  float_pos := fun x => (0 <? Qnum x)%Z;
  float_repr := repr;
  float_fmt := fmt
|}.

(** *** datetime *)

Record date_time : Type := {
  year : nat; month : nat; day : nat;
  hour : nat; minute : nat; second : nat
}.

Definition num (s : string) : option nat :=
  match digits_value s with
  | Some z => Some (Z.to_nat z)
  | None => None
  end.

Definition leap (y : nat) : bool :=
  ((y mod 4 =? 0) && negb (y mod 100 =? 0) || (y mod 400 =? 0))%nat.

Definition days_in_month (y m : nat) : nat :=
  match m with
  | 2 => if leap y then 29 else 28
  | 4 | 6 | 9 | 11 => 30
  | _ => 31
  end.

Definition parse_date (s : string) : option (nat * nat * nat) :=
  match num (substring 0 4 s), num (substring 5 2 s), num (substring 8 2 s) with
  | Some y, Some m, Some d =>
      if (String.length s =? 10)%nat
         && String.eqb (substring 4 1 s) "-" && String.eqb (substring 7 1 s) "-"
         && (1 <=? y)%nat && (1 <=? m)%nat && (m <=? 12)%nat
         && (1 <=? d)%nat && (d <=? days_in_month y m)%nat
      then Some (y, m, d) else None
  | _, _, _ => None
  end.

Definition parse_hms (s : string) : option (nat * nat * nat) :=
  match num (substring 0 2 s), num (substring 3 2 s), num (substring 6 2 s) with
  | Some h, Some mi, Some sec =>
      if (String.length s =? 8)%nat
         && String.eqb (substring 2 1 s) ":" && String.eqb (substring 5 1 s) ":"
         && (h <? 24)%nat && (mi <? 60)%nat && (sec <? 60)%nat
      then Some (h, mi, sec) else None
  | _, _, _ => None
  end.

Definition valid_fraction (s : string) : bool :=
  all_digits s && ((String.length s =? 3) || (String.length s =? 6))%nat.

Definition valid_offset (s : string) : bool :=
  match num (substring 0 2 s), num (substring 3 2 s) with
  | Some h, Some mi =>
      (String.length s =? 5)%nat && String.eqb (substring 2 1 s) ":"
      && (h <? 24)%nat && (mi <? 60)%nat
  | _, _ => false
  end.

(** The time part after the separator: [HH:MM:SS], then an optional
    fraction, then an optional offset. *)
Definition parse_time (s : string) : option (nat * nat * nat) :=
  let hms := substring 0 8 s in
  let rest := substring 8 (String.length s - 8) s in
  let after_fraction :=
    match rest with
    | String "." r =>
        if valid_fraction (substring 0 6 r) then Some (substring 6 (String.length r - 6) r)
        else if valid_fraction (substring 0 3 r) then Some (substring 3 (String.length r - 3) r)
        else None
    | _ => Some rest
    end in
  match after_fraction with
  | Some EmptyString => parse_hms hms
  | Some (String sign off) =>
      if (Ascii.eqb sign "+" || Ascii.eqb sign "-") && valid_offset off
      then parse_hms hms else None
  | None => None
  end.

Definition iso_parse (s : string) : option date_time :=
  match parse_date (substring 0 10 s) with
  | Some (y, m, d) =>
      match substring 10 (String.length s - 10) s with
      | EmptyString =>
          Some {| year := y; month := m; day := d;
                  hour := 0; minute := 0; second := 0 |}
      | String _ t =>
          match parse_time t with
          | Some (h, mi, sec) =>
              Some {| year := y; month := m; day := d;
                      hour := h; minute := mi; second := sec |}
          | None => None
          end
      end
  | None => None
  end.

Fixpoint format_time (dt : date_time) (f : string) : string :=
  match f with
  | String "%" (String c f') =>
      (if Ascii.eqb c "Y" then pad 4 (nat_str (year dt))
       else if Ascii.eqb c "m" then pad 2 (nat_str (month dt))
       else if Ascii.eqb c "d" then pad 2 (nat_str (day dt))
       else if Ascii.eqb c "H" then pad 2 (nat_str (hour dt))
       else if Ascii.eqb c "M" then pad 2 (nat_str (minute dt))
       else if Ascii.eqb c "S" then pad 2 (nat_str (second dt))
       else String "%" (String c EmptyString))
      ++ format_time dt f'
  | String c f' => String c (format_time dt f')
  | EmptyString => EmptyString
  end.

(** *** json *)

Definition is_ws (c : ascii) : bool :=
  Ascii.eqb c " " || Ascii.eqb c LF || Ascii.eqb c CR
  || Ascii.eqb c (ascii_of_nat 9).

Fixpoint skip_ws (s : string) : string :=
  match s with
  | String c s' => if is_ws c then skip_ws s' else s
  | EmptyString => EmptyString
  end.

(** The body of a string literal up to its closing quote; escapes are
    outside the fragment. *)
Fixpoint scan_string (s : string) : option (string * string) :=
  match s with
  | EmptyString => None
  | String c s' =>
      if Ascii.eqb c DQUOTE then Some (EmptyString, s')
      else if Ascii.eqb c "\" then None
      else if (nat_of_ascii c <? 32)%nat then None
      else match scan_string s' with
           | Some (a, r) => Some (String c a, r)
           | None => None
           end
  end.

Definition is_number_char (c : ascii) : bool :=
  Ascii.eqb c "-" || Ascii.eqb c "."
  || (48 <=? nat_of_ascii c)%nat && (nat_of_ascii c <=? 57)%nat.

Fixpoint span_number (s : string) : string * string :=
  match s with
  | String c s' =>
      if is_number_char c then let (a, r) := span_number s' in (String c a, r)
      else (EmptyString, s)
  | EmptyString => (EmptyString, EmptyString)
  end.

(** JSON forbids a leading zero before further digits. *)
Definition no_leading_zero (s : string) : bool :=
  match s with
  | String "0" (String c _) => Ascii.eqb c "."
  | _ => true
  end.

Definition parse_number (s : string) : option (pyval * string) :=
  let (txt, rest) := span_number s in
  let unsigned := match txt with String "-" t => t | _ => txt end in
  if negb (no_leading_zero unsigned) then None
  else if contains "." txt then
    match of_str txt with
    | Some q => Some (VFloat q, rest)
    | None => None
    end
  else
    match digits_value unsigned with
    | Some n =>
        Some (VInt (match txt with String "-" _ => - n | _ => n end)%Z, rest)
    | None => None
    end.

Definition literal (word : string) (v : pyval) (s : string)
    : option (pyval * string) :=
  if String.prefix word s
  then Some (v, substring (String.length word)
                          (String.length s - String.length word) s)
  else None.

Fixpoint parse_value (fuel : nat) (s : string) {struct fuel}
    : option (pyval * string) :=
  match fuel with
  | O => None
  | S fuel' =>
      match skip_ws s with
      | EmptyString => None
      | String c r =>
          if Ascii.eqb c "[" then
            match skip_ws r with
            | String "]" r' => Some (VList [], r')
            | _ =>
                match parse_elements fuel' r with
                | Some (l, r') => Some (VList l, r')
                | None => None
                end
            end
          else if Ascii.eqb c "{" then
            match skip_ws r with
            | String "}" r' => Some (VDict [], r')
            | _ =>
                match parse_members fuel' r with
                | Some (d, r') =>
                    Some (VDict (fold_left (fun (acc : pydict) kv => dict_set acc (fst kv) (snd kv)) d []), r')
                | None => None
                end
            end
          else if Ascii.eqb c DQUOTE then
            match scan_string r with
            | Some (a, r') => Some (VStr a, r')
            | None => None
            end
          else if Ascii.eqb c "n" then literal "null" VNone (String c r)
          else if Ascii.eqb c "t" then literal "true" (VBool true) (String c r)
          else if Ascii.eqb c "f" then literal "false" (VBool false) (String c r)
          else parse_number (String c r)
      end
  end
with parse_elements (fuel : nat) (s : string) {struct fuel}
    : option (list pyval * string) :=
  match fuel with
  | O => None
  | S fuel' =>
      match parse_value fuel' s with
      | Some (v, r) =>
          match skip_ws r with
          | String "," r' =>
              match parse_elements fuel' r' with
              | Some (l, r'') => Some (v :: l, r'')
              | None => None
              end
          | String "]" r' => Some ([v], r')
          | _ => None
          end
      | None => None
      end
  end
with parse_members (fuel : nat) (s : string) {struct fuel}
    : option (list (string * pyval) * string) :=
  match fuel with
  | O => None
  | S fuel' =>
      match skip_ws s with
      | String c r =>
          if Ascii.eqb c DQUOTE then
            match scan_string r with
            | Some (key, r1) =>
                match skip_ws r1 with
                | String ":" r2 =>
                    match parse_value fuel' r2 with
                    | Some (v, r3) =>
                        match skip_ws r3 with
                        | String "," r4 =>
                            match parse_members fuel' r4 with
                            | Some (d, r5) => Some ((key, v) :: d, r5)
                            | None => None
                            end
                        | String "}" r4 => Some ([(key, v)], r4)
                        | _ => None
                        end
                    | None => None
                    end
                | _ => None
                end
            | None => None
            end
          else None
      | EmptyString => None
      end
  end.

Definition loads (s : string) : option pyval :=
  match parse_value (2 * String.length s + 2) s with
  | Some (v, r) =>
      match skip_ws r with
      | EmptyString => Some v
      | _ => None
      end
  | None => None
  end.

Definition hex_digit (n : nat) : ascii :=
  ascii_of_nat (if (n <? 10)%nat then 48 + n else 87 + n).

(** One character inside a JSON string, as [json.dumps] escapes it. *)
Definition json_char (c : ascii) : string :=
  let n := nat_of_ascii c in
  if Ascii.eqb c DQUOTE then String "\" (String DQUOTE EmptyString)
  else if Ascii.eqb c "\" then "\\"
  else if (n =? 10)%nat then "\n"
  else if (n =? 13)%nat then "\r"
  else if (n =? 9)%nat then "\t"
  else if (n =? 8)%nat then "\b"
  else if (n =? 12)%nat then "\f"
  else if ((n <? 32) || (126 <? n))%nat then
    "\u00" ++ String (hex_digit (n / 16)) (String (hex_digit (n mod 16)) EmptyString)
  else String c EmptyString.

Definition json_string (s : string) : string :=
  String DQUOTE
    (String.concat EmptyString (map json_char (list_ascii_of_string s))
     ++ String DQUOTE EmptyString).

Fixpoint dumps (v : pyval) : string :=
  match v with
  | VNone => "null"
  | VBool true => "true"
  | VBool false => "false"
  | VInt z => int_str z
  | VFloat q => repr q
  | VStr s => json_string s
  | VList l => "[" ++ String.concat ", " (map dumps l) ++ "]"
  | VDict d =>
      "{" ++ String.concat ", "
               (map (fun kv : string * pyval => let (k, x) := kv in json_string k ++ ": " ++ dumps x) d)
      ++ "}"
  end.

(** [repr] of a str without quotes, backslashes or control characters. *)
Definition str_repr (s : string) : string := "'" ++ s ++ "'".

Fixpoint value_repr (v : pyval) : string :=
  match v with
  | VNone => "None"
  | VBool true => "True"
  | VBool false => "False"
  | VInt z => int_str z
  | VFloat q => repr q
  | VStr s => str_repr s
  | VList l => "[" ++ String.concat ", " (map value_repr l) ++ "]"
  | VDict d =>
      "{" ++ String.concat ", "
               (map (fun kv : string * pyval => let (k, x) := kv in str_repr k ++ ": " ++ value_repr x) d)
      ++ "}"
  end.

(** *** str methods, on ASCII *)

Definition is_lower (c : ascii) : bool :=
  (97 <=? nat_of_ascii c)%nat && (nat_of_ascii c <=? 122)%nat.
Definition is_upper (c : ascii) : bool :=
  (65 <=? nat_of_ascii c)%nat && (nat_of_ascii c <=? 90)%nat.
Definition to_upper (c : ascii) : ascii :=
  if is_lower c then ascii_of_nat (nat_of_ascii c - 32) else c.
Definition to_lower (c : ascii) : ascii :=
  if is_upper c then ascii_of_nat (nat_of_ascii c + 32) else c.

Fixpoint upper (s : string) : string :=
  match s with
  | EmptyString => EmptyString
  | String c s' => String (to_upper c) (upper s')
  end.

(** [str.title]: a cased character is upper-cased after an uncased one and
    lower-cased after a cased one. *)
Fixpoint title_from (previous_cased : bool) (s : string) : string :=
  match s with
  | EmptyString => EmptyString
  | String c s' =>
      String (if previous_cased then to_lower c else to_upper c)
             (title_from (is_lower c || is_upper c) s')
  end.

(** [\w] on the code points 128 to 255: the letters and the numeric signs. *)
Definition latin1_word (c : ascii) : bool :=
  let n := nat_of_ascii c in
  ((n =? 170) || (n =? 181) || (n =? 186) || (n =? 178) || (n =? 179)
   || (n =? 185) || (188 <=? n) && (n <=? 190)
   || (192 <=? n) && (n <=? 214) || (216 <=? n) && (n <=? 246)
   || (248 <=? n))%nat.

#[export] Instance library : Library := {|
  datetime := date_time;
  fromisoformat := iso_parse;
  strftime := format_time;
  json_loads := loads;
  json_dumps := dumps;
  container_str := value_repr;
  str_upper := upper;
  str_title := title_from false;
  unicode_word := latin1_word
|}.

End Sample.

(** * Properties *)

(** ** Strings, lists and the result monad *)

Lemma append_assoc (a b c : string) : ((a ++ b) ++ c = a ++ (b ++ c))%string.
Proof. induction a as [|x a IH]; simpl; [reflexivity | now rewrite IH]. Qed.

Lemma append_empty_r (a : string) : (a ++ EmptyString)%string = a.
Proof. induction a as [|x a IH]; simpl; [reflexivity | now rewrite IH]. Qed.

Lemma append_length (a b : string) :
  String.length (a ++ b) = String.length a + String.length b.
Proof. induction a as [|x a IH]; simpl; [reflexivity | now rewrite IH]. Qed.

Lemma mapM_length {A B : Type} (f : A -> result B) (l : list A) (ys : list B) :
  mapM f l = Ok ys -> List.length ys = List.length l.
Proof.
  revert ys; induction l as [|x l IH]; simpl; intros ys H.
  - inversion H; reflexivity.
  - destruct (f x) as [y|e]; simpl in H; [|discriminate].
    destruct (mapM f l) as [ys'|e]; simpl in H; [|discriminate].
    inversion H; subst; simpl. now rewrite (IH ys').
Qed.

Lemma mapM_Forall2 {A B : Type} (f : A -> result B) (l : list A) (ys : list B) :
  mapM f l = Ok ys -> Forall2 (fun x y => f x = Ok y) l ys.
Proof.
  revert ys; induction l as [|x l IH]; simpl; intros ys H.
  - inversion H; constructor.
  - destruct (f x) as [y|e] eqn:Hx; simpl in H; [|discriminate].
    destruct (mapM f l) as [ys'|e]; simpl in H; [|discriminate].
    inversion H; subst. constructor; [assumption | now apply IH].
Qed.

Lemma mapM_all_ok {A B : Type} (f : A -> result B) (l : list A) :
  Forall (fun x => is_ok (f x) = true) l -> exists ys, mapM f l = Ok ys.
Proof.
  induction 1 as [|x l Hx _ [ys IH]]; simpl.
  - now exists [].
  - destruct (f x) as [y|e]; [|discriminate]. rewrite IH. simpl. now exists (y :: ys).
Qed.

Lemma mapM_raises {A B : Type} (f : A -> result B) (before after : list A) (x : A) :
  is_ok (f x) = false -> is_ok (mapM f (before ++ x :: after)) = false.
Proof.
  intros Hx. induction before as [|a before IH]; simpl.
  - destruct (f x); [discriminate | reflexivity].
  - destruct (f a); simpl; [|reflexivity].
    destruct (mapM f (before ++ x :: after)); [discriminate | reflexivity].
Qed.

Lemma mapM_ext {A B : Type} (f g : A -> result B) (l : list A) :
  (forall x, f x = g x) -> mapM f l = mapM g l.
Proof.
  intros H. induction l as [|x l IH]; simpl; [reflexivity|].
  now rewrite H, IH.
Qed.

Lemma mapM_ext_at {A B : Type} (f : A -> result B) (before after : list A) (x y : A) :
  f x = f y -> mapM f (before ++ x :: after) = mapM f (before ++ y :: after).
Proof.
  intros Hxy. induction before as [|a before IH]; simpl.
  - now rewrite Hxy.
  - now rewrite IH.
Qed.

Lemma mapM_app {A B : Type} (f : A -> result B) (xs ys : list A) :
  mapM f (xs ++ ys)
  = (a <- mapM f xs ;; b <- mapM f ys ;; Ok (a ++ b)%list).
Proof.
  induction xs as [|x xs IH]; simpl.
  - destruct (mapM f ys); reflexivity.
  - destruct (f x) as [y|e]; simpl; [|reflexivity].
    rewrite IH. destruct (mapM f xs); simpl; [|reflexivity].
    destruct (mapM f ys); reflexivity.
Qed.

Lemma firstn_kept {A : Type} (n : nat) (l added : list A) :
  n <= List.length l -> firstn n (firstn n l ++ added) = firstn n l.
Proof.
  intros H. rewrite firstn_app, length_firstn, firstn_firstn.
  replace (n - Nat.min n (List.length l)) with 0 by lia.
  rewrite firstn_O, app_nil_r. f_equal. lia.
Qed.

Lemma skipn_kept {A : Type} (n : nat) (l added : list A) :
  n <= List.length l -> skipn n (firstn n l ++ added) = added.
Proof.
  intros H. rewrite skipn_app, length_firstn.
  replace (n - Nat.min n (List.length l)) with 0 by lia.
  rewrite skipn_all2 by (rewrite length_firstn; lia). reflexivity.
Qed.

Lemma nth_error_kept {A : Type} (n i : nat) (l added : list A) :
  i < n -> n <= List.length l ->
  nth_error (firstn n l ++ added) i = nth_error l i.
Proof.
  intros Hi Hn. rewrite nth_error_app1 by (rewrite length_firstn; lia).
  rewrite nth_error_firstn. destruct (Nat.ltb_spec i n); [reflexivity | lia].
Qed.

Lemma nth_kept {A : Type} (n i : nat) (l added : list A) (d : A) :
  i < n -> n <= List.length l ->
  nth i (firstn n l ++ added) d = nth i l d.
Proof.
  intros Hi Hn. rewrite app_nth1 by (rewrite length_firstn; lia).
  rewrite <- (firstn_skipn n l) at 2.
  now rewrite app_nth1 by (rewrite length_firstn; lia).
Qed.

Section Properties.

Context {FO : FloatOps} {L : Library}.

(** ** Token substitution *)

Fixpoint all_word (s : string) : bool :=
  match s with
  | EmptyString => true
  | String c s' => is_word c && all_word s'
  end.

(** [s] is empty or starts with a character outside [\w]. *)
Definition stops_word (s : string) : bool :=
  match s with
  | EmptyString => true
  | String c _ => negb (is_word c)
  end.

Lemma re_sub_cons (data : pydict) (c : ascii) (s : string) :
  re_sub data (String c s) =
  match match_token (String c s) with
  | Some (name, rest) => (replace_var data name ++ re_sub data rest)%string
  | None => String c (re_sub data s)
  end.
Proof.
  simp re_sub. unfold inspect.
  generalize (@eq_refl _ (match_token (String c s))).
  generalize (match_token (String c s)) at 2 4 5.
  intros [[name rest]|] e; simp re_sub; reflexivity.
Qed.

Lemma replace_template_variables_re_sub (text : string) (data : pydict) :
  replace_template_variables text data = re_sub data text.
Proof.
  unfold replace_template_variables.
  destruct text; simpl; [now simp re_sub | reflexivity].
Qed.

Lemma span_word_app (a b : string) :
  stops_word b = true ->
  span_word (a ++ b) = (fst (span_word a), (snd (span_word a) ++ b)%string).
Proof.
  intros Hb. induction a as [|c a IH]; simpl.
  - destruct b as [|x b]; simpl in *; [reflexivity|].
    apply negb_true_iff in Hb. now rewrite Hb.
  - destruct (is_word c); [|reflexivity].
    rewrite IH. now destruct (span_word a).
Qed.

Lemma span_word_all (name : string) :
  all_word name = true -> span_word name = (name, EmptyString).
Proof.
  induction name as [|c name IH]; simpl; [reflexivity|].
  intros H. apply andb_true_iff in H as [Hc Hn].
  now rewrite Hc, (IH Hn).
Qed.

Lemma match_token_app (pre t name rest : string) :
  match_token pre = Some (name, rest) ->
  match_token (pre ++ t) = Some (name, (rest ++ t)%string).
Proof.
  unfold match_token.
  destruct pre as [|a [|b s]]; try discriminate. simpl.
  destruct (Ascii.eqb a "{" && Ascii.eqb b "{"); [|discriminate].
  assert (Hspan : forall s w x y r,
             span_word s = (w, String x (String y r)) ->
             Ascii.eqb x "}" = true ->
             span_word (s ++ t) = (w, String x (String y (r ++ t)))).
  { clear. induction s as [|c s IH]; simpl; intros w x y r H Hx; [discriminate|].
    destruct (is_word c) eqn:Hc.
    - destruct (span_word s) as [w' r'] eqn:Hs. inversion H; subst.
      now rewrite (IH w' x y r eq_refl Hx).
    - inversion H; subst. simpl. reflexivity. }
  destruct (span_word s) as [[|c w] [|x [|y r]]] eqn:Hs; try discriminate.
  destruct (Ascii.eqb x "}") eqn:Hx; simpl; [|discriminate].
  destruct (Ascii.eqb y "}") eqn:Hy; [|discriminate].
  intros H; inversion H; subst.
  rewrite (Hspan s (String c w) x y rest Hs Hx), Hx, Hy. reflexivity.
Qed.

Lemma match_token_none_app (pre s : string) :
  pre <> EmptyString ->
  match_token pre = None ->
  match_token (pre ++ String "{" (String "{" s)) = None.
Proof.
  unfold match_token.
  destruct pre as [|a [|b s1]]; [congruence | |]; intros _; simpl.
  - destruct (Ascii.eqb a "{"); reflexivity.
  - destruct (Ascii.eqb a "{" && Ascii.eqb b "{"); [|reflexivity].
    rewrite span_word_app by reflexivity.
    destruct (span_word s1) as [[|c w] [|x [|y r]]]; simpl; try reflexivity.
    + destruct (Ascii.eqb x "}"); reflexivity.
    + destruct (Ascii.eqb x "}" && Ascii.eqb y "}"); [discriminate | reflexivity].
Qed.

(** A scan never runs a match across the opening braces of a later token. *)
Lemma re_sub_app_braces (data : pydict) (pre s : string) :
  re_sub data (pre ++ String "{" (String "{" s)) =
  (re_sub data pre ++ re_sub data (String "{" (String "{" s)))%string.
Proof.
  remember (String.length pre) as n eqn:Hn.
  revert pre Hn. induction n as [n IH] using lt_wf_ind. intros pre Hn.
  destruct pre as [|c pre]; [now rewrite re_sub_equation_1|].
  change (String c pre ++ String "{" (String "{" s))%string
    with (String c (pre ++ String "{" (String "{" s))).
  rewrite (re_sub_cons data c pre), (re_sub_cons data c (pre ++ _)).
  destruct (match_token (String c pre)) as [[name rest]|] eqn:Hm.
  - change (String c (pre ++ String "{" (String "{" s)))
      with (String c pre ++ String "{" (String "{" s))%string.
    rewrite (match_token_app _ _ _ _ Hm).
    rewrite (IH (String.length rest)); [now rewrite append_assoc | | reflexivity].
    subst n. now apply (match_token_shorter _ name).
  - change (String c (pre ++ String "{" (String "{" s)))
      with (String c pre ++ String "{" (String "{" s))%string.
    rewrite match_token_none_app by (assumption || discriminate).
    simpl. f_equal. apply (IH (String.length pre)); [subst n; simpl; lia | reflexivity].
Qed.

Lemma match_token_exact (name post : string) :
  name <> EmptyString -> all_word name = true ->
  match_token ("{{" ++ name ++ "}}" ++ post) = Some (name, post).
Proof.
  intros Hne Hw. unfold match_token. simpl.
  rewrite span_word_app by reflexivity.
  rewrite (span_word_all name Hw). simpl.
  destruct name; [congruence | reflexivity].
Qed.

Lemma replace_var_unknown (data : pydict) (name : string) :
  dict_get data name = None ->
  replace_var data name = ("{{" ++ name ++ "}}")%string.
Proof. unfold replace_var, get_default. now intros ->. Qed.

Lemma re_sub_token (data : pydict) (pre name post : string) :
  name <> EmptyString -> all_word name = true ->
  re_sub data (pre ++ "{{" ++ name ++ "}}" ++ post) =
  (re_sub data pre ++ replace_var data name ++ re_sub data post)%string.
Proof.
  intros Hne Hw.
  change ("{{" ++ name ++ "}}" ++ post)%string
    with (String "{" (String "{" (name ++ "}}" ++ post))).
  rewrite re_sub_app_braces. f_equal.
  rewrite re_sub_cons.
  change (String "{" (String "{" (name ++ "}}" ++ post)))
    with ("{{" ++ name ++ "}}" ++ post)%string.
  now rewrite (match_token_exact name post Hne Hw).
Qed.

(** C7. A token whose name has no entry in the mapping is left as it is,
    with its braces, wherever it occurs in the text: substitution of
    [pre ++ {{name}} ++ post] is the substitution of [pre], the token
    itself, and the substitution of [post].  The function is total, so no
    error is raised. *)
Theorem unknown_token_left_verbatim (data : pydict) (pre name post : string) :
  name <> EmptyString ->
  all_word name = true ->
  dict_get data name = None ->
  replace_template_variables (pre ++ "{{" ++ name ++ "}}" ++ post) data =
  (replace_template_variables pre data ++ "{{" ++ name ++ "}}"
   ++ replace_template_variables post data)%string.
Proof.
  intros Hne Hw Hnone.
  rewrite !replace_template_variables_re_sub.
  rewrite (re_sub_token data pre name post Hne Hw).
  rewrite (replace_var_unknown data name Hnone).
  now rewrite !append_assoc.
Qed.

(** ** Item rows *)

(** The cells of the row that [add_row] and the cell loop produce for one
    item. *)
Definition generated_row (n : nat) (template_row : list string) (item : pyval)
    : result (list string) :=
  fill_cells item (enumerate template_row) (repeat EmptyString n).

(** The same cells in closed form: the template's cell texts substituted
    with the item's mapping, cut or padded to the grid width. *)
Definition cell_texts (data : pydict) (n : nat) (template_row : list string)
    : list string :=
  map (fun text => replace_template_variables text data) (firstn n template_row)
  ++ repeat EmptyString (n - List.length template_row).

Definition item_keys : list string :=
  ["item_name"; "item_description"; "item_quantity"; "item_rate"; "item_amount"].

Lemma remove_rows_from_bottom {A : Type} (k a : nat) (rs : list A) :
  List.length rs = a + k ->
  fold_left (fun rs row_index => remove_row row_index rs) (rev (seq a k)) rs
  = firstn a rs.
Proof.
  revert rs; induction k as [|k IH]; intros rs Hlen.
  - simpl. symmetry; apply firstn_all2; lia.
  - rewrite seq_S, rev_app_distr. simpl.
    assert (Hrm : remove_row (a + k) rs = firstn (a + k) rs).
    { unfold remove_row. rewrite (skipn_all2 rs) by lia. apply app_nil_r. }
    rewrite Hrm, IH.
    + rewrite firstn_firstn. f_equal. lia.
    + rewrite length_firstn. lia.
Qed.

Lemma set_cell_middle (before after : list string) (old new_text : string) :
  set_cell (List.length before) new_text (before ++ old :: after)
  = (before ++ new_text :: after)%list.
Proof.
  induction before as [|x before IH]; [reflexivity|].
  unfold set_cell in *.
  change (x :: firstn (List.length before) (before ++ old :: after)
            ++ new_text :: skipn (S (List.length before)) (before ++ old :: after)
          = x :: before ++ new_text :: after)%list.
  now rewrite IH.
Qed.

Lemma fill_cells_ok (item : pyval) (data : pydict) (n : nat)
    (cells done : list string) :
  item_data item = Ok data ->
  fill_cells item (combine (seq (List.length done) (List.length cells)) cells)
    (cell_texts data n done)
  = Ok (cell_texts data n (done ++ cells)).
Proof.
  intros Hdata. revert done. induction cells as [|c cells IH]; intros done.
  - simpl. now rewrite app_nil_r.
  - cbn [List.length seq combine fill_cells].
    assert (Hlen : List.length (cell_texts data n done) = n).
    { unfold cell_texts. rewrite length_app, length_map, length_firstn, repeat_length. lia. }
    rewrite Hlen.
    replace (done ++ c :: cells)%list with ((done ++ [c]) ++ cells)%list
      by (now rewrite <- app_assoc).
    specialize (IH (done ++ [c])%list).
    rewrite length_app in IH. simpl in IH. rewrite Nat.add_1_r in IH.
    destruct (Nat.ltb_spec (List.length done) n) as [Hlt|Hge].
    + rewrite Hdata. cbn [bind].
      assert (Hrow : set_cell (List.length done)
                       (replace_template_variables c data) (cell_texts data n done)
                     = cell_texts data n (done ++ [c])).
      { unfold cell_texts.
        rewrite (firstn_all2 done) by lia.
        rewrite (firstn_all2 (done ++ [c])%list) by (rewrite length_app; simpl; lia).
        rewrite length_app. simpl.
        replace (n - List.length done) with (S (n - (List.length done + 1))) by lia.
        simpl.
        rewrite <- (length_map (fun text => replace_template_variables text data) done) at 1.
        rewrite set_cell_middle, map_app, <- app_assoc. reflexivity. }
      rewrite Hrow. exact IH.
    + assert (Hrow : cell_texts data n done = cell_texts data n (done ++ [c])).
      { unfold cell_texts. rewrite firstn_app, length_app. simpl.
        replace (n - List.length done) with 0 by lia.
        replace (n - (List.length done + 1)) with 0 by lia.
        simpl. now rewrite !app_nil_r. }
      rewrite Hrow. exact IH.
Qed.

Lemma generated_row_ok (n : nat) (template_row : list string) (item : pyval)
    (data : pydict) :
  item_data item = Ok data ->
  generated_row n template_row item = Ok (cell_texts data n template_row).
Proof.
  intros Hdata. unfold generated_row, enumerate.
  pose proof (fill_cells_ok item data n template_row [] Hdata) as H.
  simpl in H. unfold cell_texts at 1 in H. simpl in H.
  rewrite firstn_nil, Nat.sub_0_r in H. exact H.
Qed.

Lemma add_item_rows_mapM (template_row : list string) (items : list pyval)
    (table : Table) :
  add_item_rows template_row items table =
  (new_rows <- mapM (generated_row (ncols table) template_row) items ;;
   Ok {| ncols := ncols table; rows := rows table ++ new_rows |}).
Proof.
  revert table; induction items as [|item items IH]; intros table; simpl.
  - destruct table; simpl. now rewrite app_nil_r.
  - fold (generated_row (ncols table) template_row item).
    destruct (generated_row (ncols table) template_row item) as [row|e]; simpl;
      [|reflexivity].
    rewrite IH. simpl.
    destruct (mapM (generated_row (ncols table) template_row) items); simpl;
      [|reflexivity].
    now rewrite <- app_assoc.
Qed.

(** [process_table_rows] without its loops. *)
Lemma process_table_rows_eq (table : Table) (invoice_items : pyval) (tri : nat) :
  process_table_rows table invoice_items tri =
  if negb (truthy invoice_items) || (List.length (rows table) <=? tri)%nat
  then Ok table
  else
    items <- py_iter invoice_items ;;
    new_rows <- mapM (generated_row (ncols table) (nth tri (rows table) [])) items ;;
    Ok {| ncols := ncols table;
          rows := firstn (S tri) (rows table) ++ new_rows |}.
Proof.
  unfold process_table_rows.
  destruct (negb (truthy invoice_items)); [reflexivity|]. cbn [orb].
  destruct (Nat.leb_spec (List.length (rows table)) tri) as [Hle|Hlt];
    [reflexivity|].
  rewrite remove_rows_from_bottom by lia.
  destruct (py_iter invoice_items) as [items|e]; [|reflexivity]. cbn [bind].
  now rewrite add_item_rows_mapM.
Qed.

Lemma find_template_row_from_spec (k i : nat) (rs : list (list string)) :
  find_template_row_from k rs = Some i ->
  k <= i /\ i - k < List.length rs
  /\ contains "{{item_" (String.concat " " (nth (i - k) rs [])) = true.
Proof.
  revert k; induction rs as [|row rs IH]; intros k; simpl; [discriminate|].
  destruct (contains "{{item_" (String.concat " " row)) eqn:Hc.
  - intros H; inversion H; subst. rewrite Nat.sub_diag. repeat split; [lia | lia | exact Hc].
  - intros H. destruct (IH (S k) H) as (Hle & Hlt & Hrow).
    replace (i - k) with (S (i - S k)) by lia.
    repeat split; [lia | lia | exact Hrow].
Qed.

Lemma find_template_row_spec (table : Table) (tri : nat) :
  find_template_row table = Some tri ->
  tri < List.length (rows table)
  /\ contains "{{item_" (String.concat " " (nth tri (rows table) [])) = true.
Proof.
  intros H. apply find_template_row_from_spec in H.
  rewrite Nat.sub_0_r in H. tauto.
Qed.

Lemma fill_cells_without_data (item : pyval) (e : exn)
    (cells : list (nat * string)) (row row' : list string) :
  item_data item = Raise e ->
  fill_cells item cells row = Ok row' -> row' = row.
Proof.
  intros Hdata. induction cells as [|[i text] cells IH]; simpl; intros H.
  - now inversion H.
  - destruct (i <? List.length row)%nat; [|now apply IH].
    rewrite Hdata in H. discriminate.
Qed.

Lemma item_data_keys (item : pyval) (idata : pydict) :
  item_data item = Ok idata -> map fst idata = item_keys.
Proof.
  unfold item_data. intros H.
  repeat match type of H with
         | bind ?r _ = Ok _ => destruct r; cbn [bind] in H; [|discriminate]
         end.
  now inversion H.
Qed.

Lemma dict_get_absent (d : pydict) (k : string) :
  ~ In k (map fst d) -> dict_get d k = None.
Proof.
  induction d as [|[k' v] d IH]; simpl; intros H; [reflexivity|].
  destruct (String.eqb_spec k' k); [tauto|]. apply IH; tauto.
Qed.

Lemma cell_texts_nth (data : pydict) (n i : nat) (template_row : list string)
    (text : string) :
  nth_error template_row i = Some text -> i < n ->
  nth_error (cell_texts data n template_row) i
  = Some (replace_template_variables text data).
Proof.
  intros Hi Hn. unfold cell_texts.
  assert (Hlen : i < List.length template_row)
    by (apply nth_error_Some; congruence).
  rewrite nth_error_app1
    by (rewrite length_map, length_firstn; lia).
  rewrite nth_error_map, nth_error_firstn.
  destruct (Nat.ltb_spec i n); [|lia]. now rewrite Hi.
Qed.

Lemma cell_texts_length (data : pydict) (n : nat) (template_row : list string) :
  List.length (cell_texts data n template_row) = n.
Proof.
  unfold cell_texts.
  rewrite length_app, length_map, length_firstn, repeat_length. lia.
Qed.

(** What a generated row holds, cell by cell. *)
Lemma generated_row_cells (n : nat) (template_row row : list string)
    (item : pyval) :
  generated_row n template_row item = Ok row ->
  List.length row = n
  /\ forall i text,
       nth_error template_row i = Some text -> i < n ->
       exists idata,
         item_data item = Ok idata
         /\ nth_error row i = Some (replace_template_variables text idata).
Proof.
  intros H. destruct (item_data item) as [idata|e] eqn:Hdata.
  - rewrite (generated_row_ok n template_row item idata Hdata) in H.
    inversion H; subst. split; [apply cell_texts_length|].
    intros i text Hi Hn. exists idata. split; [reflexivity|].
    now apply cell_texts_nth.
  - pose proof (fill_cells_without_data _ _ _ _ _ Hdata H) as ->.
    split; [apply repeat_length|].
    intros i text Hi Hn. exfalso.
    unfold generated_row, enumerate in H.
    destruct template_row as [|t0 template_row]; [now destruct i|].
    simpl in H. rewrite repeat_length in H.
    destruct (Nat.ltb_spec 0 n); [|lia].
    rewrite Hdata in H. discriminate.
Qed.

Lemma process_document_tables (doc doc' : Document) (invoice_data : pydict) :
  process_document doc invoice_data = Ok doc' ->
  exists data,
    replacement_data invoice_data = Ok data
    /\ Forall2 (fun table table' =>
                  process_table data
                    (get_default invoice_data "items" (VList [])) table
                  = Ok table')
               (tables doc) (tables doc').
Proof.
  unfold process_document. intros H.
  destruct (replacement_data invoice_data) as [data|e]; [|discriminate].
  cbn [bind] in H.
  destruct (mapM _ (tables doc)) as [new_tables|e] eqn:Hm; [|discriminate].
  cbn [bind] in H. inversion H; subst. simpl.
  exists data. split; [reflexivity|]. now apply mapM_Forall2.
Qed.

(** The two outcomes of a successful [process_table_rows]. *)
Lemma process_table_rows_ok (table table' : Table) (invoice_items : pyval)
    (tri : nat) :
  tri < List.length (rows table) ->
  process_table_rows table invoice_items tri = Ok table' ->
  truthy invoice_items = false /\ table' = table
  \/ truthy invoice_items = true
     /\ exists items new_rows,
          py_iter invoice_items = Ok items
          /\ mapM (generated_row (ncols table) (nth tri (rows table) [])) items
             = Ok new_rows
          /\ ncols table' = ncols table
          /\ rows table' = (firstn (S tri) (rows table) ++ new_rows)%list.
Proof.
  intros Htri Ht. rewrite process_table_rows_eq in Ht.
  destruct (truthy invoice_items); cbn [negb orb] in Ht.
  - right. split; [reflexivity|].
    destruct (Nat.leb_spec (List.length (rows table)) tri); [lia|].
    destruct (py_iter invoice_items) as [items|e]; [|discriminate].
    cbn [bind] in Ht.
    destruct (mapM _ items) as [new_rows|e] eqn:Hnew; [|discriminate].
    cbn [bind] in Ht. exists items, new_rows.
    injection Ht as <-.
    split; [reflexivity|]. split; [exact Hnew|]. split; reflexivity.
  - left. split; [reflexivity | now inversion Ht].
Qed.

(** C5, as amended.  With at least one item, the table that
    [process_table_rows] returns is the original rows up to and including
    the template row, followed by exactly one generated row per item.  With
    no item the table is returned as it is, so rows that followed the
    template row stay in it. *)
Theorem item_rows_appended (table : Table) (items : list pyval) (tri : nat) :
  tri < List.length (rows table) ->
  Forall (fun item => is_ok (item_data item) = true) items ->
  (items <> [] ->
   exists new_rows,
     process_table_rows table (VList items) tri
     = Ok {| ncols := ncols table;
             rows := firstn (S tri) (rows table) ++ new_rows |}
     /\ List.length new_rows = List.length items)
  /\ process_table_rows table (VList []) tri = Ok table.
Proof.
  intros Htri Hitems. split.
  - intros Hne. rewrite process_table_rows_eq.
    destruct items as [|item items]; [congruence|]. cbn [truthy negb orb].
    destruct (Nat.leb_spec (List.length (rows table)) tri); [lia|].
    cbn [py_iter bind].
    destruct (mapM_all_ok (generated_row (ncols table) (nth tri (rows table) []))
                (item :: items)) as [new_rows Hnew].
    { eapply Forall_impl; [|exact Hitems]. intros it Hit. simpl in Hit.
      destruct (item_data it) as [idata|e] eqn:Hd; [|discriminate].
      now rewrite (generated_row_ok _ _ _ _ Hd). }
    rewrite Hnew. cbn [bind]. exists new_rows. split; [reflexivity|].
    now apply mapM_length in Hnew.
  - reflexivity.
Qed.

(** C3, as amended.  After [process_document], an item-bearing table still
    has its template row, in place and with its literal item tokens.  When
    the invoice has items, exactly [len(items)] rows follow it; when it has
    none, the table is the one of the template document. *)
Theorem template_row_stays (doc doc' : Document) (invoice_data : pydict)
    (items : list pyval) :
  process_document doc invoice_data = Ok doc' ->
  get_default invoice_data "items" (VList []) = VList items ->
  Forall2
    (fun table table' =>
       forall tri, find_template_row table = Some tri ->
         nth_error (rows table') tri = nth_error (rows table) tri
         /\ contains "{{item_" (String.concat " " (nth tri (rows table') [])) = true
         /\ (items <> [] -> List.length (rows table') = S tri + List.length items)
         /\ (items = [] -> table' = table))
    (tables doc) (tables doc').
Proof.
  intros Hdoc Hitems.
  destruct (process_document_tables _ _ _ Hdoc) as (data & _ & Htables).
  rewrite Hitems in Htables.
  eapply Forall2_impl; [|exact Htables].
  intros table table' Ht tri Hfind. cbv beta in Ht.
  unfold process_table in Ht. rewrite Hfind in Ht.
  destruct (find_template_row_spec table tri Hfind) as [Htri Hcontains].
  destruct (process_table_rows_ok _ _ _ _ Htri Ht)
    as [[Hfalsy ->] | (Htruthy & l & new_rows & Hiter & Hnew & _ & Hrows)].
  - repeat split; try assumption.
    intros Hne. destruct items; [congruence | discriminate].
  - inversion Hiter; subst l. rewrite Hrows.
    repeat split.
    + apply nth_error_kept; lia.
    + rewrite nth_kept by lia. exact Hcontains.
    + intros _. rewrite length_app, length_firstn.
      apply mapM_length in Hnew. rewrite Hnew. lia.
    + intros ->. discriminate.
Qed.

(** C10.  In a table that [process_document] detects as item-bearing, the
    rows up to and including the template row come out unchanged, the
    invoice-level mapping has no influence on the result, and each row
    after the template row is either an original row (no items) or a
    generated row whose cells are the template row's cells substituted
    with the five-key item mapping; under that mapping a token of any other
    name stays as it is. *)
Theorem item_table_frame (data : pydict) (invoice_items : pyval)
    (table table' : Table) (tri : nat) :
  find_template_row table = Some tri ->
  process_table data invoice_items table = Ok table' ->
  firstn (S tri) (rows table') = firstn (S tri) (rows table)
  /\ (forall data', process_table data' invoice_items table = Ok table')
  /\ (truthy invoice_items = false /\ table' = table
      \/ exists items,
           py_iter invoice_items = Ok items
           /\ Forall2
                (fun item row =>
                   List.length row = ncols table
                   /\ forall i text,
                        nth_error (nth tri (rows table) []) i = Some text ->
                        i < ncols table ->
                        exists idata,
                          item_data item = Ok idata
                          /\ map fst idata = item_keys
                          /\ nth_error row i
                             = Some (replace_template_variables text idata))
                items (skipn (S tri) (rows table')))
  /\ (forall item idata pre name post,
        item_data item = Ok idata ->
        name <> EmptyString -> all_word name = true -> ~ In name item_keys ->
        replace_template_variables (pre ++ "{{" ++ name ++ "}}" ++ post) idata
        = (replace_template_variables pre idata ++ "{{" ++ name ++ "}}"
           ++ replace_template_variables post idata)%string).
Proof.
  intros Hfind Ht.
  destruct (find_template_row_spec table tri Hfind) as [Htri _].
  assert (Hdata : forall data', process_table data' invoice_items table = Ok table').
  { intros data'. unfold process_table in *. now rewrite Hfind in *. }
  unfold process_table in Ht. rewrite Hfind in Ht.
  destruct (process_table_rows_ok _ _ _ _ Htri Ht)
    as [[Hfalsy ->] | (Htruthy & items & new_rows & Hiter & Hnew & _ & Hrows)].
  - split; [reflexivity|]. split; [exact Hdata|]. split; [now left|].
    intros item idata pre name post Hd Hne Hw Hnotin.
    rewrite !replace_template_variables_re_sub.
    rewrite (re_sub_token idata pre name post Hne Hw).
    rewrite replace_var_unknown; [now rewrite !append_assoc|].
    apply dict_get_absent. now rewrite (item_data_keys item idata Hd).
  - split; [rewrite Hrows; apply firstn_kept; lia|].
    split; [exact Hdata|]. split.
    + right. exists items. split; [exact Hiter|].
      rewrite Hrows, skipn_kept by lia.
      eapply Forall2_impl; [|exact (mapM_Forall2 _ _ _ Hnew)].
      intros item row Hrow. cbv beta in Hrow.
      destruct (generated_row_cells _ _ _ _ Hrow) as [Hlen Hcells].
      split; [exact Hlen|]. intros i text Hi Hn.
      destruct (Hcells i text Hi Hn) as (idata & Hd & Hcell).
      exists idata.
      split; [exact Hd|]. split; [now apply (item_data_keys item) | exact Hcell].
    + intros item idata pre name post Hd Hne Hw Hnotin.
      rewrite !replace_template_variables_re_sub.
      rewrite (re_sub_token idata pre name post Hne Hw).
      rewrite replace_var_unknown; [now rewrite !append_assoc|].
      apply dict_get_absent. now rewrite (item_data_keys item idata Hd).
Qed.

(** ** Export: dispatch and the clock *)

Lemma export_invoices_csv (clock1 clock2 : Clock) (invoices : list pydict)
    (format_type : string) :
  format_type <> "quickbooks_iif" ->
  export_invoices clock1 invoices format_type
  = export_invoices clock2 invoices format_type.
Proof.
  intros Hne. unfold export_invoices.
  destruct (negb (existsb (String.eqb format_type) supported_formats));
    [reflexivity|].
  destruct (String.eqb_spec format_type "quickbooks_iif"); [contradiction|].
  reflexivity.
Qed.

Lemma export_invoices_iif (clock : Clock) (invoices : list pydict) :
  export_invoices clock invoices "quickbooks_iif"
  = (records <- mapM iif_invoice invoices ;;
     Ok (String.concat NEWLINE
           (iif_hdr_names :: iif_hdr clock :: iif_trns_names
            :: map (String.concat TAB) (List.concat records) ++ ["ENDTRNS"]))).
Proof. reflexivity. Qed.

(** C2, as amended.  Two calls of [export_invoices] on the same invoices
    and format return the same result whenever the format is not
    quickbooks_iif, and for quickbooks_iif whenever the HDR line, which
    carries the date and the time of the call, is the same in both. *)
Theorem export_same_unless_iif_clock (clock1 clock2 : Clock)
    (invoices : list pydict) (format_type : string) :
  format_type <> "quickbooks_iif" \/ iif_hdr clock1 = iif_hdr clock2 ->
  export_invoices clock1 invoices format_type
  = export_invoices clock2 invoices format_type.
Proof.
  intros [Hne|Hhdr]; [now apply export_invoices_csv|].
  destruct (String.eqb_spec format_type "quickbooks_iif") as [->|Hne];
    [|now apply export_invoices_csv].
  rewrite !export_invoices_iif. now rewrite Hhdr.
Qed.

(** *** No export function raises the unsupported-format error *)

Definition other_error {A : Type} (r : result A) : Prop :=
  forall format_type, r <> Raise (UnsupportedFormat format_type).

Lemma other_error_ok {A : Type} (a : A) : other_error (Ok a).
Proof. intros f; discriminate. Qed.

Lemma other_error_bind {A B : Type} (r : result A) (k : A -> result B) :
  other_error r -> (forall a, other_error (k a)) -> other_error (bind r k).
Proof.
  intros Hr Hk f. destruct r as [a|e]; simpl; [apply Hk|].
  intros H. apply (Hr f). now inversion H.
Qed.

Lemma other_error_mapM {A B : Type} (f : A -> result B) (l : list A) :
  (forall x, other_error (f x)) -> other_error (mapM f l).
Proof.
  intros Hf. induction l as [|x l IH]; simpl; [apply other_error_ok|].
  apply other_error_bind; [apply Hf|]. intros y.
  apply other_error_bind; [exact IH|]. intros ys. apply other_error_ok.
Qed.

Lemma other_error_getitem (d : pydict) (k : string) : other_error (getitem d k).
Proof. unfold getitem; intros f; destruct (dict_get d k); discriminate. Qed.

Lemma other_error_as_str (v : pyval) : other_error (as_str v).
Proof. intros f; destruct v; discriminate. Qed.

Lemma other_error_py_float (v : pyval) : other_error (py_float v).
Proof.
  intros f; destruct v as [| b | z | x | s | l | d]; simpl; try discriminate.
  - destruct (float_of_int _); discriminate.
  - destruct (float_of_int z); discriminate.
  - destruct (float_of_str s); discriminate.
Qed.

Create HintDb other_error.
#[local] Hint Resolve other_error_ok other_error_getitem other_error_as_str
  other_error_py_float : other_error.
#[local] Hint Extern 2 (other_error (bind _ _)) =>
  apply other_error_bind; [|intro] : other_error.

Lemma other_error_format_2f (v : pyval) : other_error (format_2f v).
Proof.
  destruct v; unfold format_2f;
    try (apply other_error_bind;
         [apply other_error_py_float | intros; apply other_error_ok]);
    intros f; discriminate.
Qed.

Lemma other_error_format_date (invoice : pydict) (field fmt : string) :
  other_error (format_date invoice field fmt).
Proof.
  unfold format_date.
  apply other_error_bind; [apply other_error_getitem|]. intros v.
  apply other_error_bind; [apply other_error_as_str|]. intros s.
  apply other_error_bind; [|intros; apply other_error_ok].
  intros f. destruct (fromisoformat (replace_Z s)); discriminate.
Qed.

Lemma other_error_tax_amount (invoice : pydict) : other_error (tax_amount invoice).
Proof.
  unfold tax_amount. destruct (truthy _); auto 8 with other_error.
Qed.

Lemma other_error_status_title (invoice : pydict) :
  other_error (status_title invoice).
Proof. unfold status_title. auto 6 with other_error. Qed.

Lemma other_error_items_json (invoice : pydict) : other_error (items_json invoice).
Proof.
  unfold items_json. apply other_error_bind; [apply other_error_getitem|].
  intros v; destruct v; apply other_error_ok.
Qed.

#[local] Hint Resolve other_error_format_2f other_error_format_date
  other_error_tax_amount other_error_status_title other_error_items_json
  : other_error.

Lemma other_error_generic (invoices : list pydict) :
  other_error (export_to_generic_csv invoices).
Proof.
  unfold export_to_generic_csv.
  apply other_error_bind; [|intros; apply other_error_ok].
  apply other_error_mapM. intros invoice. unfold generic_row.
  auto 30 with other_error.
Qed.

(** C9.  freshbooks_csv is among the supported formats and never meets the
    unsupported-format error, and [export_invoices] has no branch of its
    own for it: the call falls through to [export_to_generic_csv], so the
    result is the one for generic_csv. *)
Theorem freshbooks_is_generic (clock : Clock) (invoices : list pydict) :
  In "freshbooks_csv" supported_formats
  /\ export_invoices clock invoices "freshbooks_csv"
     = export_to_generic_csv invoices
  /\ export_invoices clock invoices "freshbooks_csv"
     = export_invoices clock invoices "generic_csv"
  /\ other_error (export_invoices clock invoices "freshbooks_csv").
Proof.
  split; [simpl; tauto|]. split; [reflexivity|]. split; [reflexivity|].
  change (export_invoices clock invoices "freshbooks_csv")
    with (export_to_generic_csv invoices).
  apply other_error_generic.
Qed.

(** ** Export: a malformed date *)

Lemma format_date_malformed (invoice : pydict) (field fmt s : string) :
  dict_get invoice field = Some (VStr s) ->
  fromisoformat (replace_Z s) = None ->
  format_date invoice field fmt = Raise (InvalidIsoformat (replace_Z s)).
Proof.
  intros Hget Hiso. unfold format_date, getitem. rewrite Hget. simpl.
  now rewrite Hiso.
Qed.

(** Walks down a chain of binds, rewriting with the known failure [H] and
    splitting on every other step. *)
Ltac raise_chain H :=
  repeat (rewrite ?H; cbn [bind is_ok]; try reflexivity;
          match goal with
          | |- is_ok (bind ?r _) = false => destruct r; cbn [bind]
          end).

Section MalformedDate.

Variables (bad : pydict) (field s : string).
Hypothesis Hfield : field = "invoiceDate" \/ field = "dueDate".
Hypothesis Hget : dict_get bad field = Some (VStr s).
Hypothesis Hiso : fromisoformat (replace_Z s) = None.

Lemma iif_invoice_malformed : is_ok (iif_invoice bad) = false.
Proof.
  pose proof (fun fmt => format_date_malformed bad field fmt s Hget Hiso) as H.
  unfold iif_invoice. destruct Hfield; subst field; raise_chain H.
Qed.

Lemma sage_row_malformed : is_ok (sage_row bad) = false.
Proof.
  pose proof (fun fmt => format_date_malformed bad field fmt s Hget Hiso) as H.
  unfold sage_row. destruct Hfield; subst field; raise_chain H.
Qed.

Lemma generic_row_malformed : is_ok (generic_row bad) = false.
Proof.
  pose proof (fun fmt => format_date_malformed bad field fmt s Hget Hiso) as H.
  unfold generic_row. destruct Hfield; subst field; raise_chain H.
Qed.

Lemma xero_row_malformed (item : pyval) : is_ok (xero_row bad item) = false.
Proof.
  pose proof (fun fmt => format_date_malformed bad field fmt s Hget Hiso) as H.
  unfold xero_row. destruct Hfield; subst field; raise_chain H.
Qed.

Lemma wave_row_malformed (i_item : nat * pyval) :
  is_ok (wave_row bad i_item) = false.
Proof.
  pose proof (fun fmt => format_date_malformed bad field fmt s Hget Hiso) as H.
  destruct i_item as [i item].
  unfold wave_row. destruct Hfield; subst field; raise_chain H.
Qed.

Hypothesis Hitems : bind (load_items bad) py_iter <> Ok [].

Lemma xero_invoice_malformed : is_ok (xero_invoice bad) = false.
Proof.
  unfold xero_invoice.
  destruct (load_items bad) as [v|e]; cbn [bind] in *; [|reflexivity].
  destruct (py_iter v) as [[|item l]|e]; cbn [bind]; [congruence | | reflexivity].
  apply (mapM_raises (xero_row bad) [] l item), xero_row_malformed.
Qed.

Lemma wave_invoice_malformed : is_ok (wave_invoice bad) = false.
Proof.
  unfold wave_invoice.
  destruct (load_items bad) as [v|e]; cbn [bind] in *; [|reflexivity].
  destruct (py_iter v) as [[|item l]|e]; cbn [bind]; [congruence | | reflexivity].
  apply (mapM_raises (wave_row bad) [] (combine (seq 1 (List.length l)) l) (0, item)),
    wave_row_malformed.
Qed.

End MalformedDate.

Lemma bind_raises {A B : Type} (r : result A) (k : A -> result B) :
  is_ok r = false -> is_ok (bind r k) = false.
Proof. destruct r; [discriminate | reflexivity]. Qed.

(** C1, as amended.  When one invoice of the batch has a date field
    ([invoiceDate] or [dueDate]) that [fromisoformat] rejects, the export
    raises and returns no text at all, whatever the other invoices are:
    for quickbooks_iif, sage_csv, generic_csv and freshbooks_csv always, and
    for xero_csv and wave_csv, which read the dates once per item, unless
    that invoice has an empty item list. *)
Theorem malformed_date_aborts_export (clock : Clock)
    (before after : list pydict) (bad : pydict) (field s format_type : string) :
  In format_type supported_formats ->
  field = "invoiceDate" \/ field = "dueDate" ->
  dict_get bad field = Some (VStr s) ->
  fromisoformat (replace_Z s) = None ->
  (format_type = "xero_csv" \/ format_type = "wave_csv" ->
   bind (load_items bad) py_iter <> Ok []) ->
  is_ok (export_invoices clock (before ++ bad :: after) format_type) = false.
Proof.
  intros Hin Hfield Hget Hiso Hitems.
  simpl in Hin.
  destruct Hin as [<-|[<-|[<-|[<-|[<-|[<-|[]]]]]]];
    cbn [export_invoices supported_formats existsb String.eqb Ascii.eqb
         Bool.eqb orb negb];
    apply bind_raises, mapM_raises.
  - eapply iif_invoice_malformed; eassumption.
  - eapply xero_invoice_malformed; eauto.
  - eapply sage_row_malformed; eassumption.
  - eapply generic_row_malformed; eassumption.
  - eapply wave_invoice_malformed; eauto.
  - eapply generic_row_malformed; eassumption.
Qed.

(** ** Export: the two representations of [items] *)

Lemma dict_get_dict_set (d : pydict) (k k' : string) (v : pyval) :
  dict_get (dict_set d k v) k'
  = if String.eqb k k' then Some v else dict_get d k'.
Proof.
  induction d as [|[k0 v0] d IH]; simpl.
  - reflexivity.
  - destruct (String.eqb_spec k0 k) as [->|Hne]; simpl.
    + destruct (String.eqb k k'); reflexivity.
    + rewrite IH. destruct (String.eqb_spec k k') as [->|Hne'];
        [|reflexivity].
      destruct (String.eqb_spec k0 k'); [contradiction | reflexivity].
Qed.

Lemma getitem_dict_set (d : pydict) (k k' : string) (v : pyval) :
  getitem (dict_set d k v) k'
  = if String.eqb k k' then Ok v else getitem d k'.
Proof.
  unfold getitem. rewrite dict_get_dict_set. now destruct (String.eqb k k').
Qed.

Lemma get_default_dict_set (d : pydict) (k k' : string) (v default : pyval) :
  get_default (dict_set d k v) k' default
  = if String.eqb k k' then v else get_default d k' default.
Proof.
  unfold get_default. rewrite dict_get_dict_set. now destruct (String.eqb k k').
Qed.

(** Every read of a key other than [items] ignores a write to [items]. *)
Ltac frame_items :=
  repeat first
    [ rewrite getitem_dict_set
    | rewrite get_default_dict_set
    | progress cbn [String.eqb Ascii.eqb Bool.eqb andb] ];
  try reflexivity.

Section Items.

Variables (invoice : pydict) (v : pyval).
Let invoice' : pydict := dict_set invoice "items" v.

Lemma format_date_items (field fmt : string) :
  String.eqb "items" field = false ->
  format_date invoice' field fmt = format_date invoice field fmt.
Proof.
  intros H. unfold format_date, invoice'. now rewrite getitem_dict_set, H.
Qed.

Lemma tax_amount_items : tax_amount invoice' = tax_amount invoice.
Proof. unfold tax_amount, invoice'. frame_items. Qed.

Lemma status_title_items : status_title invoice' = status_title invoice.
Proof. unfold status_title, invoice'. frame_items. Qed.

Lemma status_upper_items : status_upper invoice' = status_upper invoice.
Proof. unfold status_upper, invoice'. frame_items. Qed.

Lemma iif_trns_items (date_str due_date_str : string) :
  iif_trns invoice' date_str due_date_str = iif_trns invoice date_str due_date_str.
Proof. unfold iif_trns, invoice'. frame_items. Qed.

Lemma iif_spl_items (date_str : string) (item : pyval) :
  iif_spl invoice' date_str item = iif_spl invoice date_str item.
Proof. unfold iif_spl, invoice'. frame_items. Qed.

Lemma xero_row_items (item : pyval) : xero_row invoice' item = xero_row invoice item.
Proof.
  unfold xero_row. rewrite !format_date_items, status_upper_items by reflexivity.
  unfold invoice'. frame_items.
Qed.

Lemma sage_row_items : sage_row invoice' = sage_row invoice.
Proof.
  unfold sage_row.
  rewrite !format_date_items, status_title_items, tax_amount_items by reflexivity.
  unfold invoice'. frame_items.
Qed.

Lemma wave_row_items (i_item : nat * pyval) :
  wave_row invoice' i_item = wave_row invoice i_item.
Proof.
  destruct i_item as [i item]. unfold wave_row.
  rewrite !format_date_items, status_title_items by reflexivity.
  unfold wave_tax_name, wave_tax_rate, wave_invoice_total, invoice'.
  frame_items.
Qed.

Lemma load_items_set : 
  load_items invoice'
  = match v with
    | VStr s => of_option (JSONDecodeError s) (json_loads s)
    | _ => Ok v
    end.
Proof. unfold load_items, invoice'. rewrite getitem_dict_set. reflexivity. Qed.

Lemma items_json_set :
  items_json invoice'
  = Ok (VStr (match v with VStr s => s | _ => json_dumps v end)).
Proof.
  unfold items_json, invoice'. rewrite getitem_dict_set. simpl.
  now destruct v.
Qed.

(** The per-invoice functions read the written value through
    [load_items] only. *)
Lemma iif_invoice_items :
  iif_invoice invoice'
  = (date_str <- format_date invoice "invoiceDate" "%m/%d/%Y" ;;
     due_date_str <- format_date invoice "dueDate" "%m/%d/%Y" ;;
     trns <- iif_trns invoice date_str due_date_str ;;
     items <- load_items invoice' ;;
     item_list <- py_iter items ;;
     spls <- mapM (iif_spl invoice date_str) item_list ;;
     Ok (trns :: spls)).
Proof.
  unfold iif_invoice. rewrite !format_date_items by reflexivity.
  destruct (format_date invoice "invoiceDate" "%m/%d/%Y") as [date_str|e];
    [|reflexivity]. cbn [bind].
  destruct (format_date invoice "dueDate" "%m/%d/%Y") as [due_date_str|e];
    [|reflexivity]. cbn [bind].
  rewrite iif_trns_items.
  destruct (iif_trns invoice date_str due_date_str); [|reflexivity]. cbn [bind].
  destruct (load_items invoice') as [items|e]; [|reflexivity]. cbn [bind].
  destruct (py_iter items) as [l|e]; [|reflexivity]. cbn [bind].
  now rewrite (mapM_ext _ _ l (iif_spl_items date_str)).
Qed.

Lemma xero_invoice_items :
  xero_invoice invoice'
  = (items <- load_items invoice' ;;
     item_list <- py_iter items ;;
     mapM (xero_row invoice) item_list).
Proof.
  unfold xero_invoice.
  destruct (load_items invoice') as [items|e]; [|reflexivity]. cbn [bind].
  destruct (py_iter items) as [l|e]; [|reflexivity]. cbn [bind].
  apply mapM_ext, xero_row_items.
Qed.

Lemma wave_invoice_items :
  wave_invoice invoice'
  = (items <- load_items invoice' ;;
     item_list <- py_iter items ;;
     mapM (wave_row invoice) (enumerate item_list)).
Proof.
  unfold wave_invoice.
  destruct (load_items invoice') as [items|e]; [|reflexivity]. cbn [bind].
  destruct (py_iter items) as [l|e]; [|reflexivity]. cbn [bind].
  apply mapM_ext, wave_row_items.
Qed.

End Items.

Lemma generic_row_items (invoice : pydict) (v w : pyval) :
  (match v with VStr s => s | _ => json_dumps v end)
  = (match w with VStr s => s | _ => json_dumps w end) ->
  generic_row (dict_set invoice "items" v)
  = generic_row (dict_set invoice "items" w).
Proof.
  intros Hsame. unfold generic_row.
  rewrite !items_json_set, !format_date_items, !status_title_items,
    !tax_amount_items by reflexivity.
  rewrite Hsame. frame_items.
Qed.

(** C8, as amended.  Let the string [s] decode to the sequence [items].
    Replacing the [items] field of one invoice of a batch by [s] or by the
    sequence gives the same export for quickbooks_iif, xero_csv, sage_csv
    and wave_csv; for generic_csv and freshbooks_csv, whose Items JSON
    column carries the string as supplied and [json.dumps] of a sequence,
    it does so when [s] is the text that [json.dumps] gives the sequence. *)
Theorem items_string_or_sequence (clock : Clock) (before after : list pydict)
    (invoice : pydict) (s : string) (items : list pyval) (format_type : string) :
  json_loads s = Some (VList items) ->
  In format_type ["quickbooks_iif"; "xero_csv"; "sage_csv"; "wave_csv"]
  \/ s = json_dumps (VList items) ->
  export_invoices clock
    (before ++ dict_set invoice "items" (VStr s) :: after) format_type
  = export_invoices clock
      (before ++ dict_set invoice "items" (VList items) :: after) format_type.
Proof.
  intros Hloads Hcase.
  assert (Hload : load_items (dict_set invoice "items" (VStr s))
                  = load_items (dict_set invoice "items" (VList items))).
  { rewrite !load_items_set. now rewrite Hloads. }
  assert (Hiif : iif_invoice (dict_set invoice "items" (VStr s))
                 = iif_invoice (dict_set invoice "items" (VList items)))
    by (now rewrite !iif_invoice_items, Hload).
  assert (Hxero : xero_invoice (dict_set invoice "items" (VStr s))
                  = xero_invoice (dict_set invoice "items" (VList items)))
    by (now rewrite !xero_invoice_items, Hload).
  assert (Hwave : wave_invoice (dict_set invoice "items" (VStr s))
                  = wave_invoice (dict_set invoice "items" (VList items)))
    by (now rewrite !wave_invoice_items, Hload).
  assert (Hsage : sage_row (dict_set invoice "items" (VStr s))
                  = sage_row (dict_set invoice "items" (VList items)))
    by (now rewrite !sage_row_items).
  unfold export_invoices.
  destruct (negb (existsb (String.eqb format_type) supported_formats));
    [reflexivity|].
  destruct (String.eqb_spec format_type "quickbooks_iif");
    [unfold export_to_quickbooks_iif; now rewrite (mapM_ext_at _ _ _ _ _ Hiif)|].
  destruct (String.eqb_spec format_type "xero_csv");
    [unfold export_to_xero_csv; now rewrite (mapM_ext_at _ _ _ _ _ Hxero)|].
  destruct (String.eqb_spec format_type "sage_csv");
    [unfold export_to_sage_csv; now rewrite (mapM_ext_at _ _ _ _ _ Hsage)|].
  destruct (String.eqb_spec format_type "wave_csv");
    [unfold export_to_wave_csv; now rewrite (mapM_ext_at _ _ _ _ _ Hwave)|].
  destruct Hcase as [Hin|Hdumps]; [simpl in Hin; intuition congruence|].
  assert (Hgeneric : generic_row (dict_set invoice "items" (VStr s))
                     = generic_row (dict_set invoice "items" (VList items)))
    by (apply generic_row_items; exact Hdumps).
  unfold export_to_generic_csv. rewrite (mapM_ext_at _ _ _ _ _ Hgeneric).
  now destruct (String.eqb format_type "generic_csv").
Qed.

(** ** Export: the Wave total column *)

(** The text written in the Invoice total column for a row. *)
Definition total_field (row : pydict) : string :=
  csv_cell (get_default row "Invoice total" (VStr EmptyString)).

Lemma total_field_in_row (row : pydict) :
  nth 12 (row_fields wave_fieldnames row) EmptyString = total_field row.
Proof. reflexivity. Qed.

Lemma wave_row_total (invoice row : pydict) (i : nat) (item : pyval) :
  wave_row invoice (i, item) = Ok row ->
  wave_invoice_total invoice i
  = Ok (get_default row "Invoice total" (VStr EmptyString)).
Proof.
  unfold wave_row. intros H.
  repeat match type of H with
         | bind ?r _ = Ok _ =>
             let E := fresh "E" in
             destruct r eqn:E; cbn [bind] in H; [|discriminate]
         end.
  inversion H; subst. reflexivity.
Qed.

Lemma combine_seq_lower {A : Type} (a n i : nat) (x : A) (l : list A) :
  In (i, x) (combine (seq a n) l) -> a <= i.
Proof.
  intros H. apply in_combine_l in H. apply in_seq in H. lia.
Qed.

Lemma Forall2_Forall_r {A B : Type} (R : A -> B -> Prop) (P : B -> Prop)
    (l : list A) (l' : list B) :
  Forall2 R l l' -> (forall x y, In x l -> R x y -> P y) -> Forall P l'.
Proof.
  induction 1 as [|x y l l' Hxy _ IH]; intros HP; constructor.
  - apply (HP x y); [now left | exact Hxy].
  - apply IH. intros x' y' Hin. apply HP. now right.
Qed.

Lemma int_str_not_empty (z : Z) : int_str z <> EmptyString.
Proof.
  unfold int_str.
  destruct z as [|p|p]; simpl; try discriminate;
    pose proof (DecimalPos.Unsigned.to_uint_nonnil p) as Hnil;
    destruct (Pos.to_uint p); try discriminate; now contradict Hnil.
Qed.

(** C6, as amended.  In a batch exported as wave_csv, the rows written for
    an invoice with at least one item stand between the rows of the
    invoices before it and those of the invoices after it, one per item.
    The Invoice total column of the first of them holds what the writer
    makes of [invoice['total']] and that of every later row is empty.  So
    the first row is the only one with a total when the total is written
    as a non-empty text, as every integer is, and no row has one when the
    total is None or the empty string. *)
Theorem wave_total_on_first_row_only (clock : Clock)
    (before after : list pydict) (invoice : pydict) (total : pyval)
    (item_list : list pyval) (rows_before rows_after : list (list pydict))
    (written : list pydict) :
  bind (load_items invoice) py_iter = Ok item_list ->
  item_list <> [] ->
  dict_get invoice "total" = Some total ->
  mapM wave_invoice before = Ok rows_before ->
  wave_invoice invoice = Ok written ->
  mapM wave_invoice after = Ok rows_after ->
  export_invoices clock (before ++ invoice :: after) "wave_csv"
  = Ok (csv_text wave_fieldnames
          (List.concat rows_before ++ written ++ List.concat rows_after))
  /\ List.length written = List.length item_list
  /\ exists first rest,
       written = first :: rest
       /\ total_field first = csv_cell total
       /\ Forall (fun row => total_field row = EmptyString) rest
       /\ (total = VNone \/ total = VStr EmptyString ->
           total_field first = EmptyString)
       /\ (forall z, total = VInt z -> total_field first <> EmptyString).
Proof.
  intros Hitems Hne Htotal Hbefore Hwave Hafter.
  split.
  { change (export_invoices clock (before ++ invoice :: after) "wave_csv")
      with (export_to_wave_csv (before ++ invoice :: after)).
    unfold export_to_wave_csv.
    rewrite mapM_app, Hbefore. cbn [bind mapM].
    rewrite Hwave, Hafter. cbn [bind].
    now rewrite concat_app. }
  clear Hbefore Hafter.
  unfold wave_invoice in Hwave.
  destruct (load_items invoice) as [items|e]; [|discriminate].
  cbn [bind] in *. rewrite Hitems in Hwave. cbn [bind] in Hwave.
  pose proof (mapM_length _ _ _ Hwave) as Hlen.
  unfold enumerate in *. rewrite length_combine, length_seq, Nat.min_id in Hlen.
  split; [exact Hlen|].
  destruct item_list as [|item item_list]; [congruence|].
  cbn [List.length seq combine mapM] in Hwave.
  destruct (wave_row invoice (0, item)) as [first|e] eqn:Hfirst;
    [|discriminate]. cbn [bind] in Hwave.
  destruct (mapM _ _) as [rest|e] eqn:Hrest; [|discriminate].
  cbn [bind] in Hwave. injection Hwave as <-.
  exists first, rest. split; [reflexivity|].
  apply wave_row_total in Hfirst.
  unfold wave_invoice_total, getitem in Hfirst. simpl in Hfirst.
  rewrite Htotal in Hfirst. injection Hfirst as Hf.
  unfold total_field. rewrite <- Hf.
  split; [reflexivity|]. split.
  - apply (Forall2_Forall_r _ _ _ _ (mapM_Forall2 _ _ _ Hrest)).
    intros [i it] row Hin Hrow.
    apply combine_seq_lower in Hin.
    apply wave_row_total in Hrow. unfold wave_invoice_total in Hrow.
    destruct (Nat.eqb_spec i 0); [lia|].
    injection Hrow as Hr. now rewrite <- Hr.
  - split.
    + intros [->| ->]; reflexivity.
    + intros z ->. exact (int_str_not_empty z).
Qed.

(** ** Export: the IIF amounts *)

(** The number an amount field denotes, when it is a decimal integer. *)
Definition read_amount (s : string) : option Z :=
  option_map Z.of_int (NilZero.int_of_string s).

(** The AMOUNT column of a TRNS line and of an SPL line. *)
Definition trns_amount (line : list string) : string := nth 6 line EmptyString.
Definition spl_amount (line : list string) : string := nth 5 line EmptyString.

Definition sum (l : list Z) : Z := fold_right Z.add 0%Z l.

Lemma to_int_not_nil (z : Z) :
  Z.to_int z <> Decimal.Pos Decimal.Nil /\ Z.to_int z <> Decimal.Neg Decimal.Nil.
Proof.
  destruct z as [|p|p]; simpl; split; try discriminate;
    intros H; injection H as H;
    exact (DecimalPos.Unsigned.to_uint_nonnil p H).
Qed.

Lemma read_amount_int_str (z : Z) : read_amount (int_str z) = Some z.
Proof.
  unfold read_amount, int_str.
  destruct (to_int_not_nil z) as [Hpos Hneg].
  rewrite (NilZero.isi _ Hpos Hneg). simpl. now rewrite DecimalZ.of_to.
Qed.

Lemma read_amount_negated (a : Z) :
  (0 <= a)%Z -> read_amount ("-" ++ int_str a) = Some (- a)%Z.
Proof.
  intros Ha. destruct a as [|p|p]; [reflexivity | | lia].
  change ("-" ++ int_str (Z.pos p))%string with (int_str (Z.neg p)).
  apply read_amount_int_str.
Qed.

Lemma sum_opp (l : list Z) : sum (map Z.opp l) = (- sum l)%Z.
Proof. induction l as [|a l IH]; simpl; [reflexivity | rewrite IH; lia]. Qed.

Lemma iif_spl_amount (invoice : pydict) (date_str : string) (item : pyval)
    (line : list string) :
  iif_spl invoice date_str item = Ok line ->
  exists amount,
    subscript item "amount" = Ok amount
    /\ spl_amount line = ("-" ++ py_str amount)%string.
Proof.
  unfold iif_spl. intros H.
  destruct (getitem invoice "clientName"); cbn [bind] in H; [|discriminate].
  destruct (subscript item "amount") as [amount|e]; cbn [bind] in H;
    [|discriminate].
  repeat match type of H with
         | bind ?r _ = Ok _ => destruct r; cbn [bind] in H; [|discriminate]
         end.
  inversion H; subst. exists amount. split; reflexivity.
Qed.

(** C4, as amended.  In the IIF export of one invoice, the amount of the
    TRNS line is the text of the invoice's own [total] field and the amount
    of each SPL line is a minus sign followed by the text of the item's
    amount.  For an integer total and non-negative integer item amounts the
    splits therefore add up to minus the sum of the item amounts, which is
    minus the transaction amount exactly when the total equals that sum. *)
Theorem iif_amounts (invoice : pydict) (records : list (list string))
    (total : Z) (item_list : list pyval) (amounts : list Z) :
  iif_invoice invoice = Ok records ->
  dict_get invoice "total" = Some (VInt total) ->
  bind (load_items invoice) py_iter = Ok item_list ->
  Forall2 (fun item a => subscript item "amount" = Ok (VInt a) /\ (0 <= a)%Z)
          item_list amounts ->
  exists trns spls,
    records = trns :: spls
    /\ read_amount (trns_amount trns) = Some total
    /\ map (fun spl => read_amount (spl_amount spl)) spls
       = map (fun a => Some (- a)%Z) amounts
    /\ (sum (map Z.opp amounts) = (- total)%Z <-> total = sum amounts).
Proof.
  intros Hinv Htotal Hitems Hamounts.
  unfold iif_invoice in Hinv.
  destruct (format_date invoice "invoiceDate" "%m/%d/%Y") as [date_str|e];
    cbn [bind] in Hinv; [|discriminate].
  destruct (format_date invoice "dueDate" "%m/%d/%Y") as [due_date_str|e];
    cbn [bind] in Hinv; [|discriminate].
  destruct (iif_trns invoice date_str due_date_str) as [trns|e] eqn:Htrns;
    cbn [bind] in Hinv; [|discriminate].
  destruct (load_items invoice) as [items|e]; cbn [bind] in *; [|discriminate].
  rewrite Hitems in Hinv. cbn [bind] in Hinv.
  destruct (mapM (iif_spl invoice date_str) item_list) as [spls|e] eqn:Hspls;
    cbn [bind] in Hinv; [|discriminate].
  inversion Hinv; subst records. exists trns, spls.
  split; [reflexivity|]. split; [|split].
  - unfold iif_trns, getitem in Htrns. rewrite Htotal in Htrns.
    repeat match type of Htrns with
           | bind ?r _ = Ok _ =>
               destruct r; cbn [bind] in Htrns; [|discriminate]
           end.
    inversion Htrns; subst trns. unfold trns_amount. cbn [nth py_str].
    apply read_amount_int_str.
  - apply mapM_Forall2 in Hspls. clear Hinv Hitems Htrns.
    revert amounts Hamounts.
    induction Hspls as [|item line l lines Hline _ IH]; intros amounts Hamounts;
      inversion Hamounts as [|? a ? amounts' [Ha Hpos] Hrest]; subst;
      [reflexivity|].
    cbn [map]. rewrite (IH amounts' Hrest). f_equal.
    destruct (iif_spl_amount _ _ _ _ Hline) as (amount & Hsub & ->).
    rewrite Ha in Hsub. inversion Hsub; subst amount.
    now apply read_amount_negated.
  - rewrite sum_opp. lia.
Qed.

End Properties.

(** * Further properties of the two modules *)

Lemma is_ok_mapM_app {A B : Type} (f : A -> result B) (xs ys : list A) :
  is_ok (mapM f (xs ++ ys)) = is_ok (mapM f xs) && is_ok (mapM f ys).
Proof.
  rewrite mapM_app.
  destruct (mapM f xs); simpl; [|reflexivity].
  destruct (mapM f ys); reflexivity.
Qed.

Lemma is_ok_bind_ok {A B : Type} (r : result A) (g : A -> B) :
  is_ok (bind r (fun a => Ok (g a))) = is_ok r.
Proof. destruct r; reflexivity. Qed.

Lemma concat_empty_cons (x : string) (l : list string) :
  String.concat EmptyString (x :: l) = (x ++ String.concat EmptyString l)%string.
Proof. destruct l; simpl; [now rewrite append_empty_r | reflexivity]. Qed.

Lemma concat_empty_app (l1 l2 : list string) :
  String.concat EmptyString (l1 ++ l2)
  = (String.concat EmptyString l1 ++ String.concat EmptyString l2)%string.
Proof.
  induction l1 as [|x l1 IH]; [reflexivity|].
  change ((x :: l1) ++ l2)%list with (x :: (l1 ++ l2))%list.
  now rewrite !concat_empty_cons, IH, append_assoc.
Qed.

(** Splits a successful chain of binds into its steps. *)
Ltac bind_inv H :=
  repeat match type of H with
         | bind ?r _ = Ok _ =>
             let E := fresh "E" in
             destruct r eqn:E; cbn [bind] in H; [|discriminate H]
         end.

(** [s.split(c)] for a separator of one character, and the number of
    occurrences of a character in a text and in a list of texts. *)
Fixpoint split_char (c : ascii) (s : string) : list string :=
  match s with
  | EmptyString => [EmptyString]
  | String a s' =>
      if Ascii.eqb a c then EmptyString :: split_char c s'
      else match split_char c s' with
           | piece :: pieces => String a piece :: pieces
           | [] => [String a EmptyString]
           end
  end.

Fixpoint count_char (c : ascii) (s : string) : nat :=
  match s with
  | EmptyString => 0
  | String a s' => (if Ascii.eqb a c then 1 else 0) + count_char c s'
  end.

Definition count_in (c : ascii) (texts : list string) : nat :=
  list_sum (map (count_char c) texts).

Lemma split_char_length (c : ascii) (s : string) :
  List.length (split_char c s) = S (count_char c s).
Proof.
  induction s as [|a s IH]; [reflexivity|]. simpl.
  destruct (Ascii.eqb a c); simpl; [now rewrite IH|].
  destruct (split_char c s); [discriminate IH | exact IH].
Qed.

Lemma split_char_free (c : ascii) (s : string) :
  count_char c s = 0 -> split_char c s = [s].
Proof.
  induction s as [|a s IH]; [reflexivity|]. simpl.
  destruct (Ascii.eqb a c); [discriminate|].
  intros H. now rewrite (IH H).
Qed.

Lemma split_char_app (c : ascii) (x rest : string) :
  count_char c x = 0 ->
  split_char c (x ++ String c rest) = x :: split_char c rest.
Proof.
  induction x as [|a x IH]; simpl.
  - intros _. now rewrite Ascii.eqb_refl.
  - destruct (Ascii.eqb a c); [discriminate|].
    intros H. now rewrite (IH H).
Qed.

Lemma count_char_app (c : ascii) (x y : string) :
  count_char c (x ++ y) = count_char c x + count_char c y.
Proof.
  induction x as [|a x IH]; [reflexivity|]. simpl. rewrite IH. lia.
Qed.

Lemma concat_cons_cons (sep x y : string) (l : list string) :
  String.concat sep (x :: y :: l) = (x ++ sep ++ String.concat sep (y :: l))%string.
Proof. reflexivity. Qed.

Lemma count_char_concat (c : ascii) (texts : list string) :
  texts <> [] ->
  S (count_char c (String.concat (String c EmptyString) texts))
  = List.length texts + count_in c texts.
Proof.
  unfold count_in.
  induction texts as [|x texts IH]; [congruence|]. intros _.
  destruct texts as [|y texts].
  - simpl. lia.
  - rewrite concat_cons_cons, !count_char_app.
    assert (Hne : y :: texts <> []) by discriminate.
    specialize (IH Hne).
    change (count_char c (String c EmptyString)) with
      ((if Ascii.eqb c c then 1 else 0) + 0).
    rewrite Ascii.eqb_refl.
    change (map (count_char c) (x :: y :: texts))
      with (count_char c x :: map (count_char c) (y :: texts)).
    change (List.length (x :: y :: texts)) with (S (List.length (y :: texts))).
    unfold list_sum in *. cbn [fold_right]. lia.
Qed.

(** Joining texts with a character and splitting at that character gives
    one piece per text and one more for each occurrence inside a text; the
    texts themselves come back when none of them holds the character. *)
Lemma split_char_concat_length (c : ascii) (texts : list string) :
  texts <> [] ->
  List.length (split_char c (String.concat (String c EmptyString) texts))
  = List.length texts + count_in c texts.
Proof.
  intros Hne. rewrite split_char_length. now apply count_char_concat.
Qed.

Lemma split_char_concat (c : ascii) (texts : list string) :
  texts <> [] -> count_in c texts = 0 ->
  split_char c (String.concat (String c EmptyString) texts) = texts.
Proof.
  unfold count_in, list_sum.
  induction texts as [|x texts IH]; [congruence|]. intros _ Hfree.
  cbn [map fold_right] in Hfree.
  destruct texts as [|y texts].
  - simpl in *. apply split_char_free. lia.
  - rewrite concat_cons_cons.
    change (String c EmptyString ++ String.concat (String c EmptyString) (y :: texts))%string
      with (String c (String.concat (String c EmptyString) (y :: texts))).
    rewrite split_char_app by lia.
    f_equal. apply IH; [discriminate | lia].
Qed.

Create HintDb export_errors.

Section Coverage.

Context {FO : FloatOps} {L : Library}.

(** ** Export: the format name *)

Lemma other_error_of_option {A : Type} (e : exn) (o : option A) :
  (forall format_type, e <> UnsupportedFormat format_type) ->
  other_error (of_option e o).
Proof. intros He f. destruct o; simpl; [discriminate|]. intros H. apply (He f). now inversion H. Qed.

Lemma other_error_subscript (v : pyval) (k : string) : other_error (subscript v k).
Proof.
  destruct v; simpl; try (intros ?; discriminate). apply other_error_getitem.
Qed.

Lemma other_error_method_get (v : pyval) (k : string) (default : pyval) :
  other_error (method_get v k default).
Proof. destruct v; simpl; intros ?; discriminate. Qed.

Lemma other_error_py_iter (v : pyval) : other_error (py_iter v).
Proof. destruct v; simpl; intros ?; discriminate. Qed.

Lemma other_error_load_items (invoice : pydict) : other_error (load_items invoice).
Proof.
  unfold load_items. apply other_error_bind; [apply other_error_getitem|].
  intros v; destruct v; try apply other_error_ok.
  apply other_error_of_option. discriminate.
Qed.

#[local] Hint Resolve other_error_ok other_error_getitem other_error_as_str
  other_error_py_float other_error_format_2f other_error_format_date
  other_error_tax_amount other_error_status_title other_error_items_json
  other_error_subscript other_error_method_get other_error_py_iter
  other_error_load_items : export_errors.
#[local] Hint Extern 2 (other_error (bind _ _)) =>
  apply other_error_bind; [|intro] : export_errors.

Lemma other_error_status_upper (invoice : pydict) :
  other_error (status_upper invoice).
Proof. unfold status_upper. auto 6 with export_errors. Qed.

Lemma other_error_wave_tax_name (invoice : pydict) :
  other_error (wave_tax_name invoice).
Proof. unfold wave_tax_name. destruct (truthy _); auto 6 with export_errors. Qed.

Lemma other_error_wave_invoice_total (invoice : pydict) (i : nat) :
  other_error (wave_invoice_total invoice i).
Proof. unfold wave_invoice_total. destruct (i =? 0)%nat; auto with export_errors. Qed.

#[local] Hint Resolve other_error_status_upper other_error_wave_tax_name
  other_error_wave_invoice_total : export_errors.

Lemma other_error_iif (clock : Clock) (invoices : list pydict) :
  other_error (export_to_quickbooks_iif clock invoices).
Proof.
  unfold export_to_quickbooks_iif.
  apply other_error_bind; [|intros; apply other_error_ok].
  apply other_error_mapM. intros invoice. unfold iif_invoice.
  repeat (apply other_error_bind; [auto with export_errors | intro]).
  - unfold iif_trns. auto 20 with export_errors.
  - apply other_error_mapM. intros item. unfold iif_spl. auto 20 with export_errors.
  - apply other_error_ok.
Qed.

Lemma other_error_xero (invoices : list pydict) :
  other_error (export_to_xero_csv invoices).
Proof.
  unfold export_to_xero_csv.
  apply other_error_bind; [|intros; apply other_error_ok].
  apply other_error_mapM. intros invoice. unfold xero_invoice.
  repeat (apply other_error_bind; [auto with export_errors | intro]).
  apply other_error_mapM. intros item. unfold xero_row. auto 40 with export_errors.
Qed.

Lemma other_error_sage (invoices : list pydict) :
  other_error (export_to_sage_csv invoices).
Proof.
  unfold export_to_sage_csv.
  apply other_error_bind; [|intros; apply other_error_ok].
  apply other_error_mapM. intros invoice. unfold sage_row.
  auto 40 with export_errors.
Qed.

Lemma other_error_wave (invoices : list pydict) :
  other_error (export_to_wave_csv invoices).
Proof.
  unfold export_to_wave_csv.
  apply other_error_bind; [|intros; apply other_error_ok].
  apply other_error_mapM. intros invoice. unfold wave_invoice.
  repeat (apply other_error_bind; [auto with export_errors | intro]).
  apply other_error_mapM. intros [i item]. unfold wave_row.
  auto 40 with export_errors.
Qed.

Lemma supported_formats_spec (format_type : string) :
  existsb (String.eqb format_type) supported_formats = true
  <-> In format_type supported_formats.
Proof.
  rewrite existsb_exists. split.
  - intros (x & Hin & Heq). apply String.eqb_eq in Heq. now subst.
  - intros Hin. exists format_type. split; [exact Hin | apply String.eqb_refl].
Qed.

(** X1.  [export_invoices] raises the unsupported-format error exactly when
    the format name is none of the six supported ones, and then the error
    carries that name; no invoice is read before the check, and no export
    function raises this error for a supported name. *)
Theorem unsupported_format_exactly (clock : Clock) (invoices : list pydict)
    (format_type name : string) :
  export_invoices clock invoices format_type = Raise (UnsupportedFormat name)
  <-> name = format_type /\ ~ In format_type supported_formats.
Proof.
  unfold export_invoices.
  destruct (existsb (String.eqb format_type) supported_formats) eqn:Hex;
    cbn [negb].
  - apply supported_formats_spec in Hex.
    split; [|intros [_ Hnot]; contradiction]. intros H. exfalso. revert H.
    repeat match goal with
           | |- context [if ?b then _ else _] => destruct b
           end;
      first [ apply other_error_iif | apply other_error_xero
            | apply other_error_sage | apply other_error_wave
            | apply other_error_generic ].
  - assert (Hnot : ~ In format_type supported_formats).
    { intros Hin. apply supported_formats_spec in Hin. congruence. }
    split.
    + intros H. injection H as <-. split; [reflexivity | exact Hnot].
    + intros [-> _]. reflexivity.
Qed.

(** ** Export: batches *)

(** X2.  A batch exports if and only if each of its two parts exports:
    for every format, [export_invoices] succeeds on a concatenation exactly
    when it succeeds on both lists. *)
Theorem export_all_or_nothing (clock : Clock) (xs ys : list pydict)
    (format_type : string) :
  is_ok (export_invoices clock (xs ++ ys) format_type)
  = is_ok (export_invoices clock xs format_type)
    && is_ok (export_invoices clock ys format_type).
Proof.
  unfold export_invoices.
  destruct (negb (existsb (String.eqb format_type) supported_formats));
    [reflexivity|].
  unfold export_to_quickbooks_iif, export_to_xero_csv, export_to_sage_csv,
    export_to_wave_csv, export_to_generic_csv.
  repeat match goal with
         | |- context [if ?b then _ else _] => destruct b
         end;
    rewrite !is_ok_bind_ok; apply is_ok_mapM_app.
Qed.

(** The column names of the CSV that [export_invoices] writes for a
    supported format other than quickbooks_iif. *)
Definition fieldnames_of (format_type : string) : list string :=
  if String.eqb format_type "xero_csv" then xero_fieldnames
  else if String.eqb format_type "sage_csv" then sage_fieldnames
  else if String.eqb format_type "wave_csv" then wave_fieldnames
  else generic_fieldnames.

(** The rows that [export_invoices] hands to the writer, in order. *)
Definition written_rows (format_type : string) (invoices : list pydict)
    : result (list pydict) :=
  if String.eqb format_type "xero_csv" then
    written <- mapM xero_invoice invoices ;; Ok (List.concat written)
  else if String.eqb format_type "sage_csv" then mapM sage_row invoices
  else if String.eqb format_type "wave_csv" then
    written <- mapM wave_invoice invoices ;; Ok (List.concat written)
  else mapM generic_row invoices.

Lemma export_invoices_csv_rows (clock : Clock) (invoices : list pydict)
    (format_type : string) :
  In format_type supported_formats -> format_type <> "quickbooks_iif" ->
  export_invoices clock invoices format_type
  = (written <- written_rows format_type invoices ;;
     Ok (csv_text (fieldnames_of format_type) written)).
Proof.
  intros Hin Hne. apply supported_formats_spec in Hin.
  unfold export_invoices, written_rows, fieldnames_of.
  rewrite Hin. cbn [negb].
  destruct (String.eqb_spec format_type "quickbooks_iif"); [contradiction|].
  unfold export_to_xero_csv, export_to_sage_csv, export_to_wave_csv,
    export_to_generic_csv.
  repeat match goal with
         | |- context [if ?b then _ else _] => destruct b
         end;
    try reflexivity;
    match goal with
    | |- context [mapM ?f invoices] => destruct (mapM f invoices); reflexivity
    end.
Qed.

Lemma written_rows_app (format_type : string) (xs ys : list pydict) :
  written_rows format_type (xs ++ ys)
  = (a <- written_rows format_type xs ;;
     b <- written_rows format_type ys ;; Ok (a ++ b)%list).
Proof.
  unfold written_rows.
  repeat match goal with
         | |- context [if ?b then _ else _] => destruct b
         end;
    rewrite mapM_app;
    repeat match goal with
           | |- context [mapM ?f ?l] =>
               match l with
               | (_ ++ _)%list => fail 1
               | _ => destruct (mapM f l); cbn [bind]; try reflexivity
               end
           end;
    now rewrite ?concat_app.
Qed.

(** X3.  For the five CSV formats the export of a concatenated batch is the
    header line once, then the data lines of the first list, then those of
    the second: rows keep the order of the invoices and nothing else is
    written between them. *)
Theorem csv_export_of_concatenation (clock : Clock) (xs ys : list pydict)
    (format_type tx ty : string) :
  In format_type supported_formats -> format_type <> "quickbooks_iif" ->
  export_invoices clock xs format_type = Ok tx ->
  export_invoices clock ys format_type = Ok ty ->
  exists bx by_,
    tx = (csv_line (fieldnames_of format_type) ++ bx)%string
    /\ ty = (csv_line (fieldnames_of format_type) ++ by_)%string
    /\ export_invoices clock (xs ++ ys) format_type
       = Ok (csv_line (fieldnames_of format_type) ++ bx ++ by_)%string.
Proof.
  intros Hin Hne Hx Hy.
  rewrite export_invoices_csv_rows in * by assumption.
  rewrite written_rows_app.
  destruct (written_rows format_type xs) as [a|e]; [|discriminate].
  destruct (written_rows format_type ys) as [b|e]; [|discriminate].
  cbn [bind] in *. injection Hx as <-. injection Hy as <-.
  exists (String.concat EmptyString (map (writerow (fieldnames_of format_type)) a)),
         (String.concat EmptyString (map (writerow (fieldnames_of format_type)) b)).
  split; [reflexivity|]. split; [reflexivity|].
  unfold csv_text. now rewrite map_app, concat_empty_app.
Qed.

(** X4.  An empty batch never fails for a supported format: the CSV formats
    give the header line alone, and quickbooks_iif gives its three header
    lines followed by the ENDTRNS line. *)
Theorem export_of_empty_batch (clock : Clock) (format_type : string) :
  In format_type supported_formats ->
  export_invoices clock [] format_type
  = Ok (if String.eqb format_type "quickbooks_iif"
        then String.concat NEWLINE
               [iif_hdr_names; iif_hdr clock; iif_trns_names; "ENDTRNS"]
        else csv_line (fieldnames_of format_type)).
Proof.
  intros Hin. simpl in Hin.
  destruct Hin as [<-|[<-|[<-|[<-|[<-|[<-|[]]]]]]]; reflexivity.
Qed.

(** ** Export: rows *)

Lemma xero_row_keys (invoice : pydict) (item : pyval) (row : pydict) :
  xero_row invoice item = Ok row -> map fst row = xero_fieldnames.
Proof. unfold xero_row. intros H. bind_inv H. now injection H as <-. Qed.

Lemma sage_row_keys (invoice row : pydict) :
  sage_row invoice = Ok row -> map fst row = sage_fieldnames.
Proof. unfold sage_row. intros H. bind_inv H. now injection H as <-. Qed.

Lemma wave_row_keys (invoice row : pydict) (i_item : nat * pyval) :
  wave_row invoice i_item = Ok row -> map fst row = wave_fieldnames.
Proof.
  destruct i_item as [i item]. unfold wave_row. intros H. bind_inv H.
  now injection H as <-.
Qed.

Lemma generic_row_keys (invoice row : pydict) :
  generic_row invoice = Ok row -> map fst row = generic_fieldnames.
Proof. unfold generic_row. intros H. bind_inv H. now injection H as <-. Qed.

Lemma mapM_Forall {A B : Type} (f : A -> result B) (P : B -> Prop)
    (l : list A) (ys : list B) :
  (forall x y, f x = Ok y -> P y) -> mapM f l = Ok ys -> Forall P ys.
Proof.
  intros HP H. apply mapM_Forall2 in H.
  induction H as [|x y l ys Hxy _ IH]; constructor; eauto.
Qed.

Lemma Forall_concat {A : Type} (P : A -> Prop) (ls : list (list A)) :
  Forall (Forall P) ls -> Forall P (List.concat ls).
Proof.
  induction 1 as [|l ls Hl _ IH]; simpl; [constructor|].
  apply Forall_app. now split.
Qed.

(** X5.  Every row that a CSV export hands to the writer has exactly the
    keys of the format's field-name list, in that order: the writer never
    meets a key outside [fieldnames] and never has to fill a column with
    its default. *)
Theorem written_rows_carry_the_fieldnames (format_type : string)
    (invoices : list pydict) (written : list pydict) :
  written_rows format_type invoices = Ok written ->
  Forall (fun row => map fst row = fieldnames_of format_type) written.
Proof.
  unfold written_rows, fieldnames_of.
  destruct (String.eqb format_type "xero_csv").
  { intros H. bind_inv H. injection H as <-. apply Forall_concat.
    eapply mapM_Forall; [|exact E]. intros inv rows_ Hinv. cbv beta.
    unfold xero_invoice in Hinv. bind_inv Hinv.
    eapply mapM_Forall; [|exact Hinv]. intros item row. apply xero_row_keys. }
  destruct (String.eqb format_type "sage_csv").
  { apply mapM_Forall. intros inv row. apply sage_row_keys. }
  destruct (String.eqb format_type "wave_csv").
  { intros H. bind_inv H. injection H as <-. apply Forall_concat.
    eapply mapM_Forall; [|exact E]. intros inv rows_ Hinv. cbv beta.
    unfold wave_invoice in Hinv. bind_inv Hinv.
    eapply mapM_Forall; [|exact Hinv]. intros item row. apply wave_row_keys. }
  apply mapM_Forall. intros inv row. apply generic_row_keys.
Qed.

(** X6.  The two line-item formats write exactly one row per item of an
    invoice: the Xero rows and the Wave rows of an invoice are as many as
    the items its [items] field yields. *)
Theorem one_row_per_item (invoice : pydict) (items : list pyval)
    (written : list pydict) :
  bind (load_items invoice) py_iter = Ok items ->
  xero_invoice invoice = Ok written \/ wave_invoice invoice = Ok written ->
  List.length written = List.length items.
Proof.
  intros Hitems H.
  assert (Hload : forall k : list pyval -> result (list pydict),
             (v <- load_items invoice ;; l <- py_iter v ;; k l) = k items).
  { intros k. destruct (load_items invoice); cbn [bind] in *; [|discriminate].
    now rewrite Hitems. }
  destruct H as [H|H].
  - unfold xero_invoice in H. rewrite Hload in H. now apply mapM_length in H.
  - unfold wave_invoice in H. rewrite Hload in H.
    apply mapM_length in H. unfold enumerate in H.
    now rewrite length_combine, length_seq, Nat.min_id in H.
Qed.

(** X7.  An invoice whose item list is empty leaves no trace in the Xero
    and Wave exports, whatever its other fields hold: the batch exports as
    if the invoice were not in it, and none of its dates or names is read. *)
Theorem invoice_without_items_is_dropped (clock : Clock)
    (before after : list pydict) (invoice : pydict) (format_type : string) :
  bind (load_items invoice) py_iter = Ok [] ->
  format_type = "xero_csv" \/ format_type = "wave_csv" ->
  export_invoices clock (before ++ invoice :: after) format_type
  = export_invoices clock (before ++ after) format_type.
Proof.
  intros Hitems Hfmt.
  assert (Hx : xero_invoice invoice = Ok []).
  { unfold xero_invoice. destruct (load_items invoice); cbn [bind] in *;
      [|discriminate]. now rewrite Hitems. }
  assert (Hw : wave_invoice invoice = Ok []).
  { unfold wave_invoice. destruct (load_items invoice); cbn [bind] in *;
      [|discriminate]. now rewrite Hitems. }
  assert (Hdrop : forall (f : pydict -> result (list pydict)),
             f invoice = Ok [] ->
             (w <- mapM f (before ++ invoice :: after) ;; Ok (List.concat w))
             = (w <- mapM f (before ++ after) ;; Ok (List.concat w))).
  { intros f Hf. rewrite !mapM_app. cbn [mapM]. rewrite Hf. cbn [bind].
    destruct (mapM f before); cbn [bind]; [|reflexivity].
    destruct (mapM f after); cbn [bind]; [|reflexivity].
    now rewrite !concat_app. }
  destruct Hfmt as [-> | ->];
    cbn [export_invoices supported_formats existsb String.eqb Ascii.eqb
         Bool.eqb orb negb];
    unfold export_to_xero_csv, export_to_wave_csv.
  - pose proof (Hdrop xero_invoice Hx) as H.
    destruct (mapM xero_invoice (before ++ invoice :: after));
      destruct (mapM xero_invoice (before ++ after)); cbn [bind] in *;
      congruence.
  - pose proof (Hdrop wave_invoice Hw) as H.
    destruct (mapM wave_invoice (before ++ invoice :: after));
      destruct (mapM wave_invoice (before ++ after)); cbn [bind] in *;
      congruence.
Qed.

Lemma format_date_any_format (invoice : pydict) (field fmt fmt' text : string) :
  format_date invoice field fmt = Ok text ->
  exists text', format_date invoice field fmt' = Ok text'.
Proof.
  unfold format_date. intros H.
  destruct (getitem invoice field); cbn [bind] in *; [|discriminate].
  destruct (as_str a); cbn [bind] in *; [|discriminate].
  destruct (of_option _ _); cbn [bind] in *; [|discriminate].
  eexists. reflexivity.
Qed.

(** X8.  Every invoice that the generic CSV accepts the Sage CSV accepts
    too, and the two rows agree on the invoice number, the client, the net
    amount, the derived tax amount, the total and the status; net amount
    and total are the invoice's own [subtotal] and [total] values. *)
Theorem sage_agrees_with_generic (invoice generic : pydict) :
  generic_row invoice = Ok generic ->
  exists sage,
    sage_row invoice = Ok sage
    /\ dict_get sage "Invoice_No" = dict_get generic "Invoice Number"
    /\ dict_get sage "Customer" = dict_get generic "Client Name"
    /\ dict_get sage "Net_Amount" = dict_get generic "Subtotal"
    /\ dict_get sage "Tax_Amount" = dict_get generic "Tax Amount"
    /\ dict_get sage "Total_Amount" = dict_get generic "Total"
    /\ dict_get sage "Status" = dict_get generic "Status"
    /\ dict_get sage "Net_Amount" = dict_get invoice "subtotal"
    /\ dict_get sage "Total_Amount" = dict_get invoice "total".
Proof.
  unfold generic_row. intros H. bind_inv H. injection H as <-.
  repeat match goal with
         | Hd : format_date invoice ?f "%Y-%m-%d" = Ok _ |- _ =>
             let d := fresh "d" in
             let Hd' := fresh "Hd" in
             destruct (format_date_any_format _ _ _ "%d/%m/%Y" _ Hd) as [d Hd'];
             clear Hd
         end.
  unfold sage_row.
  repeat match goal with
         | Hr : ?r = Ok _ |- context [bind ?r _] => rewrite Hr; cbn [bind]
         end.
  eexists. split; [reflexivity|]. cbn.
  repeat match goal with
         | Hg : getitem invoice ?k = Ok _ |- _ =>
             unfold getitem in Hg;
             destruct (dict_get invoice k); [injection Hg as <- | discriminate Hg]
         end.
  repeat split; reflexivity.
Qed.

(** The character between the fields of an IIF line. *)
Definition tab : ascii := ascii_of_nat 9.

(** A record that starts with [tag] and has [n] slots, on its line of the
    output: the line splits at its tabs into [n] pieces and one more for
    every tab inside a slot, nothing being escaped; the pieces are the
    slots when no slot holds a tab. *)
Definition record_on_line (tag : string) (n : nat) (record : list string) : Prop :=
  nth 0 record EmptyString = tag
  /\ List.length (split_char tab (String.concat TAB record))
     = n + count_in tab record
  /\ (count_in tab record = 0 ->
      split_char tab (String.concat TAB record) = record).

Lemma record_on_line_intro (tag : string) (n : nat) (record : list string) :
  nth 0 record EmptyString = tag -> List.length record = n -> n <> 0 ->
  record_on_line tag n record.
Proof.
  intros Htag Hlen Hn.
  assert (Hne : record <> []) by (intros ->; simpl in Hlen; congruence).
  split; [exact Htag|]. split.
  - rewrite <- Hlen. exact (split_char_concat_length tab record Hne).
  - exact (split_char_concat tab record Hne).
Qed.

Lemma iif_invoice_records (invoice : pydict) (records : list (list string)) :
  iif_invoice invoice = Ok records ->
  exists trns spls items,
    records = trns :: spls
    /\ bind (load_items invoice) py_iter = Ok items
    /\ List.length spls = List.length items
    /\ record_on_line "TRNS" 20 trns
    /\ Forall (fun spl =>
                 record_on_line "SPL" 10 spl
                 /\ nth 1 spl EmptyString = nth 2 trns EmptyString
                 /\ nth 3 spl EmptyString = nth 4 trns EmptyString
                 /\ nth 6 spl EmptyString = nth 7 trns EmptyString)
              spls.
Proof.
  unfold iif_invoice. intros H.
  destruct (format_date invoice "invoiceDate" "%m/%d/%Y") as [date_str|e];
    cbn [bind] in H; [|discriminate].
  destruct (format_date invoice "dueDate" "%m/%d/%Y") as [due_date_str|e];
    cbn [bind] in H; [|discriminate].
  destruct (iif_trns invoice date_str due_date_str) as [trns|e] eqn:Htrns;
    cbn [bind] in H; [|discriminate].
  destruct (load_items invoice) as [v|e]; cbn [bind] in *; [|discriminate].
  destruct (py_iter v) as [items|e]; cbn [bind] in H; [|discriminate].
  destruct (mapM (iif_spl invoice date_str) items) as [spls|e] eqn:Hspls;
    cbn [bind] in H; [|discriminate].
  injection H as <-.
  exists trns, spls, items. split; [reflexivity|]. split; [reflexivity|].
  split; [now apply mapM_length in Hspls|].
  unfold iif_trns in Htrns.
  destruct (getitem invoice "clientName") as [clientName|e] eqn:Hname;
    cbn [bind] in Htrns; [|discriminate].
  destruct (getitem invoice "total") as [total|e];
    cbn [bind] in Htrns; [|discriminate].
  destruct (getitem invoice "invoiceNumber") as [invoiceNumber|e] eqn:Hnumber;
    cbn [bind] in Htrns; [|discriminate].
  bind_inv Htrns. injection Htrns as <-.
  split; [now apply record_on_line_intro|].
  eapply mapM_Forall; [|exact Hspls]. intros item spl Hspl. cbv beta.
  unfold iif_spl in Hspl. rewrite Hname in Hspl. cbn [bind] in Hspl.
  destruct (subscript item "amount"); cbn [bind] in Hspl; [|discriminate].
  rewrite Hnumber in Hspl. cbn [bind] in Hspl.
  bind_inv Hspl. injection Hspl as <-.
  split; [now apply record_on_line_intro|]. repeat split; reflexivity.
Qed.

(** X9.  The text of a successful IIF export is its lines joined by line
    feeds: the three header lines, the record lines and ENDTRNS, and it
    splits back into them when no line holds a line feed.  Each invoice
    gives one TRNS line followed by one SPL line per item.  Values are
    written unescaped: a TRNS line splits at its tabs into twenty fields
    plus one for every tab inside a value, an SPL line into ten plus one
    for every tab inside a value, and the fields are the values when no
    value holds a tab.  Every SPL record carries the date, the client name
    and the document number of its TRNS record. *)
Theorem iif_record_shape (clock : Clock) (invoices : list pydict)
    (output : string) :
  export_invoices clock invoices "quickbooks_iif" = Ok output ->
  exists records,
    mapM iif_invoice invoices = Ok records
    /\ output = String.concat NEWLINE (iif_lines clock records)
    /\ (count_in LF (iif_lines clock records) = 0 ->
        split_char LF output = iif_lines clock records)
    /\ Forall2
         (fun invoice invoice_records =>
            exists trns spls items,
              invoice_records = trns :: spls
              /\ bind (load_items invoice) py_iter = Ok items
              /\ List.length spls = List.length items
              /\ record_on_line "TRNS" 20 trns
              /\ Forall (fun spl =>
                           record_on_line "SPL" 10 spl
                           /\ nth 1 spl EmptyString = nth 2 trns EmptyString
                           /\ nth 3 spl EmptyString = nth 4 trns EmptyString
                           /\ nth 6 spl EmptyString = nth 7 trns EmptyString)
                        spls)
         invoices records.
Proof.
  change (export_invoices clock invoices "quickbooks_iif")
    with (export_to_quickbooks_iif clock invoices).
  unfold export_to_quickbooks_iif. intros H.
  destruct (mapM iif_invoice invoices) as [records|e] eqn:Hrecords;
    cbn [bind] in H; [|discriminate].
  injection H as <-. exists records.
  split; [reflexivity|]. split; [reflexivity|]. split.
  - apply (split_char_concat LF). discriminate.
  - apply mapM_Forall2 in Hrecords.
    induction Hrecords as [|invoice invoice_records invoices records Hinv _ IH];
      constructor; [now apply iif_invoice_records | exact IH].
Qed.

(** ** Rendering: tokens *)

(** X10.  A token whose name has an entry in the mapping is replaced by
    the [str] of that entry, wherever it occurs: substitution of
    [pre ++ {{name}} ++ post] is the substitution of [pre], the value, and
    the substitution of [post]. *)
Theorem known_token_replaced (data : pydict) (pre name post : string)
    (v : pyval) :
  name <> EmptyString ->
  all_word name = true ->
  dict_get data name = Some v ->
  replace_template_variables (pre ++ "{{" ++ name ++ "}}" ++ post) data =
  (replace_template_variables pre data ++ py_str v
   ++ replace_template_variables post data)%string.
Proof.
  intros Hne Hw Hget.
  rewrite !replace_template_variables_re_sub.
  rewrite (re_sub_token data pre name post Hne Hw).
  unfold replace_var, get_default. now rewrite Hget.
Qed.

Lemma match_token_prefix (s name rest : string) :
  match_token s = Some (name, rest) -> String.prefix "{{" s = true.
Proof.
  unfold match_token. destruct s as [|a [|b s]]; try discriminate.
  destruct (Ascii.eqb_spec a "{") as [->|]; [|discriminate].
  destruct (Ascii.eqb_spec b "{") as [->|]; [|discriminate].
  intros _. destruct s; reflexivity.
Qed.

Lemma re_sub_without_tokens (data : pydict) (text : string) :
  contains "{{" text = false -> re_sub data text = text.
Proof.
  induction text as [|c text IH]; intros H; [now rewrite re_sub_equation_1|].
  rewrite re_sub_cons.
  cbn [contains] in H.
  destruct (String.prefix "{{" (String c text)) eqn:Hp; [discriminate|].
  destruct (match_token (String c text)) as [[name rest]|] eqn:Hm.
  - apply match_token_prefix in Hm. congruence.
  - now rewrite IH.
Qed.

(** X11.  A text in which no two opening braces follow each other comes
    out of the substitution unchanged, whatever the mapping holds. *)
Theorem text_without_tokens_unchanged (data : pydict) (text : string) :
  contains "{{" text = false ->
  replace_template_variables text data = text.
Proof.
  intros H. rewrite replace_template_variables_re_sub.
  now apply re_sub_without_tokens.
Qed.

Lemma replace_text_re_sub (data : pydict) (text : string) :
  replace_text data text = re_sub data text.
Proof.
  unfold replace_text. destruct text; simpl.
  - now rewrite re_sub_equation_1.
  - apply replace_template_variables_re_sub.
Qed.

(** A cell that is a prefix without tokens, one token and a suffix without
    tokens. *)
Lemma replace_text_one_token (data : pydict) (pre name post : string) :
  name <> EmptyString -> all_word name = true ->
  contains "{{" pre = false -> contains "{{" post = false ->
  replace_text data (pre ++ "{{" ++ name ++ "}}" ++ post)
  = (pre ++ replace_var data name ++ post)%string.
Proof.
  intros Hne Hw Hpre Hpost.
  rewrite replace_text_re_sub, (re_sub_token data pre name post Hne Hw).
  now rewrite !re_sub_without_tokens.
Qed.

(** ** Rendering: tables and documents *)

Lemma find_template_row_from_first (k i : nat) (rs : list (list string)) :
  find_template_row_from k rs = Some i ->
  forall j, j < i - k ->
    contains "{{item_" (String.concat " " (nth j rs [])) = false.
Proof.
  revert k; induction rs as [|row rs IH]; intros k; simpl; [discriminate|].
  destruct (contains "{{item_" (String.concat " " row)) eqn:Hc.
  - intros H j Hj. inversion H; subst. lia.
  - intros H j Hj. destruct j as [|j]; [exact Hc|].
    apply (IH (S k) H). pose proof (find_template_row_from_spec _ _ _ H). lia.
Qed.

Lemma find_template_row_from_none (k : nat) (rs : list (list string)) :
  find_template_row_from k rs = None
  <-> Forall (fun row => contains "{{item_" (String.concat " " row) = false) rs.
Proof.
  revert k; induction rs as [|row rs IH]; intros k; simpl.
  - split; [constructor | reflexivity].
  - destruct (contains "{{item_" (String.concat " " row)) eqn:Hc.
    + split; [discriminate|]. intros H. inversion H; congruence.
    + rewrite IH. split; [now constructor | now inversion 1].
Qed.

(** X12.  The row that [process_document] takes as the template row of a
    table is the first row whose cells, joined by spaces, contain the text
    [{{item_]; a table is treated as a plain table exactly when no row
    does. *)
Theorem template_row_is_first_item_row (table : Table) :
  (forall tri, find_template_row table = Some tri ->
     tri < List.length (rows table)
     /\ contains "{{item_" (String.concat " " (nth tri (rows table) [])) = true
     /\ forall i, i < tri ->
          contains "{{item_" (String.concat " " (nth i (rows table) [])) = false)
  /\ (find_template_row table = None
      <-> Forall (fun row => contains "{{item_" (String.concat " " row) = false)
                 (rows table)).
Proof.
  split.
  - intros tri H. destruct (find_template_row_spec table tri H) as [Hlt Hc].
    repeat split; [exact Hlt | exact Hc|].
    intros i Hi. apply (find_template_row_from_first 0 tri _ H). lia.
  - apply find_template_row_from_none.
Qed.

Lemma generated_row_padding (n : nat) (template_row row : list string)
    (item : pyval) (i : nat) :
  generated_row n template_row item = Ok row ->
  List.length template_row <= i -> i < n ->
  nth_error row i = Some EmptyString.
Proof.
  intros H Hi Hn. destruct (item_data item) as [idata|e] eqn:Hdata.
  - rewrite (generated_row_ok n template_row item idata Hdata) in H.
    injection H as <-. unfold cell_texts.
    rewrite nth_error_app2 by (rewrite length_map, length_firstn; lia).
    rewrite length_map, length_firstn.
    apply nth_error_repeat. lia.
  - pose proof (fill_cells_without_data _ _ _ _ _ Hdata H) as ->.
    now apply nth_error_repeat.
Qed.

(** X13.  Every row that [process_table_rows] appends has exactly as many
    cells as the table grid has columns, whatever the width of the template
    row; the cells beyond the template row's width are empty. *)
Theorem generated_rows_fit_the_grid (table table' : Table)
    (invoice_items : pyval) (tri : nat) :
  tri < List.length (rows table) ->
  truthy invoice_items = true ->
  process_table_rows table invoice_items tri = Ok table' ->
  ncols table' = ncols table
  /\ Forall (fun row =>
               List.length row = ncols table
               /\ forall i, List.length (nth tri (rows table) []) <= i ->
                            i < ncols table ->
                            nth_error row i = Some EmptyString)
            (skipn (S tri) (rows table')).
Proof.
  intros Htri Htruthy Ht.
  destruct (process_table_rows_ok _ _ _ _ Htri Ht)
    as [[Hfalsy _] | (_ & items & new_rows & _ & Hnew & Hcols & Hrows)];
    [congruence|].
  split; [exact Hcols|].
  rewrite Hrows, skipn_kept by lia.
  eapply mapM_Forall; [|exact Hnew]. intros item row Hrow. cbv beta.
  split; [apply (generated_row_cells _ _ _ _ Hrow)|].
  intros i Hi Hn. now apply (generated_row_padding _ _ _ _ _ Hrow).
Qed.

Lemma generated_row_needs_a_dict (n : nat) (template_row : list string)
    (item : pyval) :
  (forall d, item <> VDict d) -> 0 < n -> template_row <> [] ->
  generated_row n template_row item = Raise AttributeError.
Proof.
  intros Hitem Hn Hrow. unfold generated_row, enumerate.
  destruct template_row as [|text template_row]; [congruence|].
  cbn [List.length seq combine fill_cells]. rewrite repeat_length.
  destruct (Nat.ltb_spec 0 n); [|lia].
  assert (Hdata : item_data item = Raise AttributeError).
  { destruct item; try reflexivity. now destruct (Hitem d). }
  now rewrite Hdata.
Qed.

Lemma template_row_not_empty (table : Table) (tri : nat) :
  find_template_row table = Some tri -> nth tri (rows table) [] <> [].
Proof.
  intros H. destruct (find_template_row_spec table tri H) as [_ Hc].
  intros Hnil. rewrite Hnil in Hc. discriminate.
Qed.

(** X14.  The renderer does not decode an [items] field that is a JSON
    string.  For a non-empty string, every item-bearing table whose grid
    has a column makes the table step of [process_document] raise
    AttributeError: the loop takes the characters of the string as the
    items. *)
Theorem renderer_rejects_items_string (data : pydict) (table : Table)
    (tri : nat) (s : string) :
  find_template_row table = Some tri ->
  0 < ncols table ->
  s <> EmptyString ->
  process_table data (VStr s) table = Raise AttributeError.
Proof.
  intros Hfind Hcols Hs.
  destruct (find_template_row_spec table tri Hfind) as [Htri _].
  unfold process_table. rewrite Hfind, process_table_rows_eq.
  destruct s as [|c s]; [congruence|].
  cbn [truthy String.eqb negb orb].
  destruct (Nat.leb_spec (List.length (rows table)) tri); [lia|].
  cbn [py_iter bind list_ascii_of_string map mapM].
  rewrite generated_row_needs_a_dict;
    [reflexivity | discriminate | exact Hcols
     | now apply template_row_not_empty].
Qed.

Lemma map_replace_text_length (data : pydict) (l : list string) :
  List.length (map (replace_text data) l) = List.length l.
Proof. apply length_map. Qed.

(** X15.  [process_document] keeps the shape of the document: the same
    number of body paragraphs, tables and sections, the same number of
    header and footer paragraphs in each section, the same grid width in
    each table, and in every table without a template row the same number
    of rows with the same number of cells. *)
Theorem process_document_keeps_shape (doc doc' : Document)
    (invoice_data : pydict) :
  process_document doc invoice_data = Ok doc' ->
  List.length (paragraphs doc') = List.length (paragraphs doc)
  /\ Forall2 (fun sec sec' =>
                List.length (header_paragraphs sec')
                = List.length (header_paragraphs sec)
                /\ List.length (footer_paragraphs sec')
                   = List.length (footer_paragraphs sec))
             (sections doc) (sections doc')
  /\ Forall2 (fun table table' =>
                ncols table' = ncols table
                /\ (find_template_row table = None ->
                    Forall2 (fun row row' => List.length row' = List.length row)
                            (rows table) (rows table')))
             (tables doc) (tables doc').
Proof.
  intros Hdoc.
  destruct (process_document_tables _ _ _ Hdoc) as (data & Hdata & Htables).
  unfold process_document in Hdoc. rewrite Hdata in Hdoc. cbn [bind] in Hdoc.
  destruct (mapM _ (tables doc)) as [new_tables|e]; [|discriminate].
  cbn [bind] in Hdoc. injection Hdoc as <-. cbn [paragraphs sections tables] in *.
  split; [apply length_map|]. split.
  - induction (sections doc) as [|sec secs IH]; simpl; constructor; [|exact IH].
    cbn. now rewrite !length_map.
  - eapply Forall2_impl; [|exact Htables].
    intros table table' Ht. cbv beta in Ht. unfold process_table in Ht.
    destruct (find_template_row table) as [tri|] eqn:Hfind.
    + split; [|discriminate].
      destruct (find_template_row_spec table tri Hfind) as [Htri _].
      destruct (process_table_rows_ok _ _ _ _ Htri Ht)
        as [[_ ->] | (_ & _ & _ & _ & _ & Hcols & _)]; [reflexivity | exact Hcols].
    + injection Ht as <-. split; [reflexivity|]. intros _. cbn [rows].
      induction (rows table) as [|row rs IH]; simpl; constructor; [|exact IH].
      apply length_map.
Qed.

(** The six fields that [process_document] converts with [float]. *)
Definition money_keys : list string :=
  ["subtotal"; "discountAmount"; "vatRate"; "vatAmount"; "depositAmount"; "total"].

(** The keys of the mapping that [process_document] builds. *)
Definition replacement_keys : list string :=
  [ "company_name"; "company_address"; "company_phone"; "company_email";
    "company_website"; "invoice_number"; "invoice_date"; "due_date"; "status";
    "client_name"; "client_email"; "client_address"; "client_phone";
    "subtotal"; "discount_amount"; "vat_rate"; "vat_amount"; "deposit_amount";
    "total"; "currency"; "notes"; "payment_terms"; "thank_you_message" ].

Lemma replacement_data_keys (invoice_data data : pydict) :
  replacement_data invoice_data = Ok data -> map fst data = replacement_keys.
Proof.
  unfold replacement_data, money_field. intros H. bind_inv H.
  now injection H as <-.
Qed.

Lemma replacement_data_ok (invoice_data : pydict) :
  Forall (fun key =>
            is_ok (py_float (get_default invoice_data key (VInt 0))) = true)
         money_keys ->
  exists data, replacement_data invoice_data = Ok data.
Proof.
  intros H. unfold money_keys in H.
  repeat match goal with
         | H : Forall _ (_ :: _) |- _ =>
             let Hk := fresh "Hk" in
             let Hrest := fresh "Hrest" in
             apply Forall_cons_iff in H; destruct H as [Hk H]
         end.
  unfold replacement_data, money_field.
  repeat match goal with
         | Hk : is_ok (py_float ?v) = true |- _ =>
             destruct (py_float v); [clear Hk | discriminate Hk]
         end.
  cbn [bind]. eexists. reflexivity.
Qed.

(** X16.  Rendering does not raise on missing data.  When each of the six
    money fields that is present converts with [float] (and [float(0)]
    does, for the absent ones) and no table of the document has a template
    row, [process_document] returns a document, whatever else the invoice
    holds or lacks; the mapping it substitutes with always has the same
    twenty-three keys. *)
Theorem rendering_succeeds (doc : Document) (invoice_data : pydict) :
  Forall (fun key =>
            is_ok (py_float (get_default invoice_data key (VInt 0))) = true)
         money_keys ->
  Forall (fun table => find_template_row table = None) (tables doc) ->
  exists data doc',
    replacement_data invoice_data = Ok data
    /\ map fst data = replacement_keys
    /\ process_document doc invoice_data = Ok doc'.
Proof.
  intros Hmoney Htables.
  destruct (replacement_data_ok invoice_data Hmoney) as [data Hdata].
  destruct (mapM_all_ok
              (process_table data (get_default invoice_data "items" (VList [])))
              (tables doc)) as [new_tables Hnew].
  { eapply Forall_impl; [|exact Htables]. intros table Hnone. cbv beta in *.
    unfold process_table. now rewrite Hnone. }
  exists data. eexists. split; [exact Hdata|].
  split; [now apply (replacement_data_keys invoice_data)|].
  unfold process_document. rewrite Hdata. cbn [bind]. rewrite Hnew.
  reflexivity.
Qed.

(** ** templates/create_template.py

    The three tables that [create_default_invoice_template] builds, each
    cell by its text: the paragraphs of a cell joined by line feeds. *)

Definition cell_of (paragraph_texts : list string) : string :=
  String.concat NEWLINE paragraph_texts.

Definition default_header_table : Table :=
  {| ncols := 2;
     rows := [ [ cell_of [ "{{companyName}}"; "{{companyAddress}}";
                           "Phone: {{companyPhone}}"; "Email: {{companyEmail}}";
                           "Website: {{companyWebsite}}" ];
                 cell_of [ "INVOICE"; "Invoice #: {{invoiceNumber}}";
                           "Date: {{invoiceDate}}"; "Due Date: {{dueDate}}" ] ] ] |}.

Definition default_items_table : Table :=
  {| ncols := 5;
     rows := [ [ "Item"; "Description"; "Rate"; "Qty"; "Amount" ];
               [ "{{item.name}}"; "{{item.description}}"; "${{item.rate}}";
                 "{{item.quantity}}"; "${{item.amount}}" ] ] |}.

Definition default_summary_table : Table :=
  {| ncols := 2;
     rows := [ [ "Subtotal:"; "${{subtotal}}" ];
               [ "Discount:"; "{{discount}}%" ];
               [ "VAT:"; "{{vat}}%" ];
               [ "Total:"; "${{total}}" ] ] |}.

(** X17.  The items table of the default template is never expanded.  Its
    template row spells its tokens [{{item.name}}], with a dot, so
    [process_document] finds no template row in it, and the substitution
    matches none of its tokens: for every mapping and every item sequence
    the table comes out exactly as the template has it. *)
Theorem default_items_table_never_expands (data : pydict) (invoice_items : pyval) :
  find_template_row default_items_table = None
  /\ process_table data invoice_items default_items_table
     = Ok default_items_table.
Proof. split; [reflexivity|]. vm_compute. reflexivity. Qed.

(** X18.  With the mapping that [process_document] builds, the header table
    of the default template comes out unchanged, since its tokens are
    spelled [{{companyName}}], [{{invoiceNumber}}] and so on while the
    mapping's keys are [company_name], [invoice_number]; and in the summary
    table the subtotal and the total come out with two currency signs, one
    from the template and one from the mapping, while [{{discount}}] and
    [{{vat}}] stay as they are. *)
Theorem default_template_tables (invoice_data data : pydict)
    (invoice_items : pyval) :
  replacement_data invoice_data = Ok data ->
  process_table data invoice_items default_header_table
  = Ok default_header_table
  /\ exists subtotal total,
       py_float (get_default invoice_data "subtotal" (VInt 0)) = Ok subtotal
       /\ py_float (get_default invoice_data "total" (VInt 0)) = Ok total
       /\ process_table data invoice_items default_summary_table
          = Ok {| ncols := 2;
                  rows := [ [ "Subtotal:"; "$$" ++ float_fmt 2 subtotal ];
                            [ "Discount:"; "{{discount}}%" ];
                            [ "VAT:"; "{{vat}}%" ];
                            [ "Total:"; "$$" ++ float_fmt 2 total ] ] |}.
Proof.
  unfold replacement_data, money_field. intros H.
  destruct (py_float (get_default invoice_data "subtotal" (VInt 0)))
    as [subtotal|e]; cbn [bind] in H; [|discriminate].
  destruct (py_float (get_default invoice_data "discountAmount" (VInt 0)));
    cbn [bind] in H; [|discriminate].
  destruct (py_float (get_default invoice_data "vatRate" (VInt 0)));
    cbn [bind] in H; [|discriminate].
  destruct (py_float (get_default invoice_data "vatAmount" (VInt 0)));
    cbn [bind] in H; [|discriminate].
  destruct (py_float (get_default invoice_data "depositAmount" (VInt 0)));
    cbn [bind] in H; [|discriminate].
  destruct (py_float (get_default invoice_data "total" (VInt 0)))
    as [total|e]; cbn [bind] in H; [|discriminate].
  injection H as <-.
  split; [vm_compute; reflexivity|].
  exists subtotal, total. split; [reflexivity|]. split; [reflexivity|].
  unfold process_table.
  change (find_template_row default_summary_table) with (@None nat).
  cbn [default_summary_table rows ncols map].
  change "${{subtotal}}" with ("$" ++ "{{" ++ "subtotal" ++ "}}" ++ EmptyString)%string.
  change "${{total}}" with ("$" ++ "{{" ++ "total" ++ "}}" ++ EmptyString)%string.
  change "{{discount}}%" with (EmptyString ++ "{{" ++ "discount" ++ "}}" ++ "%")%string.
  change "{{vat}}%" with (EmptyString ++ "{{" ++ "vat" ++ "}}" ++ "%")%string.
  rewrite !replace_text_one_token by (reflexivity || discriminate).
  rewrite !replace_text_re_sub, !re_sub_without_tokens by reflexivity.
  cbn. now rewrite !append_empty_r.
Qed.

End Coverage.

(** * server/reminder_service.py *)

Section Reminders.

Context {FO : FloatOps} {L : Library}.

(** What the reminder service takes from outside: the day difference of two
    datetimes, the text of an exception, and the boolean that
    [send_reminder_email] returns at its n-th call, which depends on the
    SMTP server. *)
Class Mailer : Type := {
  days_late : datetime -> datetime -> Z;
    (* (current_time.replace(tzinfo=due_date.tzinfo) - due_date).days *)
  exn_str : exn -> string;                        (* str(e) *)
  send_reminder_email : nat -> pydict -> string -> bool
}.

Context {M : Mailer}.

Definition get_reminder_type (days_overdue : Z) : string :=
  if (days_overdue <=? 7)%Z then "gentle"
  else if (days_overdue <=? 30)%Z then "urgent"
  else "final".

(** The keys of [self.reminder_templates]. *)
Definition reminder_templates : list string := ["gentle"; "urgent"; "final"].

(** The dict [results] of [process_overdue_invoices]. *)
Record Results : Type := {
  processed : nat;
  sent : nat;
  failed : nat;
  skipped : nat;
  details : list pydict
}.

(** [results] together with the calls of [send_reminder_email] made so
    far, each by its invoice and reminder type. *)
Record Run : Type := {
  results : Results;
  calls : list (pydict * string)
}.

Definition no_results : Results :=
  {| processed := 0; sent := 0; failed := 0; skipped := 0; details := [] |}.

Definition incr_processed (r : Results) : Results :=
  {| processed := S (processed r); sent := sent r; failed := failed r;
     skipped := skipped r; details := details r |}.

Definition incr_sent (r : Results) : Results :=
  {| processed := processed r; sent := S (sent r); failed := failed r;
     skipped := skipped r; details := details r |}.

Definition incr_failed (r : Results) : Results :=
  {| processed := processed r; sent := sent r; failed := S (failed r);
     skipped := skipped r; details := details r |}.

Definition incr_skipped (r : Results) : Results :=
  {| processed := processed r; sent := sent r; failed := failed r;
     skipped := S (skipped r); details := details r |}.

(** [results['details'].append(detail)] *)
Definition append_detail (r : Results) (detail : pydict) : Results :=
  {| processed := processed r; sent := sent r; failed := failed r;
     skipped := skipped r; details := details r ++ [detail] |}.

(** [datetime.fromisoformat(invoice['dueDate'].replace('Z', '+00:00'))] *)
Definition due_date_of (invoice : pydict) : result datetime :=
  v <- getitem invoice "dueDate" ;;
  s <- as_str v ;;
  of_option (InvalidIsoformat (replace_Z s)) (fromisoformat (replace_Z s)).

(** [v == 'paid'] *)
Definition is_paid (v : pyval) : bool :=
  match v with
  | VStr s => String.eqb s "paid"
  | _ => false
  end.

(** [days_overdue <= 0 or invoice['status'] == 'paid'] *)
Definition not_due_or_paid (days_overdue : Z) (invoice : pydict) : result bool :=
  if (days_overdue <=? 0)%Z then Ok true
  else status <- getitem invoice "status" ;; Ok (is_paid status).

(** The [except Exception as e] block of the loop. *)
Definition handle (r : Results) (invoice : pydict) (e : exn) : Results :=
  append_detail (incr_failed r)
    [ ("invoice", get_default invoice "invoiceNumber" (VStr "Unknown"));
      ("status", VStr "failed");
      ("reason", VStr (exn_str e)) ].

(** Runs the rest of the [try] block: on an exception the counters already
    changed stay changed and the handler adds its own. *)
Definition finish (r : Results) (invoice : pydict) (detail : result pydict)
    : Results :=
  match detail with
  | Ok d => append_detail r d
  | Raise e => handle r invoice e
  end.

(** One pass of the loop [for invoice in invoices]. *)
Definition process_invoice (current_time : datetime) (run : Run)
    (invoice : pydict) : Run :=
  match due_date_of invoice with
  | Raise e =>
      {| results := handle (results run) invoice e; calls := calls run |}
  | Ok due_date =>
      let days_overdue := days_late current_time due_date in
      match not_due_or_paid days_overdue invoice with
      | Raise e =>
          {| results := handle (results run) invoice e; calls := calls run |}
      | Ok true =>
          {| results :=
               finish (incr_skipped (results run)) invoice
                 (number <- getitem invoice "invoiceNumber" ;;
                  Ok [ ("invoice", number); ("status", VStr "skipped");
                       ("reason", VStr "Not overdue or already paid") ]);
             calls := calls run |}
      | Ok false =>
          let r := incr_processed (results run) in
          let reminder_type := get_reminder_type days_overdue in
          let success :=
            send_reminder_email (List.length (calls run)) invoice reminder_type in
          {| results :=
               if success then
                 finish (incr_sent r) invoice
                   (number <- getitem invoice "invoiceNumber" ;;
                    client <- getitem invoice "clientName" ;;
                    Ok [ ("invoice", number); ("status", VStr "sent");
                         ("type", VStr reminder_type);
                         ("days_overdue", VInt days_overdue);
                         ("client", client) ])
               else
                 finish (incr_failed r) invoice
                   (number <- getitem invoice "invoiceNumber" ;;
                    Ok [ ("invoice", number); ("status", VStr "failed");
                         ("reason", VStr "Email sending failed") ]);
             calls := (calls run ++ [(invoice, reminder_type)])%list |}
      end
  end.

(** [process_overdue_invoices], with [current_time] the one reading of
    [datetime.now()] it makes. *)
Definition process_overdue_invoices (current_time : datetime)
    (invoices : list pydict) : Run :=
  fold_left (process_invoice current_time) invoices
            {| results := no_results; calls := [] |}.

(** ** Properties *)

Definition severity (reminder_type : string) : nat :=
  if String.eqb reminder_type "gentle" then 0
  else if String.eqb reminder_type "urgent" then 1
  else 2.

(** X19.  The reminder type chosen from the days overdue is always one of
    the three keys of the template table, so the template lookup of an
    automatic reminder cannot fail, and it never becomes milder as the
    days grow. *)
Theorem reminder_type_escalates (d1 d2 : Z) :
  In (get_reminder_type d1) reminder_templates
  /\ ((d1 <= d2)%Z ->
      severity (get_reminder_type d1) <= severity (get_reminder_type d2)).
Proof.
  unfold get_reminder_type, reminder_templates. split.
  - destruct (d1 <=? 7)%Z; [simpl; tauto|].
    destruct (d1 <=? 30)%Z; simpl; tauto.
  - intros Hle.
    destruct (Z.leb_spec d1 7); destruct (Z.leb_spec d2 7);
      destruct (Z.leb_spec d1 30); destruct (Z.leb_spec d2 30);
      cbn; lia.
Qed.

Lemma finish_details (r : Results) (invoice : pydict) (detail : result pydict) :
  exists d, details (finish r invoice detail) = (details r ++ [d])%list.
Proof. destruct detail; simpl; eexists; reflexivity. Qed.

Lemma process_invoice_details (current_time : datetime) (run : Run)
    (invoice : pydict) :
  exists d,
    details (results (process_invoice current_time run invoice))
    = (details (results run) ++ [d])%list.
Proof.
  unfold process_invoice.
  destruct (due_date_of invoice) as [due|e]; [|eexists; reflexivity].
  destruct (not_due_or_paid _ invoice) as [[|]|e]; cbn [results];
    [ | destruct (send_reminder_email _ _ _) | eexists; reflexivity];
    match goal with
    | |- context [finish ?r invoice ?d] =>
        destruct (finish_details r invoice d) as [x ->]; exists x; reflexivity
    end.
Qed.

Lemma fold_process_details (current_time : datetime) (invoices : list pydict)
    (run : Run) :
  List.length
    (details (results (fold_left (process_invoice current_time) invoices run)))
  = List.length (details (results run)) + List.length invoices.
Proof.
  revert run; induction invoices as [|invoice invoices IH]; intros run; simpl.
  - lia.
  - rewrite IH.
    destruct (process_invoice_details current_time run invoice) as [d ->].
    rewrite length_app. simpl. lia.
Qed.

(** X20.  [process_overdue_invoices] reports on every invoice: whatever
    the invoices hold and whatever the mail server does, the details list
    it returns has exactly one entry per invoice. *)
Theorem one_detail_per_invoice (current_time : datetime)
    (invoices : list pydict) :
  List.length (details (results (process_overdue_invoices current_time invoices)))
  = List.length invoices.
Proof.
  unfold process_overdue_invoices. now rewrite fold_process_details.
Qed.

(** The counters of a run, as the run relates them. *)
Definition counters_hold (n : nat) (run : Run) : Prop :=
  processed (results run) = List.length (calls run)
  /\ sent (results run) <= processed (results run)
  /\ skipped (results run) + processed (results run) <= n
  /\ n <= skipped (results run) + sent (results run) + failed (results run).

Lemma finish_counters (r : Results) (invoice : pydict) (detail : result pydict) :
  processed (finish r invoice detail) = processed r
  /\ sent (finish r invoice detail) = sent r
  /\ skipped (finish r invoice detail) = skipped r
  /\ failed r <= failed (finish r invoice detail).
Proof. destruct detail; simpl; repeat split; lia. Qed.

Lemma process_invoice_counters (current_time : datetime) (n : nat) (run : Run)
    (invoice : pydict) :
  counters_hold n run ->
  counters_hold (S n) (process_invoice current_time run invoice).
Proof.
  unfold counters_hold, process_invoice. intros (Hp & Hs & Hk & Hn).
  destruct (due_date_of invoice) as [due|e]; [|simpl; lia].
  destruct (not_due_or_paid _ invoice) as [[|]|e]; cbn [results calls];
    [ | | simpl; lia].
  - match goal with
    | |- context [finish ?r invoice ?d] =>
        destruct (finish_counters r invoice d) as (-> & -> & -> & Hf)
    end. simpl in *. lia.
  - rewrite length_app. cbn [List.length].
    destruct (send_reminder_email _ _ _);
      match goal with
      | |- context [finish ?r invoice ?d] =>
          destruct (finish_counters r invoice d) as (-> & -> & -> & Hf)
      end; simpl in *; lia.
Qed.

Lemma fold_process_counters (current_time : datetime) (invoices : list pydict)
    (n : nat) (run : Run) :
  counters_hold n run ->
  counters_hold (n + List.length invoices)
    (fold_left (process_invoice current_time) invoices run).
Proof.
  revert n run; induction invoices as [|invoice invoices IH]; intros n run H;
    simpl.
  - now rewrite Nat.add_0_r.
  - replace (n + S (List.length invoices)) with (S n + List.length invoices)
      by lia.
    apply IH. now apply process_invoice_counters.
Qed.

(** X21.  The counters that [process_overdue_invoices] returns are
    consistent with what it did: [processed] is the number of reminders it
    tried to send, [sent] never exceeds it, no invoice is both skipped and
    processed, and every invoice is counted at least once as skipped, sent
    or failed. *)
Theorem reminder_counters (current_time : datetime) (invoices : list pydict) :
  counters_hold (List.length invoices)
    (process_overdue_invoices current_time invoices).
Proof.
  apply (fold_process_counters current_time invoices 0).
  unfold counters_hold. simpl. lia.
Qed.

(** What holds of an invoice that a reminder is sent for. *)
Definition due_for_reminder (current_time : datetime) (invoice : pydict)
    (reminder_type : string) : Prop :=
  exists due_date status,
    due_date_of invoice = Ok due_date
    /\ (0 < days_late current_time due_date)%Z
    /\ dict_get invoice "status" = Some status
    /\ is_paid status = false
    /\ reminder_type = get_reminder_type (days_late current_time due_date).

Lemma process_invoice_calls (current_time : datetime) (run : Run)
    (invoice : pydict) :
  calls (process_invoice current_time run invoice) = calls run
  \/ exists reminder_type,
       calls (process_invoice current_time run invoice)
       = (calls run ++ [(invoice, reminder_type)])%list
       /\ due_for_reminder current_time invoice reminder_type.
Proof.
  unfold process_invoice.
  destruct (due_date_of invoice) as [due|e] eqn:Hdue; [|now left].
  destruct (not_due_or_paid _ invoice) as [[|]|e] eqn:Htest;
    [now left | | now left].
  right. eexists. split; [reflexivity|].
  unfold not_due_or_paid in Htest.
  destruct (Z.leb_spec (days_late current_time due) 0); [discriminate|].
  unfold getitem in Htest.
  destruct (dict_get invoice "status") as [status|] eqn:Hstatus;
    [|discriminate].
  cbn [bind] in Htest. injection Htest as Hpaid.
  exists due, status. repeat split; try assumption; reflexivity.
Qed.

Lemma fold_process_calls (current_time : datetime) (invoices : list pydict)
    (run : Run) (P : pydict * string -> Prop) :
  (forall invoice reminder_type,
     In invoice invoices ->
     due_for_reminder current_time invoice reminder_type ->
     P (invoice, reminder_type)) ->
  Forall P (calls run) ->
  Forall P (calls (fold_left (process_invoice current_time) invoices run)).
Proof.
  revert run; induction invoices as [|invoice invoices IH]; intros run HP Hrun;
    simpl; [exact Hrun|].
  apply IH; [intros inv t Hin; apply HP; now right|].
  destruct (process_invoice_calls current_time run invoice)
    as [-> | (t & -> & Hdue)]; [exact Hrun|].
  apply Forall_app. split; [exact Hrun|].
  constructor; [|constructor]. apply HP; [now left | exact Hdue].
Qed.

(** X22.  [process_overdue_invoices] sends a reminder only for an invoice
    of the batch whose due date parses and lies at least one day back and
    whose status is not paid, and the reminder it sends has the type that
    the days overdue select. *)
Theorem reminders_only_for_overdue_unpaid (current_time : datetime)
    (invoices : list pydict) :
  Forall (fun call =>
            In (fst call) invoices
            /\ due_for_reminder current_time (fst call) (snd call))
         (calls (process_overdue_invoices current_time invoices)).
Proof.
  unfold process_overdue_invoices.
  apply fold_process_calls; [|constructor].
  intros invoice reminder_type Hin Hdue. now split.
Qed.

(** ** One failing invoice among others *)

(** A run that made [n] calls and has reported nothing yet. *)
Definition blank (n : nat) : Run :=
  {| results := no_results; calls := repeat ([], EmptyString) n |}.

(** [run] advanced by what [delta], started from [blank n], did. *)
Definition advance (run delta : Run) (n : nat) : Run :=
  {| results :=
       {| processed := processed (results run) + processed (results delta);
          sent := sent (results run) + sent (results delta);
          failed := failed (results run) + failed (results delta);
          skipped := skipped (results run) + skipped (results delta);
          details := details (results run) ++ details (results delta) |};
     calls := calls run ++ skipn n (calls delta) |}.

Lemma finish_advance (r : Results) (invoice : pydict) (detail : result pydict)
    (p s f k : nat) :
  processed r = p -> sent r = s -> failed r = f -> skipped r = k ->
  details r = [] ->
  forall r0 : Results,
    finish {| processed := processed r0 + p; sent := sent r0 + s;
              failed := failed r0 + f; skipped := skipped r0 + k;
              details := details r0 |} invoice detail
    = {| processed := processed r0 + processed (finish r invoice detail);
         sent := sent r0 + sent (finish r invoice detail);
         failed := failed r0 + failed (finish r invoice detail);
         skipped := skipped r0 + skipped (finish r invoice detail);
         details := details r0 ++ details (finish r invoice detail) |}.
Proof.
  intros <- <- <- <- Hd r0.
  destruct detail; unfold finish, handle, append_detail, incr_failed; simpl;
    rewrite Hd; simpl; f_equal; lia.
Qed.

Lemma results_eta (r : Results) (p s f k : nat) :
  p = processed r -> s = sent r -> f = failed r -> k = skipped r ->
  {| processed := p; sent := s; failed := f; skipped := k;
     details := details r |} = r.
Proof. intros -> -> -> ->. now destruct r. Qed.

(** One pass changes a run by an amount that depends on the run only
    through the number of calls made so far. *)
Lemma process_invoice_advance (current_time : datetime) (run : Run)
    (invoice : pydict) :
  process_invoice current_time run invoice
  = advance run
      (process_invoice current_time (blank (List.length (calls run))) invoice)
      (List.length (calls run)).
Proof.
  unfold process_invoice, advance.
  destruct (due_date_of invoice) as [due|e].
  2:{ cbn [results calls blank]. rewrite skipn_all2 by (rewrite repeat_length; lia).
      rewrite app_nil_r. f_equal. unfold handle, append_detail, incr_failed.
      simpl. f_equal; lia. }
  destruct (not_due_or_paid _ invoice) as [[|]|e].
  3:{ cbn [results calls blank]. rewrite skipn_all2 by (rewrite repeat_length; lia).
      rewrite app_nil_r. f_equal. unfold handle, append_detail, incr_failed.
      simpl. f_equal; lia. }
  - cbn [results calls blank]. rewrite skipn_all2 by (rewrite repeat_length; lia).
    rewrite app_nil_r. f_equal.
    rewrite <- (finish_advance (incr_skipped no_results) invoice _ 0 0 0 1)
      by reflexivity.
    f_equal. unfold incr_skipped. f_equal; lia.
  - cbn [results calls blank]. rewrite repeat_length.
    rewrite skipn_app, repeat_length, Nat.sub_diag.
    rewrite (skipn_all2 (repeat _ _)) by (rewrite repeat_length; lia).
    cbn [skipn app]. f_equal.
    destruct (send_reminder_email _ invoice _).
    + rewrite <- (finish_advance (incr_sent (incr_processed no_results))
                    invoice _ 1 1 0 0) by reflexivity.
      f_equal. unfold incr_sent, incr_processed. simpl. f_equal; lia.
    + rewrite <- (finish_advance (incr_failed (incr_processed no_results))
                    invoice _ 1 0 1 0) by reflexivity.
      f_equal. unfold incr_failed, incr_processed. simpl. f_equal; lia.
Qed.

(** [run1] is [run0] with one more failure, reported by [d] at position
    [k] of the details. *)
Definition one_more_failure (k : nat) (d : pydict) (run0 run1 : Run) : Prop :=
  calls run1 = calls run0
  /\ processed (results run1) = processed (results run0)
  /\ sent (results run1) = sent (results run0)
  /\ skipped (results run1) = skipped (results run0)
  /\ failed (results run1) = S (failed (results run0))
  /\ details (results run1)
     = (firstn k (details (results run0)) ++ d
        :: skipn k (details (results run0)))%list.

Lemma process_invoice_one_more_failure (current_time : datetime) (k : nat)
    (d : pydict) (run0 run1 : Run) (invoice : pydict) :
  k <= List.length (details (results run0)) ->
  one_more_failure k d run0 run1 ->
  one_more_failure k d (process_invoice current_time run0 invoice)
                       (process_invoice current_time run1 invoice).
Proof.
  intros Hk (Hc & Hp & Hs & Hsk & Hf & Hd).
  rewrite (process_invoice_advance current_time run0),
    (process_invoice_advance current_time run1).
  rewrite Hc. unfold one_more_failure, advance. cbn [results calls processed
    sent failed skipped details].
  rewrite Hp, Hs, Hsk, Hf, Hd.
  repeat split; try lia.
  - now rewrite Hc.
  - rewrite firstn_app, skipn_app.
    replace (k - List.length (details (results run0))) with 0 by lia.
    rewrite firstn_O, skipn_O, app_nil_r, <- app_assoc. reflexivity.
Qed.

Lemma fold_one_more_failure (current_time : datetime) (k : nat) (d : pydict)
    (invoices : list pydict) (run0 run1 : Run) :
  k <= List.length (details (results run0)) ->
  one_more_failure k d run0 run1 ->
  one_more_failure k d
    (fold_left (process_invoice current_time) invoices run0)
    (fold_left (process_invoice current_time) invoices run1).
Proof.
  revert run0 run1; induction invoices as [|invoice invoices IH];
    intros run0 run1 Hk H; simpl; [exact H|].
  apply IH.
  - destruct (process_invoice_details current_time run0 invoice) as [x ->].
    rewrite length_app. lia.
  - now apply process_invoice_one_more_failure.
Qed.

(** X23.  One invoice whose due date is missing, is no string or does not
    parse costs the batch nothing else: compared with the same batch
    without it, [process_overdue_invoices] makes the same calls of
    [send_reminder_email], returns the same [processed], [sent] and
    [skipped], one more [failed], and the same details with one failed
    entry, carrying the text of the exception, inserted at the invoice's
    position. *)
Theorem failing_invoice_is_isolated (current_time : datetime)
    (before after : list pydict) (bad : pydict) (e : exn) :
  due_date_of bad = Raise e ->
  one_more_failure (List.length before)
    [ ("invoice", get_default bad "invoiceNumber" (VStr "Unknown"));
      ("status", VStr "failed");
      ("reason", VStr (exn_str e)) ]
    (process_overdue_invoices current_time (before ++ after))
    (process_overdue_invoices current_time (before ++ bad :: after)).
Proof.
  intros Hbad. unfold process_overdue_invoices.
  rewrite !fold_left_app. cbn [fold_left].
  set (run := fold_left (process_invoice current_time) before
                {| results := no_results; calls := [] |}).
  assert (Hlen : List.length (details (results run)) = List.length before).
  { unfold run. now rewrite fold_process_details. }
  apply fold_one_more_failure; [lia|].
  unfold one_more_failure, process_invoice. rewrite Hbad.
  cbn [results calls handle append_detail incr_failed processed sent failed
       skipped details].
  repeat split.
  rewrite <- Hlen, firstn_all, skipn_all. reflexivity.
Qed.

End Reminders.

(** * Closed examples, on the concrete library *)

Import Sample.

Definition widget : pyval :=
  VDict [ ("name", VStr "Widget"); ("quantity", VInt 2); ("rate", VInt 50);
          ("amount", VInt 100) ].

Definition gadget : pyval :=
  VDict [ ("name", VStr "Gadget"); ("description", VStr "small");
          ("quantity", VInt 1); ("rate", VInt 10); ("amount", VInt 10) ].

(** The invoice of the specification's example, without VAT. *)
Definition acme : pydict :=
  [ ("invoiceNumber", VStr "INV-1"); ("clientName", VStr "Acme");
    ("clientEmail", VStr "billing@acme.test");
    ("addressLine1", VStr "1 Main Street"); ("city", VStr "Paris");
    ("country", VStr "FR");
    ("invoiceDate", VStr "2024-01-15T10:30:00Z"); ("dueDate", VStr "2024-02-14");
    ("subtotal", VInt 100); ("total", VInt 110); ("status", VStr "sent");
    ("items", VList [widget]) ].

Definition acme_two_items : pydict := dict_set acme "items" (VList [widget; gadget]).

(** The same invoice with a due date that is no ISO date. *)
Definition acme_bad_date : pydict :=
  dict_set (dict_set acme "invoiceNumber" (VStr "INV-2"))
           "dueDate" (VStr "15/03/2024").

Definition at_time (h mi sec : nat) : date_time :=
  {| year := 2024; month := 3; day := 1; hour := h; minute := mi; second := sec |}.

Definition morning : Clock :=
  {| now_first := at_time 9 0 0; now_second := at_time 9 0 0 |}.

Definition evening : Clock :=
  {| now_first := at_time 18 30 5; now_second := at_time 18 30 5 |}.

Definition items_table : Table :=
  {| ncols := 3;
     rows := [ ["Item"; "Qty"; "Amount"];
               ["{{item_name}}"; "{{item_quantity}}"; "{{item_amount}} of {{total}}"];
               ["sample row"; "1"; "$1.00"] ] |}.

Definition invoice_template : Document :=
  {| paragraphs := ["Invoice {{invoice_number}} for {{client_name}}"];
     tables := [ {| ncols := 2;
                    rows := [ ["Item"; "Amount"];
                              ["{{item_name}}"; "{{item_amount}}"] ] |} ];
     sections := [] |}.

Definition rendered_invoice : Document :=
  {| paragraphs := ["Invoice INV-1 for Acme"];
     tables := [ {| ncols := 2;
                    rows := [ ["Item"; "Amount"];
                              ["{{item_name}}"; "{{item_amount}}"];
                              ["Widget"; "$100.00"] ] |} ];
     sections := [] |}.

(** The compact encoding that a JavaScript client produces. *)
Definition widget_json : string :=
  String.concat (String DQUOTE EmptyString)
    [ "[{"; "name"; ":"; "Widget"; ","; "quantity"; ":2,"; "rate"; ":50,";
      "amount"; ":100}]" ].

(** C1, counterexample.  A batch of a good invoice and one with a malformed
    due date: every format raises the date error and returns no text, while
    the good invoice alone exports in every format. *)
Lemma malformed_date_loses_whole_batch :
  Forall (fun format_type =>
            is_ok (export_invoices morning [acme] format_type) = true
            /\ export_invoices morning [acme; acme_bad_date] format_type
               = Raise (InvalidIsoformat "15/03/2024"))
         supported_formats.
Proof. repeat constructor; vm_compute; reflexivity. Qed.

Lemma malformed_date_aborts_export_witness :
  is_ok (export_invoices morning ([acme] ++ acme_bad_date :: [acme]) "wave_csv")
  = false.
Proof.
  apply (malformed_date_aborts_export morning [acme] [acme] acme_bad_date
           "dueDate" "15/03/2024" "wave_csv").
  - simpl; tauto.
  - right; reflexivity.
  - reflexivity.
  - reflexivity.
  - intros _. vm_compute. discriminate.
Defined.

(** C2, counterexample.  The same one-invoice list exported twice as
    quickbooks_iif, at two different times of day, gives two different
    texts. *)
Lemma iif_differs_between_calls :
  is_ok (export_invoices morning [acme] "quickbooks_iif") = true
  /\ export_invoices morning [acme] "quickbooks_iif"
     <> export_invoices evening [acme] "quickbooks_iif".
Proof. split; [reflexivity|]. vm_compute. discriminate. Qed.

Lemma export_same_unless_iif_clock_witness :
  export_invoices morning [acme] "wave_csv"
  = export_invoices evening [acme] "wave_csv".
Proof.
  apply (export_same_unless_iif_clock morning evening [acme] "wave_csv").
  left. discriminate.
Defined.

(** C3, counterexample.  A two-row item table rendered for an invoice with
    one item has three rows: the literal template row is still the second
    one, followed by the single item row. *)
Lemma template_row_left_in_rendered_table :
  process_document invoice_template acme = Ok rendered_invoice
  /\ map (fun table => List.length (rows table)) (tables rendered_invoice) = [3]
  /\ map (fun table => nth 1 (rows table) []) (tables rendered_invoice)
     = [["{{item_name}}"; "{{item_amount}}"]].
Proof. repeat split; vm_compute; reflexivity. Qed.

Lemma template_row_stays_witness :
  Forall2
    (fun table table' =>
       forall tri, find_template_row table = Some tri ->
         nth_error (rows table') tri = nth_error (rows table) tri
         /\ contains "{{item_" (String.concat " " (nth tri (rows table') [])) = true
         /\ ([widget] <> [] -> List.length (rows table') = S tri + List.length [widget])
         /\ ([widget] = [] -> table' = table))
    (tables invoice_template) (tables rendered_invoice).
Proof.
  apply (template_row_stays invoice_template rendered_invoice acme [widget]).
  - vm_compute. reflexivity.
  - reflexivity.
Defined.

(** C4, counterexample.  The invoice of the specification's example has a
    total of 110 and one item of amount 100: the TRNS line carries 110 and
    its only SPL line carries -100, which is not -110. *)
Lemma splits_do_not_net_against_total :
  exists trns spl,
    iif_invoice acme = Ok [trns; spl]
    /\ read_amount (trns_amount trns) = Some 110%Z
    /\ sum (map Z.opp [100%Z]) = (-100)%Z
    /\ read_amount (spl_amount spl) = Some (-100)%Z
    /\ (-100)%Z <> (- 110)%Z.
Proof.
  eexists. eexists. split; [vm_compute; reflexivity|].
  repeat split; try (vm_compute; reflexivity). discriminate.
Qed.

Lemma iif_amounts_witness :
  exists trns spls,
    [ [ "TRNS"; "INVOICE"; "01/15/2024"; "Accounts Receivable"; "Acme";
        EmptyString; "110"; "INV-1"; EmptyString; "N"; "Y"; "1 Main Street";
        "Paris"; "FR"; EmptyString; EmptyString; "02/14/2024"; "Net 30"; "N";
        EmptyString ];
      [ "SPL"; "01/15/2024"; "Sales"; "Acme"; EmptyString; "-100"; "INV-1";
        "Widget: "; "N"; "Y" ] ] = trns :: spls
    /\ read_amount (trns_amount trns) = Some 110%Z
    /\ map (fun spl => read_amount (spl_amount spl)) spls
       = map (fun a => Some (- a)%Z) [100%Z]
    /\ (sum (map Z.opp [100%Z]) = (- 110)%Z <-> 110%Z = sum [100%Z]).
Proof.
  apply (iif_amounts acme _ 110%Z [widget] [100%Z]).
  - vm_compute. reflexivity.
  - reflexivity.
  - reflexivity.
  - repeat constructor. discriminate.
Defined.

(** C5, counterexample.  A table with a row after its template row,
    processed for an invoice without items, comes back as it was: the row
    after the template row is neither removed nor generated, so the table
    is not its header and template rows followed by zero new rows. *)
Lemma stale_row_kept_without_items :
  process_table_rows items_table (VList []) 1 = Ok items_table
  /\ ~ (exists new_rows,
          rows items_table = (firstn 2 (rows items_table) ++ new_rows)%list
          /\ List.length new_rows = 0).
Proof.
  split; [reflexivity|].
  intros (new_rows & Hrows & Hlen).
  destruct new_rows; [discriminate Hrows | discriminate Hlen].
Qed.

Lemma item_rows_appended_witness :
  ([widget; gadget] <> [] ->
   exists new_rows,
     process_table_rows items_table (VList [widget; gadget]) 1
     = Ok {| ncols := ncols items_table;
             rows := firstn 2 (rows items_table) ++ new_rows |}
     /\ List.length new_rows = List.length [widget; gadget])
  /\ process_table_rows items_table (VList []) 1 = Ok items_table.
Proof.
  apply (item_rows_appended items_table [widget; gadget] 1).
  - simpl; lia.
  - repeat constructor.
Defined.

(** The invoice with two items and a total that is JSON null. *)
Definition acme_null_total : pydict := dict_set acme_two_items "total" VNone.

(** C6, counterexample.  An invoice with two items whose total is None
    exports without an error: two rows are written for it and the Invoice
    total column is empty in both, the first included. *)
Lemma null_total_leaves_every_row_blank :
  export_invoices morning [acme_null_total] "wave_csv"
  = Ok (String.concat CRLF
          [ String.concat "," wave_fieldnames;
            "Acme,billing@acme.test,INV-1,2024-01-15,2024-02-14,Widget,,2,50.00,100.00,,,,Sent";
            "Acme,billing@acme.test,INV-1,2024-01-15,2024-02-14,Gadget,small,1,10.00,10.00,,,,Sent";
            EmptyString ])
  /\ exists written,
       wave_invoice acme_null_total = Ok written
       /\ List.length written = 2
       /\ ~ (exists row, In row written /\ total_field row <> EmptyString).
Proof.
  split; [vm_compute; reflexivity|].
  eexists. split; [vm_compute; reflexivity|]. split; [reflexivity|].
  intros (row & [<-|[<-|[]]] & Hrow); apply Hrow; reflexivity.
Qed.

(** C6, witness: an invoice with two items between two other invoices. *)
Lemma wave_total_on_first_row_only_witness :
  exists rows_before written rows_after,
    mapM wave_invoice [acme] = Ok rows_before
    /\ wave_invoice acme_two_items = Ok written
    /\ mapM wave_invoice [acme_null_total] = Ok rows_after
    /\ export_invoices morning ([acme] ++ acme_two_items :: [acme_null_total])
         "wave_csv"
       = Ok (csv_text wave_fieldnames
               (List.concat rows_before ++ written ++ List.concat rows_after))
    /\ List.length written = List.length [widget; gadget]
    /\ exists first rest,
         written = first :: rest
         /\ total_field first = csv_cell (VInt 110)
         /\ Forall (fun row => total_field row = EmptyString) rest
         /\ ((VInt 110 : pyval) = VNone \/ (VInt 110 : pyval) = VStr EmptyString ->
             total_field first = EmptyString)
         /\ (forall z, (VInt 110 : pyval) = VInt z ->
             total_field first <> EmptyString).
Proof.
  eexists. eexists. eexists.
  split; [vm_compute; reflexivity|].
  split; [vm_compute; reflexivity|].
  split; [vm_compute; reflexivity|].
  apply (wave_total_on_first_row_only morning [acme] [acme_null_total]
           acme_two_items (VInt 110) [widget; gadget]).
  - reflexivity.
  - discriminate.
  - reflexivity.
  - vm_compute. reflexivity.
  - vm_compute. reflexivity.
  - vm_compute. reflexivity.
Defined.

(** C7, witness: the example of the specification. *)
Lemma unknown_token_left_verbatim_witness :
  replace_template_variables "{{unknownField}}" [("total", VStr "$110.00")]
  = "{{unknownField}}".
Proof.
  apply (unknown_token_left_verbatim [("total", VStr "$110.00")]
           EmptyString "unknownField" EmptyString).
  - discriminate.
  - reflexivity.
  - reflexivity.
Defined.

(** C8, counterexample.  The compact JSON text decodes to the one-item
    sequence, yet the generic CSV export of the invoice carrying the text
    differs from the export of the invoice carrying the sequence: the
    Items JSON column holds the text as supplied in one and the spaced
    text of [json.dumps] in the other. *)
Lemma generic_csv_depends_on_items_encoding :
  json_loads widget_json = Some (VList [widget])
  /\ is_ok (export_invoices morning [dict_set acme "items" (VStr widget_json)]
              "generic_csv") = true
  /\ export_invoices morning [dict_set acme "items" (VStr widget_json)] "generic_csv"
     <> export_invoices morning [dict_set acme "items" (VList [widget])] "generic_csv".
Proof.
  split; [vm_compute; reflexivity|]. split; [vm_compute; reflexivity|].
  vm_compute. discriminate.
Qed.

Lemma items_string_or_sequence_witness :
  export_invoices morning
    ([acme] ++ dict_set acme "items" (VStr widget_json) :: []) "wave_csv"
  = export_invoices morning
      ([acme] ++ dict_set acme "items" (VList [widget]) :: []) "wave_csv".
Proof.
  apply (items_string_or_sequence morning [acme] [] acme widget_json [widget]
           "wave_csv").
  - vm_compute. reflexivity.
  - left. simpl. tauto.
Defined.

(** C10, witness: the item table of the example, processed with any
    invoice-level mapping. *)
Lemma item_table_frame_witness :
  firstn 2 (rows {| ncols := 3;
                    rows := firstn 2 (rows items_table)
                            ++ [["Widget"; "2"; "$100.00 of {{total}}"]] |})
  = firstn 2 (rows items_table).
Proof.
  apply (item_table_frame [("total", VStr "$110.00")] (VList [widget])
           items_table _ 1).
  - vm_compute. reflexivity.
  - vm_compute. reflexivity.
Defined.

(** * Closed examples for the further properties *)

Definition acme_no_items : pydict := dict_set acme "items" (VList []).

Definition summary_page : Document :=
  {| paragraphs := ["Total due: {{total}}"; EmptyString];
     tables := [default_summary_table];
     sections := [ {| header_paragraphs := ["{{company_name}}"];
                      footer_paragraphs := ["{{thank_you_message}}"] |} ] |}.

Lemma csv_export_of_concatenation_witness :
  exists bx by_,
    export_invoices morning ([acme] ++ [acme_two_items]) "sage_csv"
    = Ok (csv_line (fieldnames_of "sage_csv") ++ bx ++ by_)%string.
Proof.
  edestruct (csv_export_of_concatenation morning [acme] [acme_two_items]
               "sage_csv") as (bx & by_ & _ & _ & H).
  - simpl; tauto.
  - discriminate.
  - vm_compute. reflexivity.
  - vm_compute. reflexivity.
  - exists bx, by_. exact H.
Defined.

Lemma export_of_empty_batch_witness :
  export_invoices morning [] "wave_csv"
  = Ok (if String.eqb "wave_csv" "quickbooks_iif"
        then String.concat NEWLINE
               [iif_hdr_names; iif_hdr morning; iif_trns_names; "ENDTRNS"]
        else csv_line (fieldnames_of "wave_csv")).
Proof. apply (export_of_empty_batch morning "wave_csv"). simpl; tauto. Defined.

Lemma written_rows_carry_the_fieldnames_witness :
  exists written,
    written_rows "wave_csv" [acme_two_items; acme] = Ok written
    /\ Forall (fun row => map fst row = fieldnames_of "wave_csv") written.
Proof.
  eexists. split; [vm_compute; reflexivity|].
  apply (written_rows_carry_the_fieldnames "wave_csv" [acme_two_items; acme]).
  vm_compute. reflexivity.
Defined.

Lemma one_row_per_item_witness :
  exists written,
    xero_invoice acme_two_items = Ok written
    /\ List.length written = List.length [widget; gadget].
Proof.
  eexists. split; [vm_compute; reflexivity|].
  apply (one_row_per_item acme_two_items [widget; gadget]).
  - reflexivity.
  - left. vm_compute. reflexivity.
Defined.

Lemma invoice_without_items_is_dropped_witness :
  export_invoices morning ([acme] ++ acme_no_items :: [acme_two_items]) "xero_csv"
  = export_invoices morning ([acme] ++ [acme_two_items]) "xero_csv".
Proof.
  apply (invoice_without_items_is_dropped morning [acme] [acme_two_items]
           acme_no_items "xero_csv").
  - reflexivity.
  - left. reflexivity.
Defined.

Lemma sage_agrees_with_generic_witness :
  exists generic sage,
    generic_row acme = Ok generic
    /\ sage_row acme = Ok sage
    /\ dict_get sage "Tax_Amount" = dict_get generic "Tax Amount"
    /\ dict_get sage "Total_Amount" = dict_get acme "total".
Proof.
  eexists.
  edestruct (sage_agrees_with_generic acme) as (sage & Hs & _ & _ & _ & Ht & _ & _ & _ & Htot).
  - vm_compute. reflexivity.
  - exists sage. split; [reflexivity|]. split; [exact Hs|].
    split; [exact Ht | exact Htot].
Defined.

Lemma iif_record_shape_witness :
  exists output,
    export_invoices morning [acme_two_items; acme] "quickbooks_iif" = Ok output
    /\ map (fun line => List.length (split_char tab line)) (split_char LF output)
       = [8; 8; 20; 20; 10; 10; 20; 10; 1]
    /\ exists records,
         mapM iif_invoice [acme_two_items; acme] = Ok records
         /\ output = String.concat NEWLINE (iif_lines morning records)
         /\ (count_in LF (iif_lines morning records) = 0 ->
             split_char LF output = iif_lines morning records)
         /\ Forall2
              (fun invoice invoice_records =>
                 exists trns spls items,
                   invoice_records = trns :: spls
                   /\ bind (load_items invoice) py_iter = Ok items
                   /\ List.length spls = List.length items
                   /\ record_on_line "TRNS" 20 trns
                   /\ Forall (fun spl =>
                                record_on_line "SPL" 10 spl
                                /\ nth 1 spl EmptyString = nth 2 trns EmptyString
                                /\ nth 3 spl EmptyString = nth 4 trns EmptyString
                                /\ nth 6 spl EmptyString = nth 7 trns EmptyString)
                             spls)
              [acme_two_items; acme] records.
Proof.
  eexists. split; [vm_compute; reflexivity|].
  split; [vm_compute; reflexivity|].
  apply (iif_record_shape morning [acme_two_items; acme]).
  vm_compute. reflexivity.
Defined.

Lemma known_token_replaced_witness :
  replace_template_variables
    ("Total: " ++ "{{" ++ "total" ++ "}}" ++ " due") [("total", VStr "$110.00")]
  = (replace_template_variables "Total: " [("total", VStr "$110.00")]
     ++ py_str (VStr "$110.00")
     ++ replace_template_variables " due" [("total", VStr "$110.00")])%string.
Proof.
  apply (known_token_replaced [("total", VStr "$110.00")] "Total: " "total"
           " due" (VStr "$110.00")).
  - discriminate.
  - reflexivity.
  - reflexivity.
Defined.

Lemma text_without_tokens_unchanged_witness :
  replace_template_variables "Thank you {for} your business!"
    [("total", VStr "$110.00")]
  = "Thank you {for} your business!".
Proof.
  apply (text_without_tokens_unchanged [("total", VStr "$110.00")]).
  reflexivity.
Defined.

Lemma generated_rows_fit_the_grid_witness :
  ncols {| ncols := 3;
           rows := firstn 2 (rows items_table)
                   ++ [["Widget"; "2"; "$100.00 of {{total}}"]] |}
  = ncols items_table
  /\ Forall (fun row =>
               List.length row = ncols items_table
               /\ forall i, List.length (nth 1 (rows items_table) []) <= i ->
                            i < ncols items_table ->
                            nth_error row i = Some EmptyString)
            (skipn 2 (rows {| ncols := 3;
                              rows := firstn 2 (rows items_table)
                                      ++ [["Widget"; "2"; "$100.00 of {{total}}"]] |})).
Proof.
  apply (generated_rows_fit_the_grid items_table _ (VList [widget]) 1).
  - simpl; lia.
  - reflexivity.
  - vm_compute. reflexivity.
Defined.

Lemma renderer_rejects_items_string_witness :
  process_table [] (VStr widget_json) items_table = Raise AttributeError.
Proof.
  apply (renderer_rejects_items_string [] items_table 1 widget_json).
  - reflexivity.
  - simpl; lia.
  - discriminate.
Defined.

Lemma process_document_keeps_shape_witness :
  List.length (paragraphs rendered_invoice)
  = List.length (paragraphs invoice_template).
Proof.
  apply (process_document_keeps_shape invoice_template rendered_invoice acme).
  vm_compute. reflexivity.
Defined.

Lemma rendering_succeeds_witness :
  exists data doc',
    replacement_data [] = Ok data
    /\ map fst data = replacement_keys
    /\ process_document summary_page [] = Ok doc'.
Proof.
  apply (rendering_succeeds summary_page []).
  - repeat constructor.
  - repeat constructor.
Defined.

Lemma default_template_tables_witness :
  exists data,
    replacement_data acme = Ok data
    /\ process_table data (VList [widget]) default_header_table
       = Ok default_header_table.
Proof.
  eexists. split; [vm_compute; reflexivity|].
  apply (default_template_tables acme _ (VList [widget])).
  vm_compute. reflexivity.
Defined.

(** ** A concrete mailer *)

Module SampleMailer.

(** Days from 1970-01-01 to a date of the proleptic Gregorian calendar. *)
Definition days_from_civil (y m d : Z) : Z :=
  let y' := if (m <=? 2)%Z then (y - 1)%Z else y in
  let era := (y' / 400)%Z in
  let yoe := (y' - era * 400)%Z in
  let mp := ((m + 9) mod 12)%Z in
  let doy := ((153 * mp + 2) / 5 + d - 1)%Z in
  let doe := (yoe * 365 + yoe / 4 - yoe / 100 + doy)%Z in
  (era * 146097 + doe - 719468)%Z.

Definition seconds_of (dt : date_time) : Z :=
  (days_from_civil (Z.of_nat (year dt)) (Z.of_nat (month dt)) (Z.of_nat (day dt))
   * 86400
   + Z.of_nat (hour dt) * 3600 + Z.of_nat (minute dt) * 60
   + Z.of_nat (second dt))%Z.

(** [timedelta.days]: whole days, rounded down. *)
Definition whole_days (current_time due_date : date_time) : Z :=
  ((seconds_of current_time - seconds_of due_date) / 86400)%Z.

(** The text of the exceptions that the examples meet. *)
Definition error_text (e : exn) : string :=
  match e with
  | KeyError key => "'" ++ key ++ "'"
  | InvalidIsoformat s => "Invalid isoformat string: '" ++ s ++ "'"
  | UnsupportedFormat f => "Unsupported format: " ++ f
  | _ => "error"
  end.

#[export] Instance mailer : Mailer := {|
  days_late := whole_days;
  exn_str := error_text;
  send_reminder_email := fun n _ _ => Nat.even n
|}.

End SampleMailer.

Import SampleMailer.

Definition march_first : datetime := at_time 9 0 0.

Lemma failing_invoice_is_isolated_witness :
  one_more_failure (List.length [acme])
    [ ("invoice", get_default acme_bad_date "invoiceNumber" (VStr "Unknown"));
      ("status", VStr "failed");
      ("reason", VStr (exn_str (InvalidIsoformat "15/03/2024"))) ]
    (process_overdue_invoices march_first ([acme] ++ [acme_two_items]))
    (process_overdue_invoices march_first
       ([acme] ++ acme_bad_date :: [acme_two_items])).
Proof.
  apply (failing_invoice_is_isolated march_first [acme] [acme_two_items]
           acme_bad_date (InvalidIsoformat "15/03/2024")).
  vm_compute. reflexivity.
Defined.
